(** * CodeGuard: the retrieval-augmented analysis pipeline

    A shallow embedding of [app/rag/chunker.py], [app/rag/embeddings.py],
    [app/rag/vector_store.py], [app/core/llm.py] and
    [app/scanner/scanner.py], and the properties of the pipeline that the
    design document states about them.

    Python [int] is [Z]; [str] is [string], a sequence of one-byte
    characters; a [dict] with string keys is a [gmap string _]; a [list] is
    a [list].  Code that can raise returns a sum whose left side is the
    exception; only exceptions caught by [except Exception] are modelled.
    Calls into libraries and services (the embedding model, Qdrant, the
    language-model providers, git and the file system) go through the
    record [Env]. *)

From Stdlib Require Import ZArith QArith Lia List Ascii String DecimalString.
From stdpp Require Import base option list strings gmap.

Local Open Scope string_scope.
Local Open Scope list_scope.
Local Open Scope Z_scope.

(** ** Values stored in dictionaries (chunk metadata, point payloads) *)

Inductive Value :=
| VInt (n : Z)
| VStr (s : string).

#[global] Instance Value_eq_dec : EqDecision Value.
Proof. solve_decision. Defined.

(** A Python [float].  No arithmetic is done on floats in the code embedded
    here: they are carried from the embedding model to the vector store and
    compared there.  A rational stands in for the binary64 value. *)
Definition float : Type := Q.

(** An embedding: [List[float]]. *)
Definition Vector : Type := list float.

(** [str(uuid.uuid4())]: identifiers are drawn from a supply of fresh
    naturals kept in the world (see [Runtime.uuid4]) and printed. *)
Definition Uuid : Type := string.

Definition uuid_of_nat (n : nat) : Uuid :=
  String.append "uuid-" (NilZero.string_of_uint (Nat.to_uint n)).

(** ** Exceptions, JSON values and the effect monad *)

Module Runtime.

(** A raised exception: its class name and [str(e)]. *)
Inductive Exception := Exc (cls : string) (msg : string).

Definition exc_class (e : Exception) : string := let 'Exc c _ := e in c.
Definition str_exc (e : Exception) : string := let 'Exc _ m := e in m.

(** What [json.loads] returns. *)
#[warnings="-register-all"]
Inductive Json :=
| JNull
| JBool (b : bool)
| JInt (n : Z)
| JFloat (q : float)
| JStr (s : string)
| JArr (items : list Json)
| JObj (fields : list (string * Json)).

(** [bool(v)] *)
Definition truthy (v : Json) : bool :=
  match v with
  | JNull => false
  | JBool b => b
  | JInt n => negb (n =? 0)
  | JFloat q => negb (Qeq_bool q 0)
  | JStr s => negb (String.eqb s "")
  | JArr items => match items with [] => false | _ => true end
  | JObj fields => match fields with [] => false | _ => true end
  end.

(** Key lookup in the field list of an object. *)
Fixpoint assoc (key : string) (fields : list (string * Json)) : option Json :=
  match fields with
  | [] => None
  | (k, v) :: rest => if String.eqb k key then Some v else assoc key rest
  end.

(** [obj.get(key, default)]: only a dictionary has the method. *)
Definition json_get (obj : Json) (key : string) (default : Json)
  : Exception + Json :=
  match obj with
  | JObj fields =>
      inr (match assoc key fields with Some v => v | None => default end)
  | _ => inl (Exc "AttributeError" "object has no attribute get")
  end.

(** [for x in obj]: a list gives its items, a dictionary its keys and a
    string its characters. *)
Definition json_iter (obj : Json) : Exception + list Json :=
  match obj with
  | JArr items => inr items
  | JObj fields => inr (map (fun kv => JStr (fst kv)) fields)
  | JStr s => inr (map (fun c => JStr (String c EmptyString))
                       (list_ascii_of_string s))
  | _ => inl (Exc "TypeError" "object is not iterable")
  end.

(** [str.lower] on the ASCII letters; other bytes are left as they are. *)
Definition lower_ascii (c : ascii) : ascii :=
  let n := nat_of_ascii c in
  if ((65 <=? n) && (n <=? 90))%nat then ascii_of_nat (n + 32) else c.

Fixpoint lower (s : string) : string :=
  match s with
  | EmptyString => EmptyString
  | String c rest => String (lower_ascii c) (lower rest)
  end.

(** [obj.lower()]: only a string has the method. *)
Definition json_lower (obj : Json) : Exception + string :=
  match obj with
  | JStr s => inr (lower s)
  | _ => inl (Exc "AttributeError" "object has no attribute lower")
  end.

(** A point of the Qdrant collection ([PointStruct]). *)
Record PointStruct := mkPoint {
  point_id : Uuid;
  point_vector : Vector;
  point_payload : gmap string Value
}.

(** The state the pipeline reads and writes: the shared Qdrant collection,
    the texts handed to the embedding model so far (one entry per call of
    [model.encode], oldest first), the supply of fresh identifiers and the
    clock read by [datetime.utcnow()]. *)
Record World := mkWorld {
  collection : list PointStruct;
  encode_calls : list (list string);
  next_uuid : nat;
  clock : nat
}.

(** Computations that read and write the world and may raise. *)
Definition M (A : Type) : Type := World -> World * (Exception + A).

Definition ret {A} (a : A) : M A := fun w => (w, inr a).
Definition raise {A} (e : Exception) : M A := fun w => (w, inl e).

Definition bind {A B} (m : M A) (f : A -> M B) : M B :=
  fun w => match m w with
           | (w', inr a) => f a w'
           | (w', inl e) => (w', inl e)
           end.

(** [try: body except Exception as e: handler(e)] *)
Definition try_except {A} (body : M A) (handler : Exception -> M A) : M A :=
  fun w => match body w with
           | (w', inr a) => (w', inr a)
           | (w', inl e) => handler e w'
           end.

(** A pure computation that may raise. *)
Definition lift {A} (r : Exception + A) : M A := fun w => (w, r).

(** [xs[0]] *)
Definition index0 {A} (xs : list A) : M A :=
  match xs with
  | [] => raise (Exc "IndexError" "index 0 is out of bounds")
  | x :: _ => ret x
  end.

Definition uuid4 : M Uuid :=
  fun w => (mkWorld (collection w) (encode_calls w) (S (next_uuid w)) (clock w),
            inr (uuid_of_nat (next_uuid w))).

Definition utcnow : M nat :=
  fun w => (mkWorld (collection w) (encode_calls w) (next_uuid w) (S (clock w)),
            inr (clock w)).

Definition get_collection : M (list PointStruct) :=
  fun w => (w, inr (collection w)).

Definition put_collection (c : list PointStruct) : M unit :=
  fun w => (mkWorld c (encode_calls w) (next_uuid w) (clock w), inr tt).

Definition log_encode_call (texts : list string) : M unit :=
  fun w => (mkWorld (collection w) (encode_calls w ++ [texts]) (next_uuid w)
                    (clock w), inr tt).

End Runtime.

Notation "'let*' x ':=' m 'in' k" := (Runtime.bind m (fun x => k))
  (at level 10, x name, m at level 100, k at level 200, only parsing).

(** ** app/rag/chunker.py *)

Module Chunker.

(** The chunk dictionaries built by the chunker. *)
Record Chunk := mkChunk {
  content : string;
  file_path : string;
  language : string;
  start_line : Z;
  end_line : Z;
  metadata : gmap string Value
}.

Definition CHUNK_SIZE : Z := 500.
Definition CHUNK_OVERLAP : Z := 100.

Definition newline : ascii := "010"%char.

(** [content.split("\n")]: never empty; the empty string gives [[""]]. *)
Fixpoint split_newline (s : string) : list string :=
  match s with
  | EmptyString => [EmptyString]
  | String c rest =>
      if Ascii.eqb c newline then EmptyString :: split_newline rest
      else match split_newline rest with
           | [] => [String c EmptyString]
           | l :: ls => String c l :: ls
           end
  end.

(** ["\n".join(lines)] *)
Fixpoint join_newline (lines : list string) : string :=
  match lines with
  | [] => EmptyString
  | [l] => l
  | l :: ls => String.append l (String newline (join_newline ls))
  end.

(** Python's [sum] over token counts. *)
Definition sum_Z (l : list Z) : Z := fold_right Z.add 0 l.

Section WithChunker.

(** The fields of a [CodeChunker] instance.  [encoding] is the tiktoken
    encoding ([None] when loading it failed); [encode] of a text is a list
    of token ids. *)
Variable chunk_size : Z.
Variable chunk_overlap : Z.
Variable encoding : option (string -> list Z).

Definition count_tokens (text : string) : Z :=
  match encoding with
  | Some encode => Z.of_nat (List.length (encode text))
  | None => Z.of_nat (String.length text) / 4
  end.

(** [sum(self._count_tokens(l) for l in lines)] *)
Definition tokens_of (lines : list string) : Z :=
  sum_Z (map count_tokens lines).

(** [_get_overlap_lines]: [rev_lines] is [reversed(lines)]; the
    accumulator [overlap_lines] grows at the front. *)
Fixpoint overlap_walk (rev_lines : list string) (overlap_tokens : Z)
         (overlap_lines : list string) (tokens : Z) : list string :=
  match rev_lines with
  | [] => overlap_lines
  | line :: rest =>
      let line_tokens := count_tokens line in
      if tokens + line_tokens >? overlap_tokens then overlap_lines
      else overlap_walk rest overlap_tokens (line :: overlap_lines)
                        (tokens + line_tokens)
  end.

Definition get_overlap_lines (lines : list string) (overlap_tokens : Z)
  : list string :=
  overlap_walk (rev lines) overlap_tokens [] 0.

(** The local variables of the chunking loop. *)
Record LoopState := mkLoop {
  chunks : list Chunk;
  current_chunk_lines : list string;
  current_tokens : Z;
  current_start_line : Z
}.

Section WithFile.

Variable file_path_arg : string.
Variable language_arg : string.
Variable metadata_arg : gmap string Value.

(** The dictionary appended to [chunks]:
    [{**metadata, "chunk_index": len(chunks)}] is the metadata. *)
Definition make_chunk (st : LoopState) (end_ : Z) : Chunk :=
  mkChunk (join_newline (current_chunk_lines st))
          file_path_arg language_arg
          (current_start_line st) end_
          (<["chunk_index" := VInt (Z.of_nat (List.length (chunks st)))]>
             metadata_arg).

(** One iteration of [for i, line in enumerate(lines, start=1)]. *)
Definition loop_step (st : LoopState) (i : Z) (line : string) : LoopState :=
  let line_tokens := count_tokens line in
  if (current_tokens st + line_tokens >? chunk_size)
     && negb (bool_decide (current_chunk_lines st = []))
  then
    let chunks' := chunks st ++ [make_chunk st (i - 1)] in
    let overlap_lines :=
      get_overlap_lines (current_chunk_lines st) chunk_overlap in
    let lines' := overlap_lines ++ [line] in
    mkLoop chunks' lines'
           (tokens_of lines')
           (i - Z.of_nat (List.length overlap_lines))
  else
    mkLoop (chunks st) (current_chunk_lines st ++ [line])
           (current_tokens st + line_tokens)
           (current_start_line st).

Fixpoint loop (st : LoopState) (i : Z) (lines : list string) : LoopState :=
  match lines with
  | [] => st
  | line :: rest => loop (loop_step st i line) (i + 1) rest
  end.

(** The common body of [_chunk_by_structure] and [_chunk_by_tokens]:
    the two methods are the same loop, statement for statement. *)
Definition chunk_lines (content_arg : string) : list Chunk :=
  let lines := split_newline content_arg in
  let st := loop (mkLoop [] [] 0 1) 1 lines in
  if bool_decide (current_chunk_lines st = []) then chunks st
  else chunks st ++ [make_chunk st (Z.of_nat (List.length lines))].

Definition chunk_by_structure (content_arg : string) : list Chunk :=
  chunk_lines content_arg.

Definition chunk_by_tokens (content_arg : string) : list Chunk :=
  chunk_lines content_arg.

End WithFile.

Definition structured_languages : list string :=
  ["python"; "javascript"; "typescript"; "java"; "go"; "rust"].

(** [chunk_file]; [metadata] is [None] when the argument is omitted. *)
Definition chunk_file (content_arg file_path_arg language_arg : string)
           (metadata_opt : option (gmap string Value)) : list Chunk :=
  let metadata_arg := default ∅ metadata_opt in
  if bool_decide (language_arg ∈ structured_languages)
  then chunk_by_structure file_path_arg language_arg metadata_arg content_arg
  else chunk_by_tokens file_path_arg language_arg metadata_arg content_arg.

End WithChunker.

End Chunker.

(** ** The Qdrant client and the other collaborators *)

Module Qdrant.
Import Runtime.

(** [models.FieldCondition(key=key, match=models.MatchValue(value=value))] *)
Record FieldCondition := mkCond { cond_key : string; cond_value : Value }.

(** [models.Filter(must=[...])] *)
Definition Filter : Type := list FieldCondition.

(** An element of the list returned by [client.search]. *)
Record ScoredPoint := mkScored {
  scored_id : Uuid;
  scored_score : float;
  scored_payload : gmap string Value
}.

Definition matches (f : Filter) (p : PointStruct) : bool :=
  forallb (fun c => bool_decide (point_payload p !! cond_key c
                                 = Some (cond_value c))) f.

(** Insertion into a list kept in descending order of score; among equal
    scores the earlier point stays first. *)
Fixpoint insert_by_score (x : ScoredPoint) (l : list ScoredPoint)
  : list ScoredPoint :=
  match l with
  | [] => [x]
  | y :: rest =>
      if Qle_bool (scored_score x) (scored_score y)
      then y :: insert_by_score x rest
      else x :: y :: rest
  end.

Definition sort_by_score (l : list ScoredPoint) : list ScoredPoint :=
  fold_right insert_by_score [] l.

(** Modelled from the spec: the Qdrant server and client library are not
    part of the repository.  Section 4.3 and section 6 give the wire
    contract: upsert of (id, vector, payload) triples, a similarity query
    with optional equality filters returning score-ranked payloads, and
    delete-by-filter.  [memory_*] is that contract over a list of points;
    [similarity] is the collection's distance (cosine in the reference
    configuration). *)
Definition memory_upsert (coll points : list PointStruct)
  : Exception + list PointStruct :=
  let ids := map point_id points in
  inr (filter (fun p => point_id p ∉ ids) coll ++ points).

Definition memory_search (similarity : Vector -> Vector -> float)
           (coll : list PointStruct) (query : Vector) (limit : Z)
           (query_filter : option Filter) : Exception + list ScoredPoint :=
  let candidates :=
    match query_filter with
    | Some f => List.filter (matches f) coll
    | None => coll
    end in
  let scored :=
    map (fun p => mkScored (point_id p)
                           (similarity query (point_vector p))
                           (point_payload p)) candidates in
  inr (firstn (Z.to_nat limit) (sort_by_score scored)).

Definition memory_delete (coll : list PointStruct) (f : Filter)
  : Exception + list PointStruct :=
  inr (List.filter (fun p => negb (matches f p)) coll).

End Qdrant.

Module Ingestion.

(** The dictionaries returned by [CodeIngestion.scan_directory]. *)
Record FileInfo := mkFile {
  path : string;
  absolute_path : string;
  content : string;
  language : string;
  size : Z;
  lines : Z
}.

End Ingestion.

(** Everything the pipeline calls and does not define: the sentence
    transformer, the Qdrant client, the language-model clients, [json] and
    [re], pydantic's field validation, the file system and git behind
    [CodeIngestion], and the settings object. *)
Record Env := mkEnv {
  (* SentenceTransformer.encode: the rows of the returned array *)
  model_encode : list string -> Runtime.Exception + list Vector;
  (* QdrantClient.upsert / search / delete on a collection *)
  client_upsert : list Runtime.PointStruct -> list Runtime.PointStruct ->
                  Runtime.Exception + list Runtime.PointStruct;
  client_search : list Runtime.PointStruct -> Vector -> Z ->
                  option Qdrant.Filter ->
                  Runtime.Exception + list Qdrant.ScoredPoint;
  client_delete : list Runtime.PointStruct -> Qdrant.Filter ->
                  Runtime.Exception + list Runtime.PointStruct;
  (* ollama.Client.generate(model, prompt): the text under "response" *)
  ollama_client : bool;
  ollama_generate : string -> string -> Runtime.Exception + string;
  (* AsyncOpenAI chat completion: choices[0].message.content *)
  openai_client : bool;
  openai_create : string -> string -> Runtime.Exception + option string;
  (* settings *)
  ollama_model : string;
  ollama_fallback_model : string;
  openai_model : string;
  use_openai_fallback : bool;
  (* json.loads, and the two re.search patterns and str.strip of _extract_json *)
  json_loads : string -> Runtime.Exception + Runtime.Json;
  re_search_fenced : string -> option string;
  re_search_object : string -> option string;
  str_strip : string -> string;
  (* the f-string of _build_analysis_prompt around its four holes:
     language, context_text, file_path, code *)
  prompt_template : string -> string -> string -> string -> string;
  (* pydantic validation of a str, an int and an Optional[str] field *)
  pydantic_str : Runtime.Json -> Runtime.Exception + string;
  pydantic_int : Runtime.Json -> Runtime.Exception + Z;
  pydantic_opt_str : Runtime.Json -> Runtime.Exception + option string;
  (* the tiktoken encoding of the chunker, None when it failed to load *)
  tiktoken_encoding : option (string -> list Z);
  (* CodeIngestion.clone_repository(url, branch) and
     CodeIngestion.scan_directory(path, include_patterns, exclude_patterns) *)
  clone_repository : string -> option string -> Runtime.Exception + string;
  scan_directory : string -> option (list string) -> option (list string) ->
                   Runtime.Exception + list Ingestion.FileInfo
}.

(** ** app/rag/embeddings.py *)

Module Embeddings.
Import Runtime.

Section WithEnv.
Variable env : Env.

(** [self.model.encode(texts, show_progress_bar=False)] *)
Definition encode (texts : list string) : M (list Vector) :=
  let* _ := log_encode_call texts in
  lift (model_encode env texts).

Definition generate_embeddings (texts : list string) : M (list Vector) :=
  match texts with
  | [] => ret []
  | _ => encode texts
  end.

Definition generate_embedding (text : string) : M Vector :=
  let* embedding := encode [text] in
  index0 embedding.

End WithEnv.

End Embeddings.

(** ** app/rag/vector_store.py *)

Module VectorStore.
Import Runtime.

(** The dictionaries returned by [search]. *)
Record SearchResult := mkResult {
  score : float;
  content : option Value;
  file_path : option Value;
  language : option Value;
  start_line : option Value;
  end_line : option Value;
  metadata : gmap string Value
}.

Definition payload_fields : list string :=
  ["content"; "file_path"; "language"; "start_line"; "end_line"].

Section WithEnv.
Variable env : Env.

(** The payload dictionary of [add_chunks].  The entries of the chunk's
    metadata are spread last, so they win over the six fixed keys: the
    union of maps prefers its left operand. *)
Definition payload_of (chunk : Chunker.Chunk) (scan_id : string)
  : gmap string Value :=
  Chunker.metadata chunk ∪
  (<["content" := VStr (Chunker.content chunk)]>
   (<["file_path" := VStr (Chunker.file_path chunk)]>
    (<["language" := VStr (Chunker.language chunk)]>
     (<["start_line" := VInt (Chunker.start_line chunk)]>
      (<["end_line" := VInt (Chunker.end_line chunk)]>
       (<["scan_id" := VStr scan_id]> ∅)))))).

(** [for chunk, embedding in zip(chunks, embeddings): points.append(...)] *)
Fixpoint build_points (pairs : list (Chunker.Chunk * Vector))
         (scan_id : string) : M (list PointStruct) :=
  match pairs with
  | [] => ret []
  | (chunk, embedding) :: rest =>
      let* point_id := uuid4 in
      let* points := build_points rest scan_id in
      ret (mkPoint point_id embedding (payload_of chunk scan_id) :: points)
  end.

Definition add_chunks (chunks : list Chunker.Chunk)
           (embeddings : list Vector) (scan_id : string) : M unit :=
  if negb (List.length chunks =? List.length embeddings)%nat
  then raise (Exc "ValueError" "Chunks and embeddings must have same length")
  else
    let* points := build_points (zip chunks embeddings) scan_id in
    let* coll := get_collection in
    let* coll' := lift (client_upsert env coll points) in
    put_collection coll'.

Definition result_of (r : Qdrant.ScoredPoint) : SearchResult :=
  let payload := Qdrant.scored_payload r in
  mkResult (Qdrant.scored_score r)
           (payload !! "content") (payload !! "file_path")
           (payload !! "language") (payload !! "start_line")
           (payload !! "end_line")
           (filter (fun kv => kv.1 ∉ payload_fields) payload).

(** [search]; [filter_dict] is tested for truth, so an empty dictionary
    gives no filter. *)
Definition search (query_embedding : Vector) (limit : Z)
           (filter_dict : option (gmap string Value))
  : M (list SearchResult) :=
  let query_filter :=
    match filter_dict with
    | Some d =>
        if bool_decide (d = ∅) then None
        else Some (map (fun kv => Qdrant.mkCond kv.1 kv.2) (map_to_list d))
    | None => None
    end in
  let* coll := get_collection in
  let* results := lift (client_search env coll query_embedding limit
                                      query_filter) in
  ret (map result_of results).

Definition delete_scan_data (scan_id : string) : M unit :=
  let* coll := get_collection in
  let* coll' := lift (client_delete env coll
                        [Qdrant.mkCond "scan_id" (VStr scan_id)]) in
  put_collection coll'.

End WithEnv.

End VectorStore.

(** ** app/core/llm.py *)

Module LLM.
Import Runtime.

(** How an f-string prints a payload value ([None] when the key is absent
    from the payload). *)
Definition format_value (v : option Value) : string :=
  match v with
  | None => "None"
  | Some (VStr s) => s
  | Some (VInt n) => NilZero.string_of_int (Z.to_int n)
  end.

Definition nl : string := String Chunker.newline EmptyString.

Definition concat_strings (l : list string) : string :=
  fold_right String.append EmptyString l.

(** The result returned when every provider has failed. *)
Definition empty_result : Json :=
  JObj [("vulnerabilities", JArr []); ("code_review", JArr []);
        ("auto_comments", JArr [])].

Section WithEnv.
Variable env : Env.

(** One round of the loop over [context[:3]]. *)
Definition context_block (ctx : VectorStore.SearchResult) : string :=
  concat_strings
    [nl; "### "; format_value (VectorStore.file_path ctx); " (lines ";
     format_value (VectorStore.start_line ctx); "-";
     format_value (VectorStore.end_line ctx); "):"; nl; "```";
     format_value (VectorStore.language ctx); nl;
     format_value (VectorStore.content ctx); nl; "```"; nl].

Definition build_analysis_prompt (code language file_path : string)
           (context : option (list VectorStore.SearchResult)) : string :=
  let context_text :=
    match context with
    | Some (c :: cs) =>
        String.append
          (concat_strings [nl; nl; "## Related Code Context:"; nl])
          (concat_strings (map context_block (firstn 3 (c :: cs))))
    | _ => EmptyString
    end in
  prompt_template env language context_text file_path code.

Definition extract_json (text : string) : string :=
  match re_search_fenced env text with
  | Some group => group
  | None =>
      match re_search_object env text with
      | Some group => group
      | None => str_strip env text
      end
  end.

(** [generate], [_extract_json] and [json.loads] for one model. *)
Definition ollama_attempt (model prompt : string) : M Json :=
  let* result_text := lift (ollama_generate env model prompt) in
  let json_text := extract_json result_text in
  lift (json_loads env json_text).

(** [_analyze_with_ollama]: [None] is Python's [None]. *)
Definition analyze_with_ollama (prompt : string) : M (option Json) :=
  try_except
    (let* r := ollama_attempt (ollama_model env) prompt in ret (Some r))
    (fun e =>
       if negb (String.eqb (ollama_fallback_model env) (ollama_model env))
       then try_except
              (let* r := ollama_attempt (ollama_fallback_model env) prompt in
               ret (Some r))
              (fun e2 => ret None)
       else ret None).

Definition analyze_with_openai (prompt : string) : M Json :=
  let* message_content := lift (openai_create env (openai_model env) prompt) in
  let result_text :=
    match message_content with
    | Some text => if String.eqb text "" then "{}" else text
    | None => "{}"
    end in
  let json_text := extract_json result_text in
  lift (json_loads env json_text).

(** [analyze_code].  The two [try] blocks return from inside; [Some r]
    stands for such a return and [None] for falling through. *)
Definition analyze_code (code language file_path : string)
           (context : option (list VectorStore.SearchResult)) : M Json :=
  let prompt := build_analysis_prompt code language file_path context in
  let* from_ollama :=
    try_except
      (if ollama_client env then
         let* result := analyze_with_ollama prompt in
         match result with
         | Some r => if truthy r then ret (Some r) else ret None
         | None => ret None
         end
       else ret None)
      (fun e => ret None) in
  match from_ollama with
  | Some r => ret r
  | None =>
      let* from_openai :=
        if openai_client env && use_openai_fallback env then
          try_except
            (let* r := analyze_with_openai prompt in ret (Some r))
            (fun e => ret None)
        else ret None in
      match from_openai with
      | Some r => ret r
      | None => ret empty_result
      end
  end.

End WithEnv.

End LLM.

(** ** app/models/schemas.py *)

Module Schemas.
Import Runtime.

Inductive Severity := CRITICAL | HIGH | MEDIUM | LOW | INFO.

Inductive IssueType :=
| VULNERABILITY | CODE_REVIEW | AUTO_COMMENT
| SECURITY | PERFORMANCE | BEST_PRACTICE.

Inductive ScanStatus := PENDING | IN_PROGRESS | COMPLETED | FAILED.

Definition severity_value (s : Severity) : string :=
  match s with
  | CRITICAL => "critical" | HIGH => "high" | MEDIUM => "medium"
  | LOW => "low" | INFO => "info"
  end.

Definition issue_type_value (t : IssueType) : string :=
  match t with
  | VULNERABILITY => "vulnerability" | CODE_REVIEW => "code_review"
  | AUTO_COMMENT => "auto_comment" | SECURITY => "security"
  | PERFORMANCE => "performance" | BEST_PRACTICE => "best_practice"
  end.

Definition severities : list Severity := [CRITICAL; HIGH; MEDIUM; LOW; INFO].

(** [Severity(value)]: lookup of a member by value, [ValueError] if none. *)
Definition Severity_of_value (value : string) : Exception + Severity :=
  match List.find (fun s => String.eqb (severity_value s) value) severities with
  | Some s => inr s
  | None => inl (Exc "ValueError" "not a valid Severity")
  end.

Record Location := mkLocation {
  file_path : string;
  start_line : Z;
  end_line : Z;
  start_column : option Z;
  end_column : option Z;
  function_name : option string
}.

Record Issue := mkIssue {
  id : Uuid;
  type : IssueType;
  severity : Severity;
  title : string;
  description : string;
  location : Location;
  rule_id : option string;
  cwe_id : option string;
  owasp_category : option string;
  suggestion : option string;
  code_snippet : option string;
  fixed_code : option string;
  metadata : gmap string Value
}.

(** The values of the summary dictionary. *)
Inductive SummaryValue :=
| SInt (n : Z)
| SStr (s : string)
| SCounts (d : gmap string Z).

Record ScanResult := mkScanResult {
  scan_id : Uuid;
  status : ScanStatus;
  repository_url : option string;
  repository_path : option string;
  started_at : nat;
  completed_at : option nat;
  total_files : Z;
  scanned_files : Z;
  issues : list Issue;
  summary : gmap string SummaryValue
}.

End Schemas.

(** ** app/scanner/scanner.py *)

Module Scanner.
Import Runtime Schemas.

Fixpoint mapM {A B} (f : A -> M B) (l : list A) : M (list B) :=
  match l with
  | [] => ret []
  | x :: rest =>
      let* y := f x in
      let* ys := mapM f rest in
      ret (y :: ys)
  end.

(** The truth test of an [Optional[str]] argument. *)
Definition nonempty (o : option string) : option string :=
  match o with
  | Some s => if String.eqb s "" then None else Some s
  | None => None
  end.

(** [d[key] = d.get(key, 0) + 1] *)
Definition bump (key : string) (d : gmap string Z) : gmap string Z :=
  <[key := default 0 (d !! key) + 1]> d.

Definition by_severity_init : gmap string Z :=
  <["critical" := 0]> (<["high" := 0]> (<["medium" := 0]>
    (<["low" := 0]> (<["info" := 0]> ∅)))).

Definition by_type_init : gmap string Z :=
  <["vulnerability" := 0]> (<["code_review" := 0]>
    (<["auto_comment" := 0]> ∅)).

Definition count_issue (acc : gmap string Z * gmap string Z) (issue : Issue)
  : gmap string Z * gmap string Z :=
  (bump (severity_value (severity issue)) (fst acc),
   bump (issue_type_value (type issue)) (snd acc)).

Definition calculate_summary (issues_arg : list Issue)
  : gmap string SummaryValue :=
  let counts := fold_left count_issue issues_arg
                          (by_severity_init, by_type_init) in
  <["total_issues" := SInt (Z.of_nat (List.length issues_arg))]>
    (<["by_severity" := SCounts (fst counts)]>
       (<["by_type" := SCounts (snd counts)]> ∅)).

Section WithEnv.
Variable env : Env.

(** [Location(file_path=..., start_line=..., end_line=..., ...)] *)
Definition make_location (file_path_arg : string) (start_raw end_raw : Json)
           (function_name_arg : option string) : M Location :=
  let* start_v := lift (pydantic_int env start_raw) in
  let* end_v := lift (pydantic_int env end_raw) in
  ret (mkLocation file_path_arg start_v end_v None None function_name_arg).

(** [Issue(...)] with the raw values of the validated fields. *)
Definition make_issue (id_arg : Uuid) (type_arg : IssueType)
           (severity_arg : Severity) (title_raw description_raw : Json)
           (location_arg : Location)
           (rule_raw cwe_raw owasp_raw suggestion_raw snippet_raw fixed_raw
              : Json) : M Issue :=
  let* title_v := lift (pydantic_str env title_raw) in
  let* description_v := lift (pydantic_str env description_raw) in
  let* rule_v := lift (pydantic_opt_str env rule_raw) in
  let* cwe_v := lift (pydantic_opt_str env cwe_raw) in
  let* owasp_v := lift (pydantic_opt_str env owasp_raw) in
  let* suggestion_v := lift (pydantic_opt_str env suggestion_raw) in
  let* snippet_v := lift (pydantic_opt_str env snippet_raw) in
  let* fixed_v := lift (pydantic_opt_str env fixed_raw) in
  ret (mkIssue id_arg type_arg severity_arg title_v description_v
               location_arg rule_v cwe_v owasp_v suggestion_v snippet_v
               fixed_v ∅).

(** The body of [for vuln in analysis.get("vulnerabilities", [])]. *)
Definition vulnerability_issue (file_path_arg : string) (vuln : Json)
  : M Issue :=
  let* id_v := uuid4 in
  let* severity_raw := lift (json_get vuln "severity" (JStr "medium")) in
  let* severity_text := lift (json_lower severity_raw) in
  let* severity_v := lift (Severity_of_value severity_text) in
  let* title_raw := lift (json_get vuln "title"
                                   (JStr "Security vulnerability")) in
  let* description_raw := lift (json_get vuln "description" (JStr "")) in
  let* start_raw := lift (json_get vuln "start_line" (JInt 1)) in
  let* end_default := lift (json_get vuln "start_line" (JInt 1)) in
  let* end_raw := lift (json_get vuln "end_line" end_default) in
  let* location_v := make_location file_path_arg start_raw end_raw None in
  let* rule_raw := lift (json_get vuln "rule_id" JNull) in
  let* cwe_raw := lift (json_get vuln "cwe_id" JNull) in
  let* owasp_raw := lift (json_get vuln "owasp_category" JNull) in
  let* suggestion_raw := lift (json_get vuln "suggestion" JNull) in
  let* snippet_raw := lift (json_get vuln "code_snippet" JNull) in
  let* fixed_raw := lift (json_get vuln "fixed_code" JNull) in
  make_issue id_v VULNERABILITY severity_v title_raw description_raw
             location_v rule_raw cwe_raw owasp_raw suggestion_raw
             snippet_raw fixed_raw.

(** The body of [for review in analysis.get("code_review", [])]. *)
Definition review_issue (file_path_arg : string) (review : Json) : M Issue :=
  let* id_v := uuid4 in
  let* severity_raw := lift (json_get review "severity" (JStr "info")) in
  let* severity_text := lift (json_lower severity_raw) in
  let* severity_v := lift (Severity_of_value severity_text) in
  let* title_raw := lift (json_get review "title"
                                   (JStr "Code review finding")) in
  let* description_raw := lift (json_get review "description" (JStr "")) in
  let* start_raw := lift (json_get review "start_line" (JInt 1)) in
  let* end_default := lift (json_get review "start_line" (JInt 1)) in
  let* end_raw := lift (json_get review "end_line" end_default) in
  let* location_v := make_location file_path_arg start_raw end_raw None in
  let* suggestion_raw := lift (json_get review "suggestion" JNull) in
  let* snippet_raw := lift (json_get review "code_snippet" JNull) in
  let* fixed_raw := lift (json_get review "fixed_code" JNull) in
  make_issue id_v CODE_REVIEW severity_v title_raw description_raw
             location_v JNull JNull JNull suggestion_raw snippet_raw
             fixed_raw.

(** The body of [for comment in analysis.get("auto_comments", [])]. *)
Definition comment_issue (file_path_arg : string) (comment : Json)
  : M Issue :=
  let* id_v := uuid4 in
  let* description_raw := lift (json_get comment "comment" (JStr "")) in
  let* start_raw := lift (json_get comment "line" (JInt 1)) in
  let* end_raw := lift (json_get comment "line" (JInt 1)) in
  let* location_v := make_location file_path_arg start_raw end_raw None in
  make_issue id_v AUTO_COMMENT INFO (JStr "Suggested comment")
             description_raw location_v JNull JNull JNull JNull JNull JNull.

(** [_convert_analysis_to_issues] *)
Definition convert_analysis_to_issues (analysis : Json)
           (file_path_arg language_arg : string) : M (list Issue) :=
  let* vulns_raw := lift (json_get analysis "vulnerabilities" (JArr [])) in
  let* vulns := lift (json_iter vulns_raw) in
  let* issues1 := mapM (vulnerability_issue file_path_arg) vulns in
  let* reviews_raw := lift (json_get analysis "code_review" (JArr [])) in
  let* reviews := lift (json_iter reviews_raw) in
  let* issues2 := mapM (review_issue file_path_arg) reviews in
  let* comments_raw := lift (json_get analysis "auto_comments" (JArr [])) in
  let* comments := lift (json_iter comments_raw) in
  let* issues3 := mapM (comment_issue file_path_arg) comments in
  ret (issues1 ++ issues2 ++ issues3).

(** Steps 1 and 2 of [scan]: the repository path, the directory scan and
    the [file_paths] filter. *)
Definition ingest (repository_url_arg repository_path_arg branch
                     : option string)
           (file_paths include_patterns exclude_patterns
              : option (list string)) : M (list Ingestion.FileInfo) :=
  let* repo_path :=
    match nonempty repository_url_arg, nonempty repository_path_arg with
    | Some url, _ => lift (clone_repository env url branch)
    | None, Some local_path => ret local_path
    | None, None =>
        raise (Exc "ValueError"
                   "Either repository_url or repository_path must be provided")
    end in
  let* files := lift (scan_directory env repo_path include_patterns
                                     exclude_patterns) in
  match file_paths with
  | Some (p :: ps) =>
      ret (List.filter
             (fun f => bool_decide (Ingestion.path f ∈ p :: ps)) files)
  | _ => ret files
  end.

(** The chunker of the scanner is [CodeChunker()]: default sizes. *)
Definition chunk_one (file_info : Ingestion.FileInfo) : list Chunker.Chunk :=
  Chunker.chunk_file Chunker.CHUNK_SIZE Chunker.CHUNK_OVERLAP
    (tiktoken_encoding env)
    (Ingestion.content file_info) (Ingestion.path file_info)
    (Ingestion.language file_info)
    (Some (<["file_size" := VInt (Ingestion.size file_info)]>
             (<["lines" := VInt (Ingestion.lines file_info)]> ∅))).

(** Steps 3 and 4 of [scan]: chunk every file, embed the chunk texts in
    one call and store them. *)
Definition index_files (scan_id_arg : Uuid)
           (files : list Ingestion.FileInfo) : M unit :=
  let all_chunks := flat_map chunk_one files in
  let chunk_texts := map Chunker.content all_chunks in
  let* embeddings := Embeddings.generate_embeddings env chunk_texts in
  VectorStore.add_chunks env all_chunks embeddings scan_id_arg.

(** Everything [scan] does before the loop over the files. *)
Definition prepare (scan_id_arg : Uuid)
           (repository_url_arg repository_path_arg branch : option string)
           (file_paths include_patterns exclude_patterns
              : option (list string)) : M (list Ingestion.FileInfo) :=
  let* files := ingest repository_url_arg repository_path_arg branch
                       file_paths include_patterns exclude_patterns in
  let* _ := index_files scan_id_arg files in
  ret files.

(** "Get relevant context from vector store": the first two statements
    of the [try] block inside the loop over the files. *)
Definition retrieve_context (file_info : Ingestion.FileInfo)
  : M (list VectorStore.SearchResult) :=
  let* file_embedding :=
    Embeddings.generate_embedding env (Ingestion.content file_info) in
  VectorStore.search env file_embedding 3
    (Some (<["language" := VStr (Ingestion.language file_info)]> ∅)).

(** The [try] block inside the loop over the files. *)
Definition analyze_one (file_info : Ingestion.FileInfo) : M (list Issue) :=
  let* context := retrieve_context file_info in
  let* analysis :=
    LLM.analyze_code env (Ingestion.content file_info)
      (Ingestion.language file_info) (Ingestion.path file_info)
      (Some context) in
  convert_analysis_to_issues analysis (Ingestion.path file_info)
                             (Ingestion.language file_info).

(** One round of the loop: [acc] is [(all_issues, scanned_files)]. *)
Definition analyze_file (acc : list Issue * Z)
           (file_info : Ingestion.FileInfo) : M (list Issue * Z) :=
  try_except
    (let* issues_v := analyze_one file_info in
     ret (fst acc ++ issues_v, snd acc + 1))
    (fun e => ret acc).

Fixpoint analyze_files (acc : list Issue * Z)
         (files : list Ingestion.FileInfo) : M (list Issue * Z) :=
  match files with
  | [] => ret acc
  | file_info :: rest =>
      let* acc' := analyze_file acc file_info in
      analyze_files acc' rest
  end.

(** The outer [try] block of [scan].  [ingestion.cleanup] removes the
    clone from the file system, which the world does not hold, and
    swallows its own errors. *)
Definition scan_body (scan_id_arg : Uuid) (started : nat)
           (repository_url_arg repository_path_arg branch : option string)
           (file_paths include_patterns exclude_patterns
              : option (list string)) : M ScanResult :=
  let* files := prepare scan_id_arg repository_url_arg repository_path_arg
                        branch file_paths include_patterns
                        exclude_patterns in
  let total := Z.of_nat (List.length files) in
  let* acc := analyze_files ([], 0) files in
  let* completed := utcnow in
  let summary_v := calculate_summary (fst acc) in
  ret (mkScanResult scan_id_arg COMPLETED repository_url_arg
                    repository_path_arg started (Some completed) total
                    (snd acc) (fst acc) summary_v).

Definition failed_result (scan_id_arg : Uuid) (started completed : nat)
           (repository_url_arg repository_path_arg : option string)
           (e : Exception) : ScanResult :=
  mkScanResult scan_id_arg FAILED repository_url_arg repository_path_arg
               started (Some completed) 0 0 []
               (<["error" := SStr (str_exc e)]> ∅).

Definition scan (repository_url_arg repository_path_arg branch
                   : option string)
           (file_paths include_patterns exclude_patterns
              : option (list string)) : M ScanResult :=
  let* scan_id_v := uuid4 in
  let* started := utcnow in
  try_except
    (scan_body scan_id_v started repository_url_arg repository_path_arg
               branch file_paths include_patterns exclude_patterns)
    (fun e =>
       let* completed := utcnow in
       ret (failed_result scan_id_v started completed repository_url_arg
                          repository_path_arg e)).

End WithEnv.

End Scanner.

(** ** An environment to run the pipeline in *)

Module Fixture.
Import Runtime.

(** The distance of the collection in the runs: the dot product. *)
Fixpoint dot (a b : Vector) : float :=
  match a, b with
  | x :: a', y :: b' => (x * y + dot a' b')%Q
  | _, _ => 0%Q
  end.

(** The embedding model of the runs: one coordinate, the length of the
    text. *)
Definition row_of (text : string) : Vector :=
  [inject_Z (Z.of_nat (String.length text))].

(** The answers of the language model in the runs; the prompt template of
    the runs is the code alone, and the model echoes it. *)
Definition canned_json (text : string) : Exception + Json :=
  if String.eqb text "good" then
    inr (JObj [("vulnerabilities",
                JArr [JObj [("severity", JStr "HIGH");
                            ("title", JStr "Hardcoded secret");
                            ("start_line", JInt 1)]])])
  else if String.eqb text "bad" then
    inr (JObj [("vulnerabilities",
                JArr [JObj [("severity", JStr "low");
                            ("title", JStr "Weak hash")];
                      JObj [("severity", JStr "Severe");
                            ("title", JStr "Injection")]])])
  else inl (Exc "JSONDecodeError" "Expecting value").

Definition strict_str (v : Json) : Exception + string :=
  match v with
  | JStr s => inr s
  | _ => inl (Exc "ValidationError" "Input should be a valid string")
  end.

Definition strict_int (v : Json) : Exception + Z :=
  match v with
  | JInt n => inr n
  | _ => inl (Exc "ValidationError" "Input should be a valid integer")
  end.

Definition strict_opt_str (v : Json) : Exception + option string :=
  match v with
  | JNull => inr None
  | JStr s => inr (Some s)
  | _ => inl (Exc "ValidationError" "Input should be a valid string")
  end.

Definition three_files : list Ingestion.FileInfo :=
  [Ingestion.mkFile "a.py" "repo/a.py" "good" "python" 4 1;
   Ingestion.mkFile "b.py" "repo/b.py" "bad" "python" 3 1;
   Ingestion.mkFile "c.py" "repo/c.py" "good" "python" 4 1].

(** The environment of the runs, given the Ollama model and whether the
    OpenAI client is configured (it is unreachable). *)
Definition make_env (generate : string -> string -> Exception + string)
           (with_openai : bool) : Env :=
  mkEnv (fun texts => inr (map row_of texts))
        Qdrant.memory_upsert (Qdrant.memory_search dot) Qdrant.memory_delete
        true generate
        with_openai (fun _ _ => inl (Exc "APIConnectionError" "unreachable"))
        "codellama:34b-instruct" "deepseek-coder:33b" "gpt-4o" with_openai
        canned_json (fun _ => None) (fun _ => None) (fun text => text)
        (fun language_arg context_text file_path_arg code => code)
        strict_str strict_int strict_opt_str
        None
        (fun url branch => inl (Exc "GitCommandError" "clone failed"))
        (fun directory include_patterns exclude_patterns =>
           if String.eqb directory "repo" then inr three_files
           else inl (Exc "ValueError" "Directory does not exist")).

(** The model answers with the prompt. *)
Definition demo_env : Env := make_env (fun model prompt => inr prompt) false.

(** Every provider is down. *)
Definition offline_env : Env :=
  make_env (fun model prompt => inl (Exc "ConnectionError" "refused")) true.

Definition w0 : World := mkWorld [] [] 0 0.

End Fixture.

(** * Properties *)

(** ** The chunker *)

Module ChunkerSpec.
Import Chunker.

(** [linked prev_end cs]: every chunk starts no later than one line after
    the end of the chunk before it ([prev_end] for the first). *)
Fixpoint linked (prev_end : Z) (cs : list Chunk) : Prop :=
  match cs with
  | [] => True
  | c :: rest => start_line c <= prev_end + 1 /\ linked (end_line c) rest
  end.

(** The end line of the last chunk, [prev_end] when there is none. *)
Fixpoint last_end (prev_end : Z) (cs : list Chunk) : Z :=
  match cs with
  | [] => prev_end
  | c :: rest => last_end (end_line c) rest
  end.

Lemma split_newline_nonempty (s : string) : split_newline s <> [].
Proof.
  induction s as [|c rest IH]; simpl; [discriminate|].
  destruct (Ascii.eqb c newline); [discriminate|].
  destruct (split_newline rest); discriminate.
Qed.

Lemma linked_snoc (e : Z) (cs : list Chunk) (c : Chunk) :
  linked e cs -> start_line c <= last_end e cs + 1 -> linked e (cs ++ [c]).
Proof.
  revert e; induction cs as [|c0 cs IH]; simpl; intros e Hl Hs.
  - split; [exact Hs|exact I].
  - destruct Hl as [H0 Hl]. split; [exact H0|]. apply IH; assumption.
Qed.

Lemma last_end_snoc (e : Z) (cs : list Chunk) (c : Chunk) :
  last_end e (cs ++ [c]) = end_line c.
Proof. revert e; induction cs as [|c0 cs IH]; simpl; intros e; auto. Qed.

Lemma linked_adjacent (e : Z) (cs : list Chunk) (k : nat) (c c' : Chunk) :
  linked e cs -> cs !! k = Some c -> cs !! S k = Some c' ->
  start_line c' <= end_line c + 1.
Proof.
  revert e k; induction cs as [|c0 cs IH]; intros e k Hl Hk Hk'.
  - discriminate.
  - destruct Hl as [_ Hl]. destruct k as [|k].
    + simpl in Hk. injection Hk as ->.
      destruct cs as [|c1 cs]; [discriminate|].
      simpl in Hk'. injection Hk' as ->. destruct Hl as [H _]. exact H.
    + simpl in Hk, Hk'. eapply IH; eauto.
Qed.

Lemma linked_covers (e : Z) (cs : list Chunk) (l : Z) :
  linked e cs -> e < l <= last_end e cs ->
  exists c, c ∈ cs /\ start_line c <= l <= end_line c.
Proof.
  revert e; induction cs as [|c0 cs IH]; simpl; intros e Hl Hr.
  - lia.
  - destruct Hl as [H0 Hl].
    destruct (Z_le_gt_dec l (end_line c0)) as [Hle|Hgt].
    + exists c0. split; [apply list_elem_of_here|lia].
    + destruct (IH (end_line c0) Hl) as (c & Hin & Hc); [lia|].
      exists c. split; [apply list_elem_of_further; exact Hin|exact Hc].
Qed.

Lemma last_snoc_end (cs : list Chunk) (c : Chunk) : last (cs ++ [c]) = Some c.
Proof. apply last_snoc. Qed.

Section WithChunker.
Variable chunk_size : Z.
Variable chunk_overlap : Z.
Variable encoding : option (string -> list Z).

Local Abbreviation count_tokens := (count_tokens encoding).
Local Abbreviation get_overlap_lines := (get_overlap_lines encoding).

Lemma count_tokens_nonneg (text : string) : 0 <= count_tokens text.
Proof.
  unfold Chunker.count_tokens. destruct encoding; [lia|].
  apply Z.div_pos; lia.
Qed.

Local Abbreviation tokens_of := (tokens_of encoding).

Lemma tokens_of_app (a b : list string) :
  tokens_of (a ++ b) = tokens_of a + tokens_of b.
Proof.
  unfold Chunker.tokens_of. induction a as [|x a IH]; simpl; [reflexivity|].
  rewrite IH. lia.
Qed.

Lemma tokens_of_nonneg (a : list string) : 0 <= tokens_of a.
Proof.
  unfold Chunker.tokens_of. induction a as [|x a IH]; simpl; [lia|].
  pose proof (count_tokens_nonneg x). lia.
Qed.

Lemma tokens_of_rev (a : list string) : tokens_of (rev a) = tokens_of a.
Proof.
  induction a as [|x a IH]; simpl; [reflexivity|].
  rewrite tokens_of_app, IH. unfold Chunker.tokens_of. simpl. lia.
Qed.

(** The backward walk takes a prefix of the reversed lines, keeps the
    running total within the budget and stops at the first line that
    would exceed it. *)
Lemma overlap_walk_spec (budget : Z) (rev_lines acc : list string) (t : Z) :
  t = tokens_of acc -> t <= budget ->
  exists taken rest,
    rev_lines = taken ++ rest /\
    overlap_walk encoding rev_lines budget acc t = rev taken ++ acc /\
    tokens_of (rev taken ++ acc) <= budget /\
    match rest with
    | [] => True
    | l :: _ => tokens_of (rev taken ++ acc) + count_tokens l > budget
    end.
Proof.
  revert acc t; induction rev_lines as [|line rl IH]; intros acc t Ht Hb.
  - exists [], []. simpl. repeat split; auto. lia.
  - simpl. destruct (Z.gtb_spec (t + count_tokens line) budget) as [Hgt|Hle].
    + exists [], (line :: rl). simpl. repeat split; auto; lia.
    + destruct (IH (line :: acc) (t + count_tokens line)) as
          (taken & rest & Hrl & Hw & Hsum & Hstop).
      { unfold Chunker.tokens_of. simpl. unfold Chunker.tokens_of in Ht. lia. }
      { exact Hle. }
      exists (line :: taken), rest. simpl.
      rewrite <- !app_assoc. simpl.
      repeat split; auto. rewrite Hrl. reflexivity.
Qed.

(** [_get_overlap_lines] returns the longest suffix of [lines] whose
    tokens fit the budget, and the line before it, if any, does not fit. *)
Lemma get_overlap_lines_spec (budget : Z) (lines : list string) :
  0 <= budget ->
  let overlap := get_overlap_lines lines budget in
  overlap `suffix_of` lines /\
  tokens_of overlap <= budget /\
  (forall before l, lines = before ++ l :: overlap ->
     tokens_of overlap + count_tokens l > budget) /\
  (forall s, s `suffix_of` lines -> tokens_of s <= budget ->
     (List.length s <= List.length overlap)%nat).
Proof.
  intros Hb overlap. subst overlap. unfold Chunker.get_overlap_lines.
  destruct (overlap_walk_spec budget (rev lines) [] 0) as
      (taken & rest & Hrl & Hw & Hsum & Hstop); [reflexivity|exact Hb|].
  rewrite Hw. rewrite app_nil_r in *.
  assert (Hlines : lines = rev rest ++ rev taken).
  { rewrite <- (rev_involutive lines), Hrl, rev_app_distr. reflexivity. }
  split; [exists (rev rest); exact Hlines|].
  split; [exact Hsum|].
  assert (Hprev : forall before l, lines = before ++ l :: rev taken ->
                    tokens_of (rev taken) + count_tokens l > budget).
  { intros before l Hl. rewrite Hlines in Hl.
    change (l :: rev taken) with ([l] ++ rev taken) in Hl.
    rewrite app_assoc in Hl. apply app_inv_tail in Hl.
    destruct rest as [|l0 rest'].
    - simpl in Hl. destruct before; discriminate.
    - simpl in Hl. apply app_inj_tail in Hl as [_ <-]. exact Hstop. }
  split; [exact Hprev|].
  intros s [k Hk] Hs.
  destruct (le_gt_dec (List.length s) (List.length (rev taken)))
    as [Hle|Hgt]; [exact Hle|exfalso].
  rewrite Hlines in Hk. symmetry in Hk.
  apply app_eq_app in Hk as [x [[Hk1 Hk2]|[Hk1 Hk2]]].
  - (* the suffix sits inside the overlap *)
    apply (f_equal (@List.length _)) in Hk2.
    rewrite length_app in Hk2. lia.
  - (* the suffix reaches past the overlap *)
    destruct (@exists_last _ x) as (x' & l & ->).
    { intros ->. simpl in Hk2. subst s. lia. }
    specialize (Hprev (k ++ x') l).
    rewrite Hlines, Hk1, <- !app_assoc in Hprev.
    specialize (Hprev eq_refl).
    rewrite Hk2, <- app_assoc, !tokens_of_app in Hs.
    pose proof (tokens_of_nonneg x').
    unfold Chunker.tokens_of in Hs at 2. simpl in Hs. lia.
Qed.

Section WithFile.
Variable file_path_arg : string.
Variable language_arg : string.
Variable metadata_arg : gmap string Value.

Local Abbreviation loop_step :=
  (loop_step chunk_size chunk_overlap encoding file_path_arg language_arg
             metadata_arg).
Local Abbreviation loop :=
  (loop chunk_size chunk_overlap encoding file_path_arg language_arg
        metadata_arg).
Local Abbreviation make_chunk := (make_chunk file_path_arg language_arg metadata_arg).

(** What the loop keeps true of its local variables. *)
Record loop_inv (st : LoopState) : Prop := {
  inv_first :
    match chunks st with
    | [] => current_start_line st = 1
    | c :: _ => start_line c = 1
    end;
  inv_linked : linked 0 (chunks st);
  inv_start : current_start_line st <= last_end 0 (chunks st) + 1;
  inv_index : forall (k : nat) (c : Chunk),
    chunks st !! k = Some c ->
    metadata c !! "chunk_index" = Some (VInt (Z.of_nat k))
}.

Lemma make_chunk_index (st : LoopState) (e : Z) :
  metadata (make_chunk st e) !! "chunk_index"
  = Some (VInt (Z.of_nat (List.length (chunks st)))).
Proof. unfold Chunker.make_chunk; simpl. apply lookup_insert_eq. Qed.

Lemma index_snoc (st : LoopState) (e : Z) :
  (forall (k : nat) (c : Chunk), chunks st !! k = Some c ->
     metadata c !! "chunk_index" = Some (VInt (Z.of_nat k))) ->
  forall (k : nat) (c : Chunk),
    (chunks st ++ [make_chunk st e]) !! k = Some c ->
    metadata c !! "chunk_index" = Some (VInt (Z.of_nat k)).
Proof.
  intros Hidx k c Hk.
  apply lookup_app_Some in Hk as [Hk|[Hlen Hk]]; [auto|].
  apply list_lookup_singleton_Some in Hk as [Hk <-].
  rewrite make_chunk_index. do 3 f_equal. lia.
Qed.

Lemma loop_step_inv (st : LoopState) (i : Z) (line : string) :
  loop_inv st -> loop_inv (loop_step st i line).
Proof.
  intros [Hf Hl Hs Hi]. unfold Chunker.loop_step.
  destruct (_ && _); constructor; simpl; auto.
  - destruct (chunks st); simpl; auto.
  - apply linked_snoc; simpl; auto.
  - rewrite last_end_snoc; simpl. lia.
  - apply index_snoc; auto.
Qed.

Lemma loop_inv_preserved (lines : list string) (st : LoopState) (i : Z) :
  loop_inv st -> loop_inv (loop st i lines).
Proof.
  revert st i; induction lines as [|line rest IH]; simpl; intros st i H.
  - exact H.
  - apply IH, loop_step_inv, H.
Qed.

Lemma loop_step_lines_nonempty (st : LoopState) (i : Z) (line : string) :
  current_chunk_lines (loop_step st i line) <> [].
Proof.
  unfold Chunker.loop_step. destruct (_ && _); simpl;
    intros H; apply app_eq_nil in H as [_ H]; discriminate.
Qed.

Lemma loop_lines_nonempty (lines : list string) (st : LoopState) (i : Z) :
  current_chunk_lines st <> [] ->
  current_chunk_lines (loop st i lines) <> [].
Proof.
  revert st i; induction lines as [|line rest IH]; simpl; intros st i H.
  - exact H.
  - apply IH, loop_step_lines_nonempty.
Qed.

Lemma init_inv : loop_inv (mkLoop [] [] 0 1).
Proof. constructor; simpl; auto; [lia|]. intros k c H; discriminate. Qed.


(** The chunks of [chunk_lines]: the loop's chunks and the final one. *)
Lemma chunk_lines_eq (content_arg : string) :
  let lines := split_newline content_arg in
  let st := loop (mkLoop [] [] 0 1) 1 lines in
  chunk_lines chunk_size chunk_overlap encoding file_path_arg language_arg
              metadata_arg content_arg
  = chunks st ++ [make_chunk st (Z.of_nat (List.length lines))].
Proof.
  intros lines st. unfold chunk_lines. fold lines. fold st.
  rewrite bool_decide_eq_false_2; [reflexivity|].
  subst st. pose proof (split_newline_nonempty content_arg) as Hne.
  fold lines in Hne. destruct lines as [|l ls]; [congruence|].
  simpl. apply loop_lines_nonempty, loop_step_lines_nonempty.
Qed.

Lemma chunk_lines_covers (content_arg : string) :
  let cs := chunk_lines chunk_size chunk_overlap encoding file_path_arg
                        language_arg metadata_arg content_arg in
  let N := Z.of_nat (List.length (split_newline content_arg)) in
  1 <= N /\
  (exists c0, cs !! 0%nat = Some c0 /\ start_line c0 = 1) /\
  (forall (k : nat) (c c' : Chunk),
     cs !! k = Some c -> cs !! S k = Some c' ->
     start_line c' <= end_line c + 1) /\
  (exists cl, last cs = Some cl /\ end_line cl = N) /\
  (forall (k : nat) (c : Chunk),
     cs !! k = Some c ->
     metadata c !! "chunk_index" = Some (VInt (Z.of_nat k))) /\
  (forall l : Z, 1 <= l <= N ->
     exists c, c ∈ cs /\ start_line c <= l <= end_line c).
Proof.
  intros cs N. subst cs. rewrite chunk_lines_eq.
  set (lines := split_newline content_arg) in *.
  set (st := loop (mkLoop [] [] 0 1) 1 lines).
  assert (Hinv : loop_inv st) by apply loop_inv_preserved, init_inv.
  destruct Hinv as [Hf Hl Hs Hi].
  assert (HN : 1 <= N).
  { subst N. pose proof (split_newline_nonempty content_arg) as Hne.
    fold lines in Hne. destruct lines; [congruence|]. simpl length. lia. }
  assert (Hlinked : linked 0 (chunks st ++ [make_chunk st N])).
  { apply linked_snoc; [exact Hl|exact Hs]. }
  repeat split.
  - exact HN.
  - destruct (chunks st) as [|c0 cs0] eqn:E.
    + exists (make_chunk st N). split; [reflexivity|exact Hf].
    + exists c0. split; [reflexivity|exact Hf].
  - intros k c c'. apply linked_adjacent with (e := 0). exact Hlinked.
  - exists (make_chunk st N). split; [apply last_snoc|reflexivity].
  - apply index_snoc. exact Hi.
  - intros l Hl'. apply linked_covers with (e := 0); [exact Hlinked|].
    rewrite last_end_snoc. simpl. lia.
Qed.

(** C3. When the line at index [i] would push the running count over
    the chunk budget and the current chunk has lines, the chunk is
    closed with end line [i - 1] and the next one is seeded with an
    overlap followed by that line, starting at [i] minus the number of
    overlap lines.  The overlap is a suffix of the closed chunk's lines
    whose tokens fit the overlap budget, the line before it (if any)
    would exceed the budget, and no suffix that fits is longer. *)
Theorem split_seeds_overlap_prefix (st : LoopState) (i : Z) (line : string) :
  0 <= chunk_overlap ->
  current_tokens st + count_tokens line > chunk_size ->
  current_chunk_lines st <> [] ->
  let st' := loop_step st i line in
  let closed := current_chunk_lines st in
  exists overlap,
    chunks st' = chunks st ++ [make_chunk st (i - 1)] /\
    current_chunk_lines st' = overlap ++ [line] /\
    current_start_line st' = i - Z.of_nat (List.length overlap) /\
    overlap `suffix_of` closed /\
    tokens_of overlap <= chunk_overlap /\
    (forall before l, closed = before ++ l :: overlap ->
       tokens_of overlap + count_tokens l > chunk_overlap) /\
    (forall s, s `suffix_of` closed -> tokens_of s <= chunk_overlap ->
       (List.length s <= List.length overlap)%nat).
Proof.
  intros Hb Hover Hne st' closed.
  exists (get_overlap_lines closed chunk_overlap).
  subst st'. unfold Chunker.loop_step.
  replace (current_tokens st + count_tokens line >? chunk_size) with true
    by (symmetry; apply Z.gtb_lt; lia).
  rewrite bool_decide_eq_false_2 by exact Hne. simpl.
  repeat split; try reflexivity;
    apply (get_overlap_lines_spec chunk_overlap closed Hb).
Qed.

Lemma chunk_lines_empty :
  chunk_lines chunk_size chunk_overlap encoding file_path_arg language_arg
              metadata_arg ""
  = [mkChunk "" file_path_arg language_arg 1 1
             (<["chunk_index" := VInt 0]> metadata_arg)].
Proof.
  unfold chunk_lines. simpl. unfold Chunker.loop_step. simpl.
  rewrite andb_false_r. reflexivity.
Qed.

End WithFile.

(** C1. Whatever the language, the chunks of a file cover its lines
    [1..N] without a gap: there are N >= 1 lines, the first chunk starts
    at line 1, each later chunk starts no later than one line after the
    end of the chunk before it, the last chunk ends at line N, the
    chunk_index of the k-th chunk is k (so the indices start at 0 and
    increase strictly), and every line of [1..N] lies in some chunk. *)
Theorem chunk_file_covers_all_lines
        (content_arg file_path_arg language_arg : string)
        (metadata_opt : option (gmap string Value)) :
  let cs := chunk_file chunk_size chunk_overlap encoding content_arg
                       file_path_arg language_arg metadata_opt in
  let N := Z.of_nat (List.length (split_newline content_arg)) in
  1 <= N /\
  (exists c0, cs !! 0%nat = Some c0 /\ start_line c0 = 1) /\
  (forall (k : nat) (c c' : Chunk),
     cs !! k = Some c -> cs !! S k = Some c' ->
     start_line c' <= end_line c + 1) /\
  (exists cl, last cs = Some cl /\ end_line cl = N) /\
  (forall (k : nat) (c : Chunk),
     cs !! k = Some c ->
     metadata c !! "chunk_index" = Some (VInt (Z.of_nat k))) /\
  (forall l : Z, 1 <= l <= N ->
     exists c, c ∈ cs /\ start_line c <= l <= end_line c).
Proof.
  unfold chunk_file, chunk_by_structure, chunk_by_tokens.
  destruct (bool_decide _); apply chunk_lines_covers.
Qed.

(** C2, as the code has it. The empty content is one empty line, and
    the chunker returns one chunk for it: empty content, lines 1 to 1,
    chunk_index 0. *)
Theorem chunk_file_empty_content
        (file_path_arg language_arg : string)
        (metadata_opt : option (gmap string Value)) :
  chunk_file chunk_size chunk_overlap encoding "" file_path_arg
             language_arg metadata_opt
  = [mkChunk "" file_path_arg language_arg 1 1
             (<["chunk_index" := VInt 0]> (default ∅ metadata_opt))].
Proof.
  unfold chunk_file, chunk_by_structure, chunk_by_tokens.
  destruct (bool_decide _); apply chunk_lines_empty.
Qed.

End WithChunker.

(** C2, as stated, fails: the chunks of the empty content are not the
    empty list. *)
Lemma chunk_file_empty_content_not_empty :
  chunk_file CHUNK_SIZE CHUNK_OVERLAP None "" "empty.py" "python" None <> [].
Proof.
  unfold chunk_file, chunk_by_structure. simpl.
  rewrite chunk_lines_empty. discriminate.
Qed.

(** A run of C3: budget of two tokens and overlap of one, no tokenizer;
    the chunk holds two lines of one token each when a third arrives. *)
Lemma split_seeds_overlap_prefix_witness :
  let st := mkLoop [] ["aaaa"; "bbbb"] 2 1 in
  let st' := loop_step 2 1 None "f.py" "python" ∅ st 3 "cccc" in
  exists overlap,
    chunks st' = chunks st ++ [make_chunk "f.py" "python" ∅ st (3 - 1)] /\
    current_chunk_lines st' = overlap ++ ["cccc"] /\
    current_start_line st' = 3 - Z.of_nat (List.length overlap) /\
    overlap `suffix_of` ["aaaa"; "bbbb"] /\
    tokens_of None overlap <= 1 /\
    (forall before l, ["aaaa"; "bbbb"] = before ++ l :: overlap ->
       tokens_of None overlap + count_tokens None l > 1) /\
    (forall s, s `suffix_of` ["aaaa"; "bbbb"] -> tokens_of None s <= 1 ->
       (List.length s <= List.length overlap)%nat).
Proof.
  apply (split_seeds_overlap_prefix 2 1 None "f.py" "python" ∅
           (mkLoop [] ["aaaa"; "bbbb"] 2 1) 3 "cccc").
  - lia.
  - vm_compute. reflexivity.
  - discriminate.
Defined.

End ChunkerSpec.


(** ** The embedder *)

Module EmbeddingsSpec.
Import Runtime Embeddings.

(** The embedder hands the texts to the model in one call and returns the
    rows it gets, whatever the model does. *)
Lemma generate_embeddings_passes_through (env : Env) (texts : list string)
      (w : World) :
  texts <> [] ->
  generate_embeddings env texts w
  = (mkWorld (collection w) (encode_calls w ++ [texts]) (next_uuid w)
             (clock w),
     model_encode env texts).
Proof. destruct texts; [congruence|]. reflexivity. Qed.

(** C9. For a model that embeds each text on its own ([row]): the empty
    list gives the empty list and leaves the world as it is, so the model
    is not called; any list gives the rows of its texts, one per text and
    in the order of the texts; exchanging two texts exchanges their
    vectors; and the embedding of one text is the first item of the
    embeddings of the one-text list. *)
Theorem embedder_contract (env : Env) (row : string -> Vector) :
  (forall texts, model_encode env texts = inr (map row texts)) ->
  (forall w, generate_embeddings env [] w = (w, inr [])) /\
  (forall texts w, snd (generate_embeddings env texts w)
                   = inr (map row texts)) /\
  (forall texts w vs, snd (generate_embeddings env texts w) = inr vs ->
                      List.length vs = List.length texts) /\
  (forall pre mid post x y w w',
     exists vpre vx vmid vy vpost,
       List.length vpre = List.length pre /\
       List.length vmid = List.length mid /\
       snd (generate_embeddings env (pre ++ x :: mid ++ y :: post) w)
       = inr (vpre ++ vx :: vmid ++ vy :: vpost) /\
       snd (generate_embeddings env (pre ++ y :: mid ++ x :: post) w')
       = inr (vpre ++ vy :: vmid ++ vx :: vpost)) /\
  (forall text w,
     generate_embedding env text w
     = (let* vs := generate_embeddings env [text] in index0 vs) w).
Proof.
  intros Hrow.
  assert (Hall : forall texts w,
             snd (generate_embeddings env texts w) = inr (map row texts)).
  { intros [|t ts] w; [reflexivity|].
    rewrite generate_embeddings_passes_through by discriminate.
    simpl. apply Hrow. }
  split; [reflexivity|]. split; [exact Hall|]. split.
  { intros texts w vs Hvs. rewrite Hall in Hvs. injection Hvs as <-.
    apply length_map. }
  split.
  { intros pre mid post x y w w'.
    exists (map row pre), (row x), (map row mid), (row y), (map row post).
    rewrite !length_map, !Hall.
    repeat split; rewrite map_app; simpl; rewrite map_app; reflexivity. }
  intros text w. reflexivity.
Qed.

(** C9 run in the environment of the runs. *)
Lemma embedder_contract_witness :
  generate_embeddings Fixture.demo_env [] Fixture.w0 = (Fixture.w0, inr []) /\
  snd (generate_embeddings Fixture.demo_env ["ab"; "cde"] Fixture.w0)
  = inr [Fixture.row_of "ab"; Fixture.row_of "cde"].
Proof.
  destruct (embedder_contract Fixture.demo_env Fixture.row_of)
    as (Hempty & Hrows & _).
  - intros texts. reflexivity.
  - split; [apply Hempty|apply (Hrows ["ab"; "cde"])].
Defined.

End EmbeddingsSpec.

(** ** The vector store *)

Module VectorStoreSpec.
Import Runtime VectorStore.

(** A length mismatch raises before anything is built or sent: the world
    is left as it was. *)
Lemma add_chunks_length_mismatch (env : Env) (chunks : list Chunker.Chunk)
      (embeddings : list Vector) (scan_id : string) (w : World) :
  List.length chunks <> List.length embeddings ->
  add_chunks env chunks embeddings scan_id w
  = (w, inl (Exc "ValueError" "Chunks and embeddings must have same length")).
Proof.
  intros Hlen. unfold add_chunks.
  destruct (Nat.eqb_spec (List.length chunks) (List.length embeddings));
    [contradiction|reflexivity].
Qed.

(** The points built for the pairs: one per pair, in order, with the
    pair's vector and the payload of the pair's chunk. *)
Lemma build_points_spec (scan_id : string)
      (pairs : list (Chunker.Chunk * Vector)) (w : World) :
  exists points,
    build_points pairs scan_id w
    = (mkWorld (collection w) (encode_calls w)
               (next_uuid w + List.length pairs) (clock w), inr points) /\
    map (fun p => (point_vector p, point_payload p)) points
    = map (fun cv => (snd cv, payload_of (fst cv) scan_id)) pairs.
Proof.
  revert w; induction pairs as [|[chunk embedding] rest IH]; intros w.
  - exists []. simpl. unfold ret. rewrite Nat.add_0_r.
    destruct w; auto.
  - simpl. unfold bind at 1. unfold uuid4.
    destruct (IH (mkWorld (collection w) (encode_calls w) (S (next_uuid w))
                          (clock w))) as (points & Hrun & Hmap).
    unfold bind at 1. rewrite Hrun. simpl.
    eexists. split.
    + unfold ret. do 2 f_equal. lia.
    + simpl. rewrite Hmap. reflexivity.
Qed.

(** With equal lengths and the in-memory collection the call succeeds and
    adds one point per pair. *)
Lemma add_chunks_equal_lengths (env : Env) (chunks : list Chunker.Chunk)
      (embeddings : list Vector) (scan_id : string) (w : World) :
  client_upsert env = Qdrant.memory_upsert ->
  List.length chunks = List.length embeddings ->
  exists w' points,
    add_chunks env chunks embeddings scan_id w = (w', inr tt) /\
    Qdrant.memory_upsert (collection w) points = inr (collection w') /\
    List.length points = List.length chunks /\
    map (fun p => (point_vector p, point_payload p)) points
    = map (fun cv => (snd cv, payload_of (fst cv) scan_id))
          (zip chunks embeddings).
Proof.
  intros Hclient Hlen. unfold add_chunks.
  rewrite (proj2 (Nat.eqb_eq _ _) Hlen). simpl.
  destruct (build_points_spec scan_id (zip chunks embeddings) w)
    as (points & Hrun & Hmap).
  unfold bind at 1. rewrite Hrun.
  unfold bind, get_collection, lift, put_collection. rewrite Hclient. simpl.
  eexists _, points. repeat split; [|exact Hmap].
  apply (f_equal (@List.length _)) in Hmap.
  rewrite !length_map, length_zip in Hmap. lia.
Qed.

(** The tag is the scan identifier whenever the chunk's metadata has no
    entry of that name. *)
Lemma payload_of_scan_id (chunk : Chunker.Chunk) (scan_id : string) :
  Chunker.metadata chunk !! "scan_id" = None ->
  payload_of chunk scan_id !! "scan_id" = Some (VStr scan_id).
Proof.
  intros Hnone. unfold payload_of.
  rewrite lookup_union_r by exact Hnone.
  repeat (rewrite lookup_insert_ne by discriminate).
  apply lookup_insert_eq.
Qed.

(** Why the contract below asks that no chunk's metadata has a scan_id of
    its own: at such a chunk the lengths agree, the call succeeds and
    stores one point, and the point's scan_id is the metadata's, not the
    one given to the call; deleting the data of the scan then leaves the
    point in the collection.  The scanner, the only caller, passes
    metadata with the keys file_size, lines and chunk_index. *)
Theorem add_chunks_metadata_overrides_scan_id :
  let chunk := Chunker.mkChunk "x = 1" "a.py" "python" 1 1
                               (<["scan_id" := VStr "other"]> ∅) in
  exists w' w'',
    add_chunks Fixture.demo_env [chunk] [[1%Q]] "scan-1" Fixture.w0
    = (w', inr tt) /\
    map (fun p => point_payload p !! "scan_id") (collection w')
    = [Some (VStr "other")] /\
    delete_scan_data Fixture.demo_env "scan-1" w' = (w'', inr tt) /\
    List.length (collection w'') = 1%nat.
Proof.
  simpl. eexists _, _. split; [vm_compute; reflexivity|].
  split; [vm_compute; reflexivity|].
  split; vm_compute; reflexivity.
Qed.



End VectorStoreSpec.

(** ** The analysis engine *)

Module LLMSpec.
Import Runtime LLM.

(** The provider calls read nothing from the world and leave it alone. *)
Lemma ollama_attempt_world (env : Env) (model prompt : string) (w : World) :
  fst (ollama_attempt env model prompt w) = w.
Proof.
  unfold ollama_attempt, bind, lift.
  destruct (ollama_generate env model prompt); reflexivity.
Qed.

Lemma analyze_with_openai_world (env : Env) (prompt : string) (w : World) :
  fst (analyze_with_openai env prompt w) = w.
Proof.
  unfold analyze_with_openai, bind, lift.
  destruct (openai_create env (openai_model env) prompt); reflexivity.
Qed.

Lemma run_eta {A} (m : M A) (w : World) : m w = (fst (m w), snd (m w)).
Proof. destruct (m w); reflexivity. Qed.

Lemma analyze_with_ollama_world (env : Env) (prompt : string) (w : World) :
  fst (analyze_with_ollama env prompt w) = w.
Proof.
  unfold analyze_with_ollama, try_except, bind.
  rewrite (run_eta (ollama_attempt env (ollama_model env) prompt) w).
  rewrite ollama_attempt_world.
  destruct (snd (ollama_attempt env (ollama_model env) prompt w));
    [|reflexivity].
  destruct (negb _); [|reflexivity].
  rewrite (run_eta (ollama_attempt env (ollama_fallback_model env) prompt) w).
  rewrite ollama_attempt_world.
  destruct (snd (ollama_attempt env (ollama_fallback_model env) prompt w));
    reflexivity.
Qed.

(** [_analyze_with_ollama] gives [None] when the primary model fails and
    the fallback model is the same or fails too. *)
Lemma analyze_with_ollama_fails (env : Env) (prompt : string) (w : World) :
  (exists e, snd (ollama_attempt env (ollama_model env) prompt w) = inl e) ->
  (ollama_fallback_model env <> ollama_model env ->
   exists e, snd (ollama_attempt env (ollama_fallback_model env) prompt w)
             = inl e) ->
  analyze_with_ollama env prompt w = (w, inr None).
Proof.
  intros [e1 H1] H2. unfold analyze_with_ollama, try_except, bind.
  rewrite (run_eta (ollama_attempt env (ollama_model env) prompt) w).
  rewrite ollama_attempt_world, H1.
  destruct (String.eqb_spec (ollama_fallback_model env) (ollama_model env))
    as [Heq|Hne]; simpl; [reflexivity|].
  destruct (H2 Hne) as [e2 He2].
  rewrite (run_eta (ollama_attempt env (ollama_fallback_model env) prompt) w).
  rewrite ollama_attempt_world, He2. reflexivity.
Qed.

(** The analysis never raises, whatever the providers do. *)
Lemma analyze_code_never_raises (env : Env) (code language file_path : string)
      (context : option (list VectorStore.SearchResult)) (w : World) :
  exists r, analyze_code env code language file_path context w = (w, inr r).
Proof.
  unfold analyze_code.
  set (prompt := build_analysis_prompt env code language file_path context).
  unfold bind at 1. unfold try_except at 1.
  assert (Hfirst : exists o,
    (if ollama_client env
     then let* result := analyze_with_ollama env prompt in
          match result with
          | Some r => if truthy r then ret (Some r) else ret None
          | None => ret None
          end
     else ret None) w = (w, o)).
  { destruct (ollama_client env); [|eexists; reflexivity].
    unfold bind. rewrite (run_eta (analyze_with_ollama env prompt) w).
    rewrite analyze_with_ollama_world.
    destruct (snd (analyze_with_ollama env prompt w)) as [e|[r|]];
      [eexists; reflexivity| |eexists; reflexivity].
    destruct (truthy r); eexists; reflexivity. }
  destruct Hfirst as [o Ho]. rewrite Ho.
  destruct o as [e|[r|]]; [|eexists; reflexivity|]; simpl;
    (unfold bind at 1;
     destruct (openai_client env && use_openai_fallback env);
     [|eexists; reflexivity];
     unfold try_except, bind;
     rewrite (run_eta (analyze_with_openai env prompt) w);
     rewrite analyze_with_openai_world;
     destruct (snd (analyze_with_openai env prompt w));
     eexists; reflexivity).
Qed.

(** C5. When the primary model fails (if there is an Ollama client), the
    fallback model fails (if it is another model) and the secondary
    provider fails (if it is configured and enabled), the analysis returns
    the result with three empty collections, as a value. *)
Theorem analyze_code_exhausted (env : Env) (code language file_path : string)
        (context : option (list VectorStore.SearchResult)) (w : World) :
  let prompt := build_analysis_prompt env code language file_path context in
  (ollama_client env = true ->
   exists e, snd (ollama_attempt env (ollama_model env) prompt w) = inl e) ->
  (ollama_client env = true ->
   ollama_fallback_model env <> ollama_model env ->
   exists e, snd (ollama_attempt env (ollama_fallback_model env) prompt w)
             = inl e) ->
  (openai_client env = true -> use_openai_fallback env = true ->
   exists e, snd (analyze_with_openai env prompt w) = inl e) ->
  analyze_code env code language file_path context w
  = (w, inr (JObj [("vulnerabilities", JArr []); ("code_review", JArr []);
                   ("auto_comments", JArr [])])).
Proof.
  intros prompt H1 H2 H3. unfold analyze_code. fold prompt.
  unfold bind at 1. unfold try_except at 1.
  assert (Hfirst :
    (if ollama_client env
     then let* result := analyze_with_ollama env prompt in
          match result with
          | Some r => if truthy r then ret (Some r) else ret None
          | None => ret None
          end
     else ret None) w = (w, inr None)).
  { destruct (ollama_client env); [|reflexivity].
    unfold bind. rewrite analyze_with_ollama_fails; auto. }
  rewrite Hfirst. unfold bind at 1.
  destruct (openai_client env) eqn:Ec; simpl; [|reflexivity].
  destruct (use_openai_fallback env) eqn:Eu; simpl; [|reflexivity].
  destruct (H3 eq_refl eq_refl) as [e He].
  unfold try_except, bind.
  rewrite (run_eta (analyze_with_openai env prompt) w).
  rewrite analyze_with_openai_world, He. reflexivity.
Qed.

(** C5 run with every provider down: both Ollama models are tried and
    refuse the connection, and OpenAI is unreachable. *)
Lemma analyze_code_exhausted_witness :
  analyze_code Fixture.offline_env "x = 1" "python" "a.py" (Some [])
               Fixture.w0
  = (Fixture.w0, inr empty_result).
Proof.
  apply (analyze_code_exhausted Fixture.offline_env "x = 1" "python" "a.py"
                                (Some []) Fixture.w0).
  - intros _. eexists. reflexivity.
  - intros _ _. eexists. reflexivity.
  - intros _ _. eexists. reflexivity.
Defined.

End LLMSpec.

(** ** The scan orchestrator *)

Module ScannerSpec.
Import Runtime Schemas Scanner.

(** The values of [Severity]. *)
Definition severity_values : list string :=
  ["critical"; "high"; "medium"; "low"; "info"].

(** An item of an analysis whose severity is a string that, lowercased, is
    no value of [Severity]. *)
Definition invalid_severity_item (item : Json) : Prop :=
  exists fields s,
    item = JObj fields /\
    assoc "severity" fields = Some (JStr s) /\
    lower s ∉ severity_values.

(** An analysis with such an item among its vulnerabilities or among its
    code review findings. *)
Definition has_invalid_severity (analysis : Json) : Prop :=
  exists fields items item,
    analysis = JObj fields /\
    (assoc "vulnerabilities" fields = Some (JArr items) \/
     assoc "code_review" fields = Some (JArr items)) /\
    In item items /\
    invalid_severity_item item.

(** The per-file outcomes of the loop, in order from the world [w]:
    [Some issues] when the file's [try] block ran to its end, [None] when
    it raised; and the world after the last file. *)
Fixpoint outcomes (env : Env) (files : list Ingestion.FileInfo) (w : World)
  : list (option (list Issue)) * World :=
  match files with
  | [] => ([], w)
  | file_info :: rest =>
      let '(w1, r) := analyze_one env file_info w in
      let '(outs, w2) := outcomes env rest w1 in
      (match r with inr found => Some found | inl _ => None end :: outs, w2)
  end.

(** The findings of the files that succeeded, in file order. *)
Definition kept (outs : list (option (list Issue))) : list Issue :=
  flat_map (fun o => match o with Some found => found | None => [] end) outs.

(** How many files succeeded. *)
Definition succeeded (outs : list (option (list Issue))) : Z :=
  Z.of_nat (List.length (List.filter (fun o => bool_decide (is_Some o)) outs)).

Lemma Severity_of_value_invalid (value : string) :
  value ∉ severity_values ->
  Severity_of_value value = inl (Exc "ValueError" "not a valid Severity").
Proof.
  intros Hnot. unfold Severity_of_value, severities.
  cbn [List.find severity_value].
  repeat match goal with
  | |- context [String.eqb ?a value] =>
      destruct (String.eqb_spec a value) as [<-|_];
      [exfalso; apply Hnot; unfold severity_values; set_solver|]
  end.
  reflexivity.
Qed.

Lemma Severity_of_value_valid (value : string) (sev : Severity) :
  Severity_of_value value = inr sev -> value ∈ severity_values.
Proof.
  intros H. destruct (decide (value ∈ severity_values)) as [Hin|Hnot];
    [exact Hin|]. rewrite Severity_of_value_invalid in H by exact Hnot.
  discriminate.
Qed.

(** Running a bind: the first computation, then the rest or the
    exception. *)
Lemma bind_run {A B} (m : M A) (f : A -> M B) (w : World) :
  bind m f w = match m w with
               | (w', inr a) => f a w'
               | (w', inl e) => (w', inl e)
               end.
Proof. reflexivity. Qed.

Lemma bind_raises {A B} (m : M A) (f : A -> M B) (w w' : World)
      (e : Exception) :
  m w = (w', inl e) -> bind m f w = (w', inl e).
Proof. intros H. rewrite bind_run, H. reflexivity. Qed.

Lemma bind_returns {A B} (m : M A) (f : A -> M B) (w w' : World) (a : A) :
  m w = (w', inr a) -> bind m f w = f a w'.
Proof. intros H. rewrite bind_run, H. reflexivity. Qed.

Definition raises {A} (m : M A) (w : World) : Prop :=
  exists w' e, m w = (w', inl e).

Lemma bind_raises_first {A B} (m : M A) (f : A -> M B) (w : World) :
  raises m w -> raises (bind m f) w.
Proof.
  intros (w' & e & H). exists w', e. apply bind_raises, H.
Qed.

Lemma bind_raises_either {A B} (m : M A) (f : A -> M B) (w : World) :
  (forall w' a, m w = (w', inr a) -> raises (f a) w') ->
  raises (bind m f) w.
Proof.
  intros H. unfold raises. rewrite bind_run.
  destruct (m w) as [w' [e|a]]; [eauto|]. apply H. reflexivity.
Qed.

Lemma bind_raises_after {A B} (m : M A) (f : A -> M B) (w w' : World)
      (a : A) :
  m w = (w', inr a) -> raises (f a) w' -> raises (bind m f) w.
Proof.
  intros H (w2 & e & He). exists w2, e.
  rewrite (bind_returns _ _ _ _ _ H). exact He.
Qed.

(** A loop that meets a raising item raises, at that item or before. *)
Lemma mapM_raises {A B} (f : A -> M B) (l : list A) (x : A) :
  In x l -> (forall w, raises (f x) w) -> forall w, raises (mapM f l) w.
Proof.
  intros Hin Hx. induction l as [|a l IH]; [contradiction|].
  intros w. simpl. apply bind_raises_either. intros w' b Hb.
  destruct Hin as [->|Hin].
  - destruct (Hx w) as (w1 & e & He). congruence.
  - apply bind_raises_first, IH, Hin.
Qed.

Section WithEnv.
Variable env : Env.

Lemma vulnerability_issue_invalid (file_path_arg : string) (item : Json)
      (w : World) :
  invalid_severity_item item ->
  raises (vulnerability_issue env file_path_arg item) w.
Proof.
  intros (fields & s & -> & Hsev & Hnot).
  unfold vulnerability_issue, raises.
  rewrite bind_run. unfold uuid4 at 1.
  rewrite bind_run. unfold lift at 1, json_get at 1. rewrite Hsev.
  rewrite bind_run. unfold lift at 1, json_lower.
  rewrite bind_run. unfold lift at 1.
  rewrite (Severity_of_value_invalid _ Hnot). eauto.
Qed.

Lemma review_issue_invalid (file_path_arg : string) (item : Json)
      (w : World) :
  invalid_severity_item item ->
  raises (review_issue env file_path_arg item) w.
Proof.
  intros (fields & s & -> & Hsev & Hnot).
  unfold review_issue, raises.
  rewrite bind_run. unfold uuid4 at 1.
  rewrite bind_run. unfold lift at 1, json_get at 1. rewrite Hsev.
  rewrite bind_run. unfold lift at 1, json_lower.
  rewrite bind_run. unfold lift at 1.
  rewrite (Severity_of_value_invalid _ Hnot). eauto.
Qed.

(** The conversion of an analysis with an invalid severity raises. *)
Lemma convert_raises (analysis : Json) (file_path_arg language_arg : string)
      (w : World) :
  has_invalid_severity analysis ->
  raises (convert_analysis_to_issues env analysis file_path_arg language_arg)
         w.
Proof.
  intros (fields & items & item & -> & Hwhere & Hin & Hbad).
  unfold convert_analysis_to_issues.
  destruct Hwhere as [Hv|Hr].
  - eapply bind_raises_after.
    { unfold lift, json_get. rewrite Hv. reflexivity. }
    eapply bind_raises_after; [reflexivity|].
    apply bind_raises_first.
    apply mapM_raises with (x := item); [exact Hin|].
    intros w'. apply vulnerability_issue_invalid, Hbad.
  - apply bind_raises_either. intros w1 vulns_raw _.
    apply bind_raises_either. intros w2 vulns _.
    apply bind_raises_either. intros w3 issues1 _.
    eapply bind_raises_after.
    { unfold lift, json_get. rewrite Hr. reflexivity. }
    eapply bind_raises_after; [reflexivity|].
    apply bind_raises_first.
    apply mapM_raises with (x := item); [exact Hin|].
    intros w'. apply review_issue_invalid, Hbad.
Qed.

(** A round of the loop whose [try] block raises leaves the findings and
    the count as they were. *)
Lemma analyze_file_raises (acc : list Issue * Z)
      (file_info : Ingestion.FileInfo) (w w' : World) (e : Exception) :
  analyze_one env file_info w = (w', inl e) ->
  analyze_file env acc file_info w = (w', inr acc).
Proof.
  intros H. unfold analyze_file, try_except.
  rewrite bind_run, H. reflexivity.
Qed.

Lemma analyze_file_returns (acc : list Issue * Z)
      (file_info : Ingestion.FileInfo) (w w' : World) (found : list Issue) :
  analyze_one env file_info w = (w', inr found) ->
  analyze_file env acc file_info w = (w', inr (fst acc ++ found, snd acc + 1)).
Proof.
  intros H. unfold analyze_file, try_except.
  rewrite bind_run, H. reflexivity.
Qed.

(** C10. When the analysis obtained for a file has, among its
    vulnerabilities or its code review findings, an item whose severity
    string lowercased is no severity, the conversion raises, and the round
    of the loop for that file returns the findings and the count of scanned
    files unchanged: nothing of the file is kept. *)
Theorem invalid_severity_discards_file (acc : list Issue * Z)
        (file_info : Ingestion.FileInfo) (w w1 w2 : World)
        (context : list VectorStore.SearchResult) (analysis : Json) :
  retrieve_context env file_info w = (w1, inr context) ->
  LLM.analyze_code env (Ingestion.content file_info)
                   (Ingestion.language file_info) (Ingestion.path file_info)
                   (Some context) w1 = (w2, inr analysis) ->
  has_invalid_severity analysis ->
  (exists w3 e,
     convert_analysis_to_issues env analysis (Ingestion.path file_info)
                                (Ingestion.language file_info) w2
     = (w3, inl e)) /\
  (exists w3, analyze_file env acc file_info w = (w3, inr acc)).
Proof.
  intros Hctx Han Hbad.
  destruct (convert_raises analysis (Ingestion.path file_info)
                           (Ingestion.language file_info) w2 Hbad)
    as (w3 & e & Hconv).
  split; [exists w3, e; exact Hconv|].
  exists w3. apply analyze_file_raises with (e := e).
  unfold analyze_one.
  rewrite (bind_returns _ _ _ _ _ Hctx).
  rewrite (bind_returns _ _ _ _ _ Han).
  exact Hconv.
Qed.

(** The loop over the files never raises; it keeps the findings of the
    files that succeeded and counts them. *)
Lemma analyze_files_outcomes (files : list Ingestion.FileInfo)
      (acc : list Issue * Z) (w : World) :
  analyze_files env acc files w
  = (snd (outcomes env files w),
     inr (fst acc ++ kept (fst (outcomes env files w)),
          snd acc + succeeded (fst (outcomes env files w)))).
Proof.
  revert acc w; induction files as [|file_info rest IH]; intros acc w.
  - simpl. unfold ret, kept, succeeded. simpl.
    rewrite app_nil_r, Z.add_0_r. destruct acc; reflexivity.
  - simpl. rewrite bind_run.
    destruct (analyze_one env file_info w) as [w1 [e|found]] eqn:E.
    + rewrite (analyze_file_raises _ _ _ _ _ E), IH.
      destruct (outcomes env rest w1) as [outs w2]. reflexivity.
    + rewrite (analyze_file_returns _ _ _ _ _ E), IH.
      destruct (outcomes env rest w1) as [outs w2]. simpl.
      unfold kept, succeeded. simpl. rewrite <- app_assoc.
      do 3 f_equal. lia.
Qed.

(** The world in which the outer [try] block of [scan] starts: one
    identifier drawn and the clock read once. *)
Definition started_world (w : World) : World :=
  mkWorld (collection w) (encode_calls w) (S (next_uuid w)) (S (clock w)).

Section WithRequest.
Variables repository_url_arg repository_path_arg branch : option string.
Variables file_paths include_patterns exclude_patterns : option (list string).

Local Abbreviation scan_request :=
  (scan env repository_url_arg repository_path_arg branch file_paths
        include_patterns exclude_patterns).
Local Abbreviation ingest_request :=
  (ingest env repository_url_arg repository_path_arg branch file_paths
          include_patterns exclude_patterns).
Local Abbreviation prepare_request scan_id_arg :=
  (prepare env scan_id_arg repository_url_arg repository_path_arg branch
           file_paths include_patterns exclude_patterns).

Lemma scan_run (w : World) :
  scan_request w
  = try_except
      (scan_body env (uuid_of_nat (next_uuid w)) (clock w) repository_url_arg
                 repository_path_arg branch file_paths include_patterns
                 exclude_patterns)
      (fun e =>
         let* completed := utcnow in
         ret (failed_result (uuid_of_nat (next_uuid w)) (clock w) completed
                            repository_url_arg repository_path_arg e))
      (started_world w).
Proof. reflexivity. Qed.

(** The stages before the loop fail exactly when the ingestion fails or
    the indexing of the ingested files fails. *)
Lemma prepare_fails (scan_id_arg : Uuid) (w w1 : World) (e : Exception) :
  prepare_request scan_id_arg w = (w1, inl e) <->
  (ingest_request w = (w1, inl e) \/
   exists wi files,
     ingest_request w = (wi, inr files) /\
     index_files env scan_id_arg files wi = (w1, inl e)).
Proof.
  unfold prepare. rewrite bind_run.
  destruct (ingest_request w) as [wi [e0|files]] eqn:Ei.
  - split; [intros H; left; exact H|].
    intros [H|(wi' & files & H & _)]; [exact H|discriminate].
  - rewrite bind_run.
    destruct (index_files env scan_id_arg files wi) as [w2 [e2|[]]] eqn:Ex.
    + split.
      * intros H. right. exists wi, files. split; [reflexivity|].
        rewrite Ex. injection H as <- <-. reflexivity.
      * intros [H|(wi' & files' & H & Hx)]; [discriminate|].
        injection H as <- <-. rewrite Ex in Hx.
        injection Hx as <- <-. reflexivity.
    + split; [discriminate|].
      intros [H|(wi' & files' & H & Hx)]; [discriminate|].
      injection H as <- <-. rewrite Ex in Hx. discriminate.
Qed.

(** C7. When the ingestion (source acquisition, directory scan) or the
    indexing of its files (chunking, batch embedding, storing) raises, the
    scan returns a result: status FAILED, no files counted, no findings,
    and the error's text under "error" in the summary. *)
Theorem scan_failure_before_loop (w w1 : World) (e : Exception) :
  (ingest_request (started_world w) = (w1, inl e) \/
   exists wi files,
     ingest_request (started_world w) = (wi, inr files) /\
     index_files env (uuid_of_nat (next_uuid w)) files wi = (w1, inl e)) ->
  exists w' r,
    scan_request w = (w', inr r) /\
    status r = FAILED /\
    total_files r = 0 /\
    scanned_files r = 0 /\
    issues r = [] /\
    summary r = <["error" := SStr (str_exc e)]> ∅.
Proof.
  intros Hstage. apply prepare_fails in Hstage.
  rewrite scan_run. unfold try_except, scan_body.
  rewrite (bind_raises _ _ _ _ _ Hstage).
  eexists _, _. split; [reflexivity|]. repeat split.
Qed.

(** C8. When the stages before the loop succeed, the scan returns a
    result with status COMPLETED that counts every ingested file in
    total_files, counts in scanned_files the files whose analysis did not
    raise, and holds the findings of those files only, in file order. *)
Theorem scan_skips_failing_files (w w1 : World)
        (files : list Ingestion.FileInfo) :
  prepare_request (uuid_of_nat (next_uuid w)) (started_world w)
  = (w1, inr files) ->
  let outs := fst (outcomes env files w1) in
  exists w' r,
    scan_request w = (w', inr r) /\
    status r = COMPLETED /\
    total_files r = Z.of_nat (List.length files) /\
    scanned_files r = succeeded outs /\
    issues r = kept outs.
Proof.
  intros Hprep outs.
  rewrite scan_run. unfold try_except, scan_body.
  rewrite (bind_returns _ _ _ _ _ Hprep).
  rewrite bind_run, analyze_files_outcomes.
  rewrite bind_run. unfold utcnow at 1, ret.
  eexists _, _. split; [reflexivity|]. simpl.
  repeat split.
Qed.

(** The scan returns a result in every case. *)
Lemma scan_always_returns (w : World) :
  exists w' r, scan_request w = (w', inr r).
Proof.
  rewrite scan_run. unfold try_except.
  match goal with |- context [scan_body ?a ?b ?c ?d ?e ?f ?g ?h ?i ?j] =>
    destruct (scan_body a b c d e f g h i j) as [w1 [e0|r]] end.
  - eexists _, _. reflexivity.
  - eexists _, _. reflexivity.
Qed.

End WithRequest.

End WithEnv.

(** C7 run with neither a URL nor a path: the ingestion raises the
    ValueError and the scan returns the failed result. *)
Lemma scan_failure_before_loop_witness :
  exists w' r,
    scan Fixture.demo_env None None None None None None Fixture.w0
    = (w', inr r) /\
    status r = FAILED /\
    total_files r = 0 /\
    scanned_files r = 0 /\
    issues r = [] /\
    summary r
    = <["error" :=
          SStr "Either repository_url or repository_path must be provided"]> ∅.
Proof.
  apply (scan_failure_before_loop Fixture.demo_env None None None None None
           None Fixture.w0 (started_world Fixture.w0)
           (Exc "ValueError"
                "Either repository_url or repository_path must be provided")).
  left. reflexivity.
Defined.

(** C8 run on three files: the answer for the second has a severity
    that is no severity, so its conversion raises; the scan completes with
    two files scanned and the findings of the first and the third. *)
Lemma scan_skips_failing_files_witness :
  exists w' r,
    scan Fixture.demo_env None (Some "repo") None None None None Fixture.w0
    = (w', inr r) /\
    status r = COMPLETED /\
    total_files r = 3 /\
    scanned_files r = 2 /\
    map (fun i => Schemas.file_path (location i)) (issues r)
    = ["a.py"; "c.py"].
Proof.
  destruct (scan_skips_failing_files Fixture.demo_env None (Some "repo") None
              None None None Fixture.w0
              (fst (prepare Fixture.demo_env
                            (uuid_of_nat (next_uuid Fixture.w0))
                            None (Some "repo") None None None None
                            (started_world Fixture.w0)))
              Fixture.three_files)
    as (w' & r & Hscan & Hstatus & Htotal & Hscanned & Hissues).
  - vm_compute. reflexivity.
  - exists w', r. split; [exact Hscan|]. split; [exact Hstatus|].
    split; [exact Htotal|]. split.
    + rewrite Hscanned. vm_compute. reflexivity.
    + rewrite Hissues. vm_compute. reflexivity.
Defined.

(** C10 run on the second file of the runs: its answer has a well-formed
    vulnerability and one of severity "Severe"; the conversion raises and
    the round keeps nothing, the well-formed finding included. *)
Lemma invalid_severity_discards_file_witness :
  let file_b := Ingestion.mkFile "b.py" "repo/b.py" "bad" "python" 3 1 in
  let analysis :=
    JObj [("vulnerabilities",
           JArr [JObj [("severity", JStr "low"); ("title", JStr "Weak hash")];
                 JObj [("severity", JStr "Severe");
                       ("title", JStr "Injection")]])] in
  (exists w3 e,
     convert_analysis_to_issues Fixture.demo_env analysis "b.py" "python"
                                (mkWorld [] [["bad"]] 0 0)
     = (w3, inl e)) /\
  (exists w3,
     analyze_file Fixture.demo_env ([], 0) file_b Fixture.w0
     = (w3, inr ([], 0))).
Proof.
  intros file_b analysis.
  apply (invalid_severity_discards_file Fixture.demo_env ([], 0) file_b
           Fixture.w0 (mkWorld [] [["bad"]] 0 0) (mkWorld [] [["bad"]] 0 0)
           [] analysis).
  - vm_compute. reflexivity.
  - vm_compute. reflexivity.
  - exists [("vulnerabilities",
             JArr [JObj [("severity", JStr "low"); ("title", JStr "Weak hash")];
                   JObj [("severity", JStr "Severe");
                         ("title", JStr "Injection")]])],
           [JObj [("severity", JStr "low"); ("title", JStr "Weak hash")];
            JObj [("severity", JStr "Severe"); ("title", JStr "Injection")]],
           (JObj [("severity", JStr "Severe"); ("title", JStr "Injection")]).
    split; [reflexivity|]. split; [left; reflexivity|].
    split; [right; left; reflexivity|].
    exists [("severity", JStr "Severe"); ("title", JStr "Injection")],
           "Severe".
    split; [reflexivity|]. split; [reflexivity|].
    apply (bool_decide_unpack _). vm_compute. exact I.
Defined.

(** C4, at two scans of Python files that share the collection.  Scan A
    has indexed its file; scan B indexes its own file and retrieves the
    context for it.  Alone in the collection, scan B gets its own chunk;
    with scan A's point present it gets scan A's chunk as well, ranked
    first: the query is filtered on the language only. *)
Theorem retrieve_context_crosses_scans :
  let file_a :=
    Ingestion.mkFile "secret.py" "a/secret.py" "API_KEY = 1" "python" 11 1 in
  let file_b := Ingestion.mkFile "b.py" "b/b.py" "x = 1" "python" 5 1 in
  let alone := fst (index_files Fixture.demo_env "scan-B" [file_b] Fixture.w0) in
  let shared :=
    fst (index_files Fixture.demo_env "scan-B" [file_b]
           (fst (index_files Fixture.demo_env "scan-A" [file_a] Fixture.w0))) in
  (exists context,
     snd (retrieve_context Fixture.demo_env file_b alone) = inr context /\
     map VectorStore.content context = [Some (VStr "x = 1")] /\
     map (fun r => VectorStore.metadata r !! "scan_id") context
     = [Some (VStr "scan-B")]) /\
  (exists context,
     snd (retrieve_context Fixture.demo_env file_b shared) = inr context /\
     map VectorStore.content context
     = [Some (VStr "API_KEY = 1"); Some (VStr "x = 1")] /\
     map (fun r => VectorStore.metadata r !! "scan_id") context
     = [Some (VStr "scan-A"); Some (VStr "scan-B")]).
Proof.
  simpl. split.
  - eexists. split; [vm_compute; reflexivity|].
    split; vm_compute; reflexivity.
  - eexists. split; [vm_compute; reflexivity|].
    split; vm_compute; reflexivity.
Qed.

End ScannerSpec.

(** * Further properties *)

(** ** The chunker: what a chunk holds *)

Module ChunkerFacts.
Import Chunker.

(** Splitting on newlines and joining with newlines gives the text back. *)
Lemma join_split_newline (s : string) : join_newline (split_newline s) = s.
Proof.
  induction s as [|c rest IH]; [reflexivity|].
  simpl. destruct (Ascii.eqb_spec c newline) as [->|Hc].
  - pose proof (ChunkerSpec.split_newline_nonempty rest) as Hne.
    simpl. destruct (split_newline rest) as [|l ls]; [congruence|].
    simpl in IH |- *. rewrite IH. reflexivity.
  - pose proof (ChunkerSpec.split_newline_nonempty rest) as Hne.
    destruct (split_newline rest) as [|l ls]; [congruence|].
    destruct ls as [|l' ls].
    + simpl in IH |- *. rewrite IH. reflexivity.
    + change (join_newline (String c l :: l' :: ls))
        with (String c (String.append l
                          (String newline (join_newline (l' :: ls))))).
      change (join_newline (l :: l' :: ls))
        with (String.append l (String newline (join_newline (l' :: ls))))
        in IH.
      rewrite IH. reflexivity.
Qed.

Section WithChunker.
Variable chunk_size : Z.
Variable chunk_overlap : Z.
Variable encoding : option (string -> list Z).

Local Abbreviation count_tokens := (count_tokens encoding).
Local Abbreviation tokens_of := (tokens_of encoding).
Local Abbreviation get_overlap_lines := (get_overlap_lines encoding).

(** The lines of a chunk fit the chunk budget, or they are an overlap that
    fits the overlap budget (or is empty) followed by one more line. *)
Definition within_budget (ls : list string) : Prop :=
  tokens_of ls <= chunk_size \/
  exists o l, ls = o ++ [l] /\ (o = [] \/ tokens_of o <= chunk_overlap).

(** The backward walk, for any budget: what it returns is the lines it
    took, in file order, before the accumulator; and if it took any, the
    total fits the budget. *)
Lemma overlap_walk_shape (budget : Z) (rev_lines acc : list string) (t : Z) :
  t = tokens_of acc ->
  exists taken rest,
    rev_lines = taken ++ rest /\
    overlap_walk encoding rev_lines budget acc t = rev taken ++ acc /\
    (taken = [] \/ tokens_of (rev taken ++ acc) <= budget).
Proof.
  revert acc t; induction rev_lines as [|line rl IH]; intros acc t Ht.
  - exists [], []. simpl. auto.
  - simpl. destruct (Z.gtb_spec (t + count_tokens line) budget) as [Hgt|Hle].
    + exists [], (line :: rl). simpl. auto.
    + destruct (IH (line :: acc) (t + count_tokens line)) as
          (taken & rest & Hrl & Hw & Hsum).
      { unfold Chunker.tokens_of. simpl. unfold Chunker.tokens_of in Ht. lia. }
      exists (line :: taken), rest. simpl. rewrite <- !app_assoc. simpl.
      split; [rewrite Hrl; reflexivity|]. split; [exact Hw|]. right.
      destruct Hsum as [->|Hsum]; [|exact Hsum].
      simpl. unfold Chunker.tokens_of. simpl.
      unfold Chunker.tokens_of in Ht. lia.
Qed.

(** The overlap is a suffix of the lines, for any budget, and is empty or
    fits the budget. *)
Lemma get_overlap_lines_shape (budget : Z) (lines : list string) :
  exists before,
    lines = before ++ get_overlap_lines lines budget /\
    (get_overlap_lines lines budget = [] \/
     tokens_of (get_overlap_lines lines budget) <= budget).
Proof.
  unfold Chunker.get_overlap_lines.
  destruct (overlap_walk_shape budget (rev lines) [] 0 eq_refl)
    as (taken & rest & Hrl & Hw & Hsum).
  rewrite Hw, app_nil_r in *. exists (rev rest). split.
  - rewrite <- (rev_involutive lines), Hrl, rev_app_distr. reflexivity.
  - destruct Hsum as [->|Hsum]; [left; reflexivity|right; exact Hsum].
Qed.

Section WithFile.
Variable file_path_arg : string.
Variable language_arg : string.
Variable metadata_arg : gmap string Value.

Local Abbreviation loop_step :=
  (loop_step chunk_size chunk_overlap encoding file_path_arg language_arg
             metadata_arg).
Local Abbreviation loop :=
  (loop chunk_size chunk_overlap encoding file_path_arg language_arg
        metadata_arg).
Local Abbreviation make_chunk :=
  (make_chunk file_path_arg language_arg metadata_arg).

(** [c] is the chunk of the lines [ls] found after [pre] in the lines
    [done] read so far. *)
Definition spans (done : list string) (c : Chunk) : Prop :=
  exists pre ls post,
    done = pre ++ ls ++ post /\
    ls <> [] /\
    content c = join_newline ls /\
    start_line c = Z.of_nat (List.length pre) + 1 /\
    end_line c = Z.of_nat (List.length pre + List.length ls) /\
    within_budget ls.

(** The fields a chunk takes from the arguments of the call. *)
Definition labelled (k : nat) (c : Chunk) : Prop :=
  file_path c = file_path_arg /\
  language c = language_arg /\
  metadata c = <["chunk_index" := VInt (Z.of_nat k)]> metadata_arg.

(** The chunks advance: no start line before the previous start line, and
    every end line after the previous end line. *)
Fixpoint advancing (prev_start prev_end : Z) (cs : list Chunk) : Prop :=
  match cs with
  | [] => True
  | c :: rest =>
      prev_start <= start_line c /\ prev_end < end_line c /\
      advancing (start_line c) (end_line c) rest
  end.

Fixpoint last_start (prev_start : Z) (cs : list Chunk) : Z :=
  match cs with
  | [] => prev_start
  | c :: rest => last_start (start_line c) rest
  end.

(** What the loop keeps true after reading the lines [done]. *)
Record reading (done : list string) (st : LoopState) : Prop := {
  rd_current : exists pre, done = pre ++ current_chunk_lines st;
  rd_start : current_start_line st
             = Z.of_nat (List.length done) + 1
               - Z.of_nat (List.length (current_chunk_lines st));
  rd_tokens : current_tokens st = tokens_of (current_chunk_lines st);
  rd_budget : current_chunk_lines st = [] \/
              within_budget (current_chunk_lines st);
  rd_chunks : Forall (spans done) (chunks st);
  rd_labels : forall (k : nat) (c : Chunk),
    chunks st !! k = Some c -> labelled k c;
  rd_advancing : advancing 1 0 (chunks st);
  rd_last_start : last_start 1 (chunks st) <= current_start_line st;
  rd_last_end : ChunkerSpec.last_end 0 (chunks st)
                < Z.max 1 (Z.of_nat (List.length done))
}.

Lemma spans_more (done : list string) (line : string) (c : Chunk) :
  spans done c -> spans (done ++ [line]) c.
Proof.
  intros (pre & ls & post & Hd & Hne & Hc & Hs & He & Hb).
  exists pre, ls, (post ++ [line]). rewrite Hd, <- !app_assoc. auto 10.
Qed.

Lemma advancing_snoc (ps pe : Z) (cs : list Chunk) (c : Chunk) :
  advancing ps pe cs ->
  last_start ps cs <= start_line c ->
  ChunkerSpec.last_end pe cs < end_line c ->
  advancing ps pe (cs ++ [c]).
Proof.
  revert ps pe; induction cs as [|c0 cs IH]; simpl; intros ps pe Ha Hs He.
  - auto.
  - destruct Ha as (H1 & H2 & Ha). auto.
Qed.

Lemma last_start_snoc (ps : Z) (cs : list Chunk) (c : Chunk) :
  last_start ps (cs ++ [c]) = start_line c.
Proof. revert ps; induction cs as [|c0 cs IH]; simpl; intros ps; auto. Qed.

Lemma labelled_snoc (st : LoopState) (e : Z) :
  (forall (k : nat) (c : Chunk), chunks st !! k = Some c -> labelled k c) ->
  forall (k : nat) (c : Chunk),
    (chunks st ++ [make_chunk st e]) !! k = Some c -> labelled k c.
Proof.
  intros Hl k c Hk.
  apply lookup_app_Some in Hk as [Hk|[Hlen Hk]]; [auto|].
  apply list_lookup_singleton_Some in Hk as [Hk <-].
  replace k with (List.length (chunks st)) by lia.
  repeat split.
Qed.

Lemma tokens_of_snoc (ls : list string) (line : string) :
  tokens_of (ls ++ [line]) = tokens_of ls + count_tokens line.
Proof.
  rewrite ChunkerSpec.tokens_of_app. unfold Chunker.tokens_of. simpl. lia.
Qed.

Lemma loop_step_reading (done : list string) (st : LoopState) (i : Z)
      (line : string) :
  reading done st -> i = Z.of_nat (List.length done) + 1 ->
  reading (done ++ [line]) (loop_step st i line).
Proof.
  intros [[pre Hcur] Hstart Htok Hbud Hch Hlab Hadv Hls Hle] Hi.
  assert (Hlen : List.length done
                 = (List.length pre + List.length (current_chunk_lines st))%nat).
  { rewrite Hcur at 1. apply length_app. }
  unfold Chunker.loop_step.
  destruct (Z.gtb_spec (current_tokens st + count_tokens line) chunk_size)
    as [Hgt|Hfit];
    [destruct (decide (current_chunk_lines st = [])) as [Hnil|Hne]|].
  - (* the first line, over the budget on its own *)
    rewrite (bool_decide_eq_true_2 _ Hnil). simpl.
    constructor; simpl; rewrite ?length_app; simpl.
    + exists pre. rewrite Hcur at 1. rewrite app_assoc. reflexivity.
    + lia.
    + rewrite tokens_of_snoc, Htok. reflexivity.
    + right. right. exists [], line. rewrite Hnil. auto.
    + eapply Forall_impl; [exact Hch|]. intros c. apply spans_more.
    + exact Hlab.
    + exact Hadv.
    + exact Hls.
    + lia.
  - (* the chunk is closed *)
    rewrite (bool_decide_eq_false_2 _ Hne). simpl.
    destruct (get_overlap_lines_shape chunk_overlap (current_chunk_lines st))
      as (before & Hov & Hovb).
    set (ov := get_overlap_lines (current_chunk_lines st) chunk_overlap) in *.
    assert (Hovlen : List.length (current_chunk_lines st)
                     = (List.length before + List.length ov)%nat).
    { rewrite Hov at 1. apply length_app. }
    assert (Hpos : (0 < List.length (current_chunk_lines st))%nat).
    { destruct (current_chunk_lines st); [congruence|simpl; lia]. }
    constructor; simpl; rewrite ?length_app; simpl.
    + exists (pre ++ before). rewrite Hcur at 1. rewrite Hov at 1.
      rewrite <- !app_assoc. reflexivity.
    + lia.
    + reflexivity.
    + right. right. exists ov, line. auto.
    + apply Forall_app. split.
      * eapply Forall_impl; [exact Hch|]. intros c. apply spans_more.
      * constructor; [|constructor].
        exists pre, (current_chunk_lines st), [line]. simpl.
        split; [rewrite Hcur at 1; rewrite <- app_assoc; reflexivity|].
        split; [exact Hne|]. split; [reflexivity|].
        split; [lia|]. split; [lia|].
        destruct Hbud as [Hnil|Hb]; [congruence|exact Hb].
    + apply labelled_snoc. exact Hlab.
    + apply advancing_snoc; simpl; [exact Hadv|exact Hls|lia].
    + rewrite last_start_snoc. simpl. lia.
    + rewrite ChunkerSpec.last_end_snoc. simpl. lia.
  - (* the line fits *)
    simpl.
    constructor; simpl; rewrite ?length_app; simpl.
    + exists pre. rewrite Hcur at 1. rewrite app_assoc. reflexivity.
    + lia.
    + rewrite tokens_of_snoc, Htok. reflexivity.
    + right. left. rewrite tokens_of_snoc, <- Htok. exact Hfit.
    + eapply Forall_impl; [exact Hch|]. intros c. apply spans_more.
    + exact Hlab.
    + exact Hadv.
    + exact Hls.
    + lia.
Qed.

Lemma loop_reading (lines done : list string) (st : LoopState) (i : Z) :
  reading done st -> i = Z.of_nat (List.length done) + 1 ->
  reading (done ++ lines) (loop st i lines).
Proof.
  revert done st i; induction lines as [|line rest IH]; intros done st i H Hi.
  - rewrite app_nil_r. exact H.
  - simpl. change (line :: rest) with ([line] ++ rest). rewrite app_assoc.
    apply IH; [apply loop_step_reading; assumption|].
    rewrite length_app. simpl. lia.
Qed.

Lemma init_reading : reading [] (mkLoop [] [] 0 1).
Proof.
  constructor; simpl; auto; try lia.
  - exists []. reflexivity.
  - intros k c H. discriminate.
Qed.

(** The chunks of a file, described. *)
Lemma chunk_lines_described (content_arg : string) :
  let lines := split_newline content_arg in
  let cs := chunk_lines chunk_size chunk_overlap encoding file_path_arg
                        language_arg metadata_arg content_arg in
  Forall (spans lines) cs /\
  (forall (k : nat) (c : Chunk), cs !! k = Some c -> labelled k c) /\
  advancing 1 0 cs /\
  ChunkerSpec.last_end 0 cs = Z.of_nat (List.length lines).
Proof.
  intros lines cs. subst cs.
  rewrite (ChunkerSpec.chunk_lines_eq chunk_size chunk_overlap encoding
             file_path_arg language_arg metadata_arg content_arg).
  fold lines. set (st := loop (mkLoop [] [] 0 1) 1 lines).
  assert (Hrd : reading lines st).
  { apply (loop_reading lines [] (mkLoop [] [] 0 1) 1 init_reading).
    reflexivity. }
  destruct Hrd as [[pre Hcur] Hstart Htok Hbud Hch Hlab Hadv Hls Hle].
  assert (Hne : current_chunk_lines st <> []).
  { subst st. pose proof (ChunkerSpec.split_newline_nonempty content_arg) as H.
    fold lines in H. destruct lines as [|l ls]; [congruence|]. simpl.
    apply ChunkerSpec.loop_lines_nonempty,
          ChunkerSpec.loop_step_lines_nonempty. }
  assert (Hlen : List.length lines
                 = (List.length pre + List.length (current_chunk_lines st))%nat).
  { rewrite Hcur at 1. apply length_app. }
  assert (Hpos : (0 < List.length (current_chunk_lines st))%nat).
  { destruct (current_chunk_lines st); [congruence|simpl; lia]. }
  split; [|split; [|split]].
  - apply Forall_app. split; [exact Hch|].
    constructor; [|constructor].
    exists pre, (current_chunk_lines st), []. rewrite app_nil_r. simpl.
    split; [exact Hcur|]. split; [exact Hne|]. split; [reflexivity|].
    split; [lia|]. split; [lia|].
    destruct Hbud as [Hnil|Hb]; [congruence|exact Hb].
  - apply labelled_snoc. exact Hlab.
  - apply advancing_snoc; simpl; [exact Hadv|exact Hls|lia].
  - apply ChunkerSpec.last_end_snoc.
Qed.

(** While the lines read fit the budget together, the loop only appends. *)
Lemma loop_no_split (rest done : list string) (i : Z) :
  tokens_of (done ++ rest) <= chunk_size ->
  loop (mkLoop [] done (tokens_of done) 1) i rest
  = mkLoop [] (done ++ rest) (tokens_of (done ++ rest)) 1.
Proof.
  revert done i; induction rest as [|line rest IH]; intros done i Hfit.
  - rewrite app_nil_r. reflexivity.
  - simpl. unfold Chunker.loop_step. simpl.
    assert (Hle : tokens_of done + count_tokens line <= chunk_size).
    { change (line :: rest) with ([line] ++ rest) in Hfit.
      rewrite app_assoc, ChunkerSpec.tokens_of_app, tokens_of_snoc in Hfit.
      pose proof (ChunkerSpec.tokens_of_nonneg encoding rest). lia. }
    destruct (Z.gtb_spec (tokens_of done + count_tokens line) chunk_size)
      as [Hgt|_]; [lia|].
    simpl. rewrite <- tokens_of_snoc.
    change (line :: rest) with ([line] ++ rest) in Hfit |- *.
    rewrite app_assoc in Hfit |- *. apply IH. exact Hfit.
Qed.

Lemma chunk_lines_single (content_arg : string) :
  tokens_of (split_newline content_arg) <= chunk_size ->
  chunk_lines chunk_size chunk_overlap encoding file_path_arg language_arg
              metadata_arg content_arg
  = [mkChunk content_arg file_path_arg language_arg 1
             (Z.of_nat (List.length (split_newline content_arg)))
             (<["chunk_index" := VInt 0]> metadata_arg)].
Proof.
  intros Hfit.
  rewrite (ChunkerSpec.chunk_lines_eq chunk_size chunk_overlap encoding
             file_path_arg language_arg metadata_arg content_arg).
  cbv zeta.
  pose proof (loop_no_split (split_newline content_arg) [] 1 Hfit) as Hrun.
  change (tokens_of []) with 0 in Hrun. simpl app in Hrun. rewrite Hrun.
  simpl. unfold Chunker.make_chunk. simpl.
  rewrite join_split_newline. reflexivity.
Qed.

End WithFile.

Lemma chunk_file_eq (content_arg file_path_arg language_arg : string)
      (metadata_opt : option (gmap string Value)) :
  chunk_file chunk_size chunk_overlap encoding content_arg file_path_arg
             language_arg metadata_opt
  = chunk_lines chunk_size chunk_overlap encoding file_path_arg language_arg
                (default ∅ metadata_opt) content_arg.
Proof.
  unfold chunk_file, chunk_by_structure, chunk_by_tokens.
  destruct (bool_decide _); reflexivity.
Qed.

(** X1. The content of every chunk is the file's lines from the chunk's
    start line to its end line, joined with newlines; the range is not
    empty and lies within the file. *)
Theorem chunk_content_is_its_lines
        (content_arg file_path_arg language_arg : string)
        (metadata_opt : option (gmap string Value)) (c : Chunk) :
  c ∈ chunk_file chunk_size chunk_overlap encoding content_arg file_path_arg
                 language_arg metadata_opt ->
  exists pre ls post,
    split_newline content_arg = pre ++ ls ++ post /\
    ls <> [] /\
    content c = join_newline ls /\
    start_line c = Z.of_nat (List.length pre) + 1 /\
    end_line c = Z.of_nat (List.length pre + List.length ls).
Proof.
  rewrite chunk_file_eq. intros Hin.
  destruct (chunk_lines_described file_path_arg language_arg
              (default ∅ metadata_opt) content_arg) as (Hsp & _).
  rewrite Forall_forall in Hsp.
  destruct (Hsp c Hin) as (pre & ls & post & H1 & H2 & H3 & H4 & H5 & _).
  exists pre, ls, post. auto.
Qed.

(** X2. When no line of the file has more tokens than the chunk budget
    less the overlap budget, the lines of every chunk fit the chunk
    budget. *)
Theorem chunks_fit_budget
        (content_arg file_path_arg language_arg : string)
        (metadata_opt : option (gmap string Value)) (c : Chunk) :
  (forall line, line ∈ split_newline content_arg ->
     count_tokens line <= chunk_size - Z.max 0 chunk_overlap) ->
  c ∈ chunk_file chunk_size chunk_overlap encoding content_arg file_path_arg
                 language_arg metadata_opt ->
  exists pre ls post,
    split_newline content_arg = pre ++ ls ++ post /\
    content c = join_newline ls /\
    tokens_of ls <= chunk_size.
Proof.
  intros Hlines. rewrite chunk_file_eq. intros Hin.
  destruct (chunk_lines_described file_path_arg language_arg
              (default ∅ metadata_opt) content_arg) as (Hsp & _).
  rewrite Forall_forall in Hsp.
  destruct (Hsp c Hin) as (pre & ls & post & H1 & H2 & H3 & H4 & H5 & Hb).
  exists pre, ls, post. split; [exact H1|]. split; [exact H3|].
  destruct Hb as [Hb|(o & l & Hls & Ho)]; [exact Hb|]. subst ls.
  assert (Hl : count_tokens l <= chunk_size - Z.max 0 chunk_overlap).
  { apply Hlines. rewrite H1.
    apply elem_of_app; right. apply elem_of_app; left.
    apply elem_of_app; right. apply list_elem_of_here. }
  rewrite tokens_of_snoc.
  destruct Ho as [Hnil|Ho]; [subst o; unfold Chunker.tokens_of; simpl; lia|].
  lia.
Qed.

Lemma advancing_adjacent (ps pe : Z) (cs : list Chunk) (k : nat)
      (c c' : Chunk) :
  advancing ps pe cs -> cs !! k = Some c -> cs !! S k = Some c' ->
  start_line c <= start_line c' /\ end_line c < end_line c'.
Proof.
  revert ps pe k; induction cs as [|c0 cs IH]; intros ps pe k Ha Hk Hk'.
  - discriminate.
  - destruct Ha as (_ & _ & Ha). destruct k as [|k].
    + simpl in Hk. injection Hk as ->.
      destruct cs as [|c1 cs]; [discriminate|].
      simpl in Hk'. injection Hk' as ->.
      destruct Ha as (H1 & H2 & _). auto.
    + simpl in Hk, Hk'. eapply IH; eauto.
Qed.

Lemma advancing_count (ps pe : Z) (cs : list Chunk) :
  advancing ps pe cs ->
  Z.of_nat (List.length cs) <= ChunkerSpec.last_end pe cs - pe.
Proof.
  revert ps pe; induction cs as [|c0 cs IH]; simpl; intros ps pe Ha.
  - lia.
  - destruct Ha as (_ & H2 & Ha). specialize (IH _ _ Ha). lia.
Qed.

(** X3. The chunks advance through the file: from one chunk to the next
    the start line does not decrease and the end line increases; so there
    are at most as many chunks as lines. *)
Theorem chunks_advance
        (content_arg file_path_arg language_arg : string)
        (metadata_opt : option (gmap string Value)) :
  let cs := chunk_file chunk_size chunk_overlap encoding content_arg
                       file_path_arg language_arg metadata_opt in
  (forall (k : nat) (c c' : Chunk),
     cs !! k = Some c -> cs !! S k = Some c' ->
     start_line c <= start_line c' /\ end_line c < end_line c') /\
  (List.length cs <= List.length (split_newline content_arg))%nat.
Proof.
  intros cs. subst cs. rewrite chunk_file_eq.
  destruct (chunk_lines_described file_path_arg language_arg
              (default ∅ metadata_opt) content_arg) as (_ & _ & Ha & He).
  split.
  - intros k c c'. apply advancing_adjacent with (ps := 1) (pe := 0).
    exact Ha.
  - apply advancing_count in Ha. rewrite He in Ha. lia.
Qed.

(** X4. Every chunk carries the file path and the language given to the
    call, and its metadata is the caller's metadata with chunk_index set to
    the chunk's position: no other key is added or changed. *)
Theorem chunk_labels
        (content_arg file_path_arg language_arg : string)
        (metadata_opt : option (gmap string Value)) (k : nat) (c : Chunk) :
  chunk_file chunk_size chunk_overlap encoding content_arg file_path_arg
             language_arg metadata_opt !! k = Some c ->
  file_path c = file_path_arg /\
  language c = language_arg /\
  metadata c = <["chunk_index" := VInt (Z.of_nat k)]> (default ∅ metadata_opt).
Proof.
  rewrite chunk_file_eq. intros Hk.
  destruct (chunk_lines_described file_path_arg language_arg
              (default ∅ metadata_opt) content_arg) as (_ & Hl & _).
  exact (Hl k c Hk).
Qed.

(** X5. A file whose lines fit the chunk budget together is one chunk:
    the content unchanged, from line 1 to the last line, chunk_index 0. *)
Theorem small_file_is_one_chunk
        (content_arg file_path_arg language_arg : string)
        (metadata_opt : option (gmap string Value)) :
  tokens_of (split_newline content_arg) <= chunk_size ->
  chunk_file chunk_size chunk_overlap encoding content_arg file_path_arg
             language_arg metadata_opt
  = [mkChunk content_arg file_path_arg language_arg 1
             (Z.of_nat (List.length (split_newline content_arg)))
             (<["chunk_index" := VInt 0]> (default ∅ metadata_opt))].
Proof.
  intros Hfit. rewrite chunk_file_eq. apply chunk_lines_single. exact Hfit.
Qed.

End WithChunker.

(** Three lines of one token each (four characters, no tokenizer). *)
Definition sample_text : string :=
  String.append "aaaa" (String newline
    (String.append "bbbb" (String newline "cccc"))).

(** With a budget of two tokens and an overlap of one, the second chunk of
    [sample_text]: lines 2 to 3, the first of them shared with the chunk
    before. *)
Definition sample_second_chunk : Chunk :=
  mkChunk (String.append "bbbb" (String newline "cccc")) "f.py" "python" 2 3
          (<["chunk_index" := VInt 1]> ∅).

Lemma sample_second_chunk_lookup :
  chunk_file 2 1 None sample_text "f.py" "python" None !! 1%nat
  = Some sample_second_chunk.
Proof. vm_compute. reflexivity. Qed.

(** X1 at the second chunk of the sample. *)
Lemma chunk_content_is_its_lines_witness :
  exists pre ls post,
    split_newline sample_text = pre ++ ls ++ post /\
    ls <> [] /\
    content sample_second_chunk = join_newline ls /\
    start_line sample_second_chunk = Z.of_nat (List.length pre) + 1 /\
    end_line sample_second_chunk
    = Z.of_nat (List.length pre + List.length ls).
Proof.
  apply (chunk_content_is_its_lines 2 1 None sample_text "f.py" "python" None
           sample_second_chunk).
  apply (list_elem_of_lookup_2 _ 1%nat). exact sample_second_chunk_lookup.
Defined.

(** X2 at the sample: every line has one token, the budget less the
    overlap is one. *)
Lemma chunks_fit_budget_witness :
  exists pre ls post,
    split_newline sample_text = pre ++ ls ++ post /\
    content sample_second_chunk = join_newline ls /\
    tokens_of None ls <= 2.
Proof.
  apply (chunks_fit_budget 2 1 None sample_text "f.py" "python" None
           sample_second_chunk).
  - intros line Hin. vm_compute in Hin.
    repeat (apply elem_of_cons in Hin as [->|Hin];
            [vm_compute; discriminate|]).
    apply elem_of_nil in Hin. contradiction.
  - apply (list_elem_of_lookup_2 _ 1%nat). exact sample_second_chunk_lookup.
Defined.

(** X4 at the second chunk of the sample. *)
Lemma chunk_labels_witness :
  file_path sample_second_chunk = "f.py" /\
  language sample_second_chunk = "python" /\
  metadata sample_second_chunk
  = <["chunk_index" := VInt (Z.of_nat 1)]> (default ∅ None).
Proof.
  apply (chunk_labels 2 1 None sample_text "f.py" "python" None 1
           sample_second_chunk).
  exact sample_second_chunk_lookup.
Defined.

(** X5 at the sample with the default budget of 500 tokens. *)
Lemma small_file_is_one_chunk_witness :
  chunk_file CHUNK_SIZE CHUNK_OVERLAP None sample_text "f.py" "python" None
  = [mkChunk sample_text "f.py" "python" 1
             (Z.of_nat (List.length (split_newline sample_text)))
             (<["chunk_index" := VInt 0]> (default ∅ None))].
Proof.
  apply (small_file_is_one_chunk CHUNK_SIZE CHUNK_OVERLAP None sample_text
           "f.py" "python" None).
  vm_compute. discriminate.
Defined.

End ChunkerFacts.

(** ** app/core/ingestion.py: the file records *)

Module IngestionCode.
Import Runtime.

Definition SUPPORTED_EXTENSIONS : list string :=
  [".py"; ".js"; ".ts"; ".java"; ".go"; ".rs"; ".cpp"; ".c"; ".h"; ".hpp";
   ".php"; ".rb"; ".sh"; ".yml"; ".yaml"; ".json"; ".dockerfile"; ".tf";
   ".tfvars"].

(** The [language_map] dictionary of [_detect_language], in source order;
    its keys are distinct. *)
Definition language_map : list (string * string) :=
  [(".py", "python"); (".js", "javascript"); (".ts", "typescript");
   (".java", "java"); (".go", "go"); (".rs", "rust"); (".cpp", "cpp");
   (".c", "c"); (".h", "c"); (".hpp", "cpp"); (".php", "php");
   (".rb", "ruby"); (".sh", "shell"); (".yml", "yaml"); (".yaml", "yaml");
   (".json", "json"); (".dockerfile", "dockerfile"); (".tf", "terraform");
   (".tfvars", "terraform")].

Fixpoint dict_get (key : string) (d : list (string * string))
  : option string :=
  match d with
  | [] => None
  | (k, v) :: rest => if String.eqb k key then Some v else dict_get key rest
  end.

(** [_detect_language]: [language_map.get(extension.lower(), "unknown")] *)
Definition detect_language (extension : string) : string :=
  match dict_get (lower extension) language_map with
  | Some language => language
  | None => "unknown"
  end.

(** The extension test of [scan_directory]:
    [file_path.suffix.lower() not in SUPPORTED_EXTENSIONS] skips the file. *)
Definition supported (suffix : string) : bool :=
  bool_decide (lower suffix ∈ SUPPORTED_EXTENSIONS).

(** [content.count("\n")] *)
Fixpoint count_newlines (s : string) : nat :=
  match s with
  | EmptyString => 0%nat
  | String c rest =>
      if Ascii.eqb c Chunker.newline then S (count_newlines rest)
      else count_newlines rest
  end.

(** The dictionary [scan_directory] appends for a file it has read:
    [suffix] is [file_path.suffix]. *)
Definition file_record (relative_path absolute_path content suffix : string)
  : Ingestion.FileInfo :=
  Ingestion.mkFile relative_path absolute_path content
                   (detect_language suffix)
                   (Z.of_nat (String.length content))
                   (Z.of_nat (count_newlines content) + 1).

End IngestionCode.

Module IngestionFacts.
Import Runtime IngestionCode.

(** X6. A file that passes the extension test of the directory scan gets
    a language of the map, never "unknown", whatever the case of its
    suffix. *)
Theorem supported_suffix_has_language (suffix : string) :
  supported suffix = true ->
  detect_language suffix <> "unknown" /\
  In (lower suffix, detect_language suffix) language_map.
Proof.
  unfold supported, detect_language. intros H.
  apply bool_decide_eq_true_1 in H. unfold SUPPORTED_EXTENSIONS in H.
  repeat (apply elem_of_cons in H as [->|H];
          [vm_compute; split; [discriminate|tauto]|]).
  apply elem_of_nil in H. contradiction.
Qed.

Lemma supported_suffix_has_language_witness :
  detect_language ".PY" <> "unknown" /\
  In (lower ".PY", detect_language ".PY") language_map.
Proof.
  apply (supported_suffix_has_language ".PY"). vm_compute. reflexivity.
Defined.

(** The line count of the ingestion is the number of lines the chunker
    splits the content into. *)
Lemma count_newlines_split (s : string) :
  S (count_newlines s) = List.length (Chunker.split_newline s).
Proof.
  induction s as [|c rest IH]; [reflexivity|].
  simpl. destruct (Ascii.eqb c Chunker.newline).
  - simpl. rewrite IH. reflexivity.
  - rewrite IH.
    pose proof (ChunkerSpec.split_newline_nonempty rest) as Hne.
    destruct (Chunker.split_newline rest); [congruence|reflexivity].
Qed.

(** X7. For a file record built by the ingestion, the scanner's chunks
    of the file end at the record's line count, and every chunk carries
    that line count and the record's size in its metadata. *)
Theorem record_lines_match_chunks (env : Env)
        (relative_path absolute_path content suffix : string) :
  let record := file_record relative_path absolute_path content suffix in
  let cs := Scanner.chunk_one env record in
  (exists cl, last cs = Some cl /\
              Chunker.end_line cl = Ingestion.lines record) /\
  (forall c, c ∈ cs ->
     Chunker.metadata c !! "lines" = Some (VInt (Ingestion.lines record)) /\
     Chunker.metadata c !! "file_size"
     = Some (VInt (Z.of_nat (String.length content)))).
Proof.
  intros record cs. subst cs. unfold Scanner.chunk_one. split.
  - rewrite ChunkerFacts.chunk_file_eq.
    destruct (ChunkerSpec.chunk_lines_covers Chunker.CHUNK_SIZE
                Chunker.CHUNK_OVERLAP (tiktoken_encoding env)
                (Ingestion.path record) (Ingestion.language record)
                (default ∅ (Some (<["file_size" := VInt (Ingestion.size record)]>
                   (<["lines" := VInt (Ingestion.lines record)]> ∅))))
                (Ingestion.content record))
      as (_ & _ & _ & (cl & Hlast & Hend) & _).
    exists cl. split; [exact Hlast|]. rewrite Hend. simpl.
    rewrite <- count_newlines_split. lia.
  - intros c Hin. apply list_elem_of_lookup in Hin as [k Hk].
    rewrite ChunkerFacts.chunk_file_eq in Hk.
    destruct (ChunkerFacts.chunk_lines_described Chunker.CHUNK_SIZE
                Chunker.CHUNK_OVERLAP (tiktoken_encoding env)
                (Ingestion.path record) (Ingestion.language record)
                (default ∅ (Some (<["file_size" := VInt (Ingestion.size record)]>
                   (<["lines" := VInt (Ingestion.lines record)]> ∅))))
                (Ingestion.content record)) as (_ & Hlab & _).
    destruct (Hlab k c Hk) as (_ & _ & Hm).
    rewrite Hm. simpl. split.
    + rewrite lookup_insert_ne by discriminate.
      rewrite lookup_insert_ne by discriminate.
      apply lookup_insert_eq.
    + rewrite lookup_insert_ne by discriminate.
      apply lookup_insert_eq.
Qed.

End IngestionFacts.

(** ** The vector store: what is stored and what comes back *)

Module VectorStoreFacts.
Import Runtime VectorStore.

(** The keys the payload sets by itself. *)
Definition fixed_keys : list string :=
  ["content"; "file_path"; "language"; "start_line"; "end_line"; "scan_id"].

(** The chunk's metadata uses none of them. *)
Definition metadata_free (chunk : Chunker.Chunk) : Prop :=
  forall k, k ∈ fixed_keys -> Chunker.metadata chunk !! k = None.

(** The points [build_points] makes when the next fresh identifier is the
    [n]-th. *)
Fixpoint points_from (n : nat) (pairs : list (Chunker.Chunk * Vector))
         (scan_id : string) : list PointStruct :=
  match pairs with
  | [] => []
  | (chunk, embedding) :: rest =>
      mkPoint (uuid_of_nat n) embedding (payload_of chunk scan_id)
      :: points_from (S n) rest scan_id
  end.

(** The test of [delete_scan_data] on a point. *)
Definition of_scan (scan_id : string) (p : PointStruct) : bool :=
  bool_decide (point_payload p !! "scan_id" = Some (VStr scan_id)).

Ltac in_list := apply (bool_decide_unpack _); vm_compute; exact I.

Lemma payload_fields_fixed (k : string) :
  k ∈ payload_fields -> k ∈ fixed_keys.
Proof.
  unfold payload_fields. intros H.
  repeat (apply elem_of_cons in H as [->|H]; [in_list|]).
  apply elem_of_nil in H. contradiction.
Qed.

Lemma payload_of_fixed (chunk : Chunker.Chunk) (scan_id : string) :
  metadata_free chunk ->
  payload_of chunk scan_id !! "content" = Some (VStr (Chunker.content chunk)) /\
  payload_of chunk scan_id !! "file_path"
  = Some (VStr (Chunker.file_path chunk)) /\
  payload_of chunk scan_id !! "language"
  = Some (VStr (Chunker.language chunk)) /\
  payload_of chunk scan_id !! "start_line"
  = Some (VInt (Chunker.start_line chunk)) /\
  payload_of chunk scan_id !! "end_line"
  = Some (VInt (Chunker.end_line chunk)) /\
  payload_of chunk scan_id !! "scan_id" = Some (VStr scan_id).
Proof.
  intros Hfree. unfold payload_of.
  repeat split;
    (rewrite lookup_union_r by (apply Hfree; in_list));
    repeat (rewrite lookup_insert_ne by discriminate);
    apply lookup_insert_eq.
Qed.

(** X8. A chunk whose metadata uses none of the payload's own keys comes
    back from a search as it was stored: content, file path, language and
    line range are the chunk's, and the metadata is the chunk's metadata
    with the scan identifier added. *)
Theorem stored_chunk_comes_back (chunk : Chunker.Chunk) (scan_id : string)
        (id : Uuid) (similarity : float) :
  metadata_free chunk ->
  result_of (Qdrant.mkScored id similarity (payload_of chunk scan_id))
  = mkResult similarity
             (Some (VStr (Chunker.content chunk)))
             (Some (VStr (Chunker.file_path chunk)))
             (Some (VStr (Chunker.language chunk)))
             (Some (VInt (Chunker.start_line chunk)))
             (Some (VInt (Chunker.end_line chunk)))
             (<["scan_id" := VStr scan_id]> (Chunker.metadata chunk)).
Proof.
  intros Hfree.
  destruct (payload_of_fixed chunk scan_id Hfree)
    as (H1 & H2 & H3 & H4 & H5 & _).
  unfold result_of. simpl. rewrite H1, H2, H3, H4, H5. f_equal.
  unfold payload_of. rewrite map_filter_union.
  - rewrite map_filter_id.
    + repeat (rewrite map_filter_insert_not
                by (intros y Hy; apply Hy; simpl; in_list)).
      rewrite map_filter_insert_True by (simpl; in_list).
      rewrite map_filter_empty, insert_empty.
      symmetry. apply insert_union_singleton_r. apply Hfree. in_list.
    + intros k x Hx. simpl. intros Hin.
      rewrite (Hfree k (payload_fields_fixed k Hin)) in Hx. discriminate.
  - repeat (apply map_disjoint_insert_r_2; [apply Hfree; in_list|]).
    apply map_disjoint_empty_r.
Qed.

Lemma stored_chunk_comes_back_witness :
  let chunk := Chunker.mkChunk "x = 1" "a.py" "python" 1 1
                               (<["chunk_index" := VInt 0]> ∅) in
  result_of (Qdrant.mkScored "uuid-0" 1%Q (payload_of chunk "scan-1"))
  = mkResult 1%Q (Some (VStr "x = 1")) (Some (VStr "a.py"))
             (Some (VStr "python")) (Some (VInt 1)) (Some (VInt 1))
             (<["scan_id" := VStr "scan-1"]> (<["chunk_index" := VInt 0]> ∅)).
Proof.
  intros chunk.
  apply (stored_chunk_comes_back chunk "scan-1" "uuid-0" 1%Q).
  intros k Hk. unfold fixed_keys in Hk.
  repeat (apply elem_of_cons in Hk as [->|Hk]; [reflexivity|]).
  apply elem_of_nil in Hk. contradiction.
Defined.

Lemma build_points_run (scan_id : string)
      (pairs : list (Chunker.Chunk * Vector)) (w : World) :
  build_points pairs scan_id w
  = (mkWorld (collection w) (encode_calls w)
             (next_uuid w + List.length pairs) (clock w),
     inr (points_from (next_uuid w) pairs scan_id)).
Proof.
  revert w; induction pairs as [|[chunk embedding] rest IH]; intros w.
  - simpl. unfold ret. rewrite Nat.add_0_r. destruct w; reflexivity.
  - simpl. unfold bind at 1. unfold uuid4. unfold bind at 1.
    rewrite IH. simpl. unfold ret. do 2 f_equal. lia.
Qed.

Lemma points_from_ids (n : nat) (pairs : list (Chunker.Chunk * Vector))
      (scan_id : string) :
  map point_id (points_from n pairs scan_id)
  = map uuid_of_nat (seq n (List.length pairs)).
Proof.
  revert n; induction pairs as [|[c v] rest IH]; intros n; simpl;
    [reflexivity|]. rewrite IH. reflexivity.
Qed.

Lemma points_from_of_scan (n : nat) (pairs : list (Chunker.Chunk * Vector))
      (scan_id : string) :
  (forall cv, cv ∈ pairs -> Chunker.metadata (fst cv) !! "scan_id" = None) ->
  List.filter (fun p => negb (of_scan scan_id p))
              (points_from n pairs scan_id) = [].
Proof.
  revert n; induction pairs as [|[c v] rest IH]; intros n Hfree; simpl;
    [reflexivity|].
  unfold of_scan at 1. simpl.
  rewrite (VectorStoreSpec.payload_of_scan_id c scan_id)
    by (apply (Hfree (c, v)), list_elem_of_here).
  rewrite bool_decide_eq_true_2 by reflexivity. simpl.
  apply IH. intros cv Hin. apply Hfree, list_elem_of_further, Hin.
Qed.

Lemma filter_fresh (ids : list Uuid) (coll : list PointStruct) :
  (forall p, p ∈ coll -> point_id p ∉ ids) ->
  filter (fun p => point_id p ∉ ids) coll = coll.
Proof.
  induction coll as [|p coll IH]; intros Hfresh; [reflexivity|].
  rewrite filter_cons_True by (apply Hfresh, list_elem_of_here).
  rewrite IH; [reflexivity|].
  intros q Hq. apply Hfresh, list_elem_of_further, Hq.
Qed.

(** X9. On the in-memory collection, storing the chunks of a scan and
    then deleting the scan's data leaves the collection as it was, less
    the points that already carried the scan's identifier: provided the
    two lists have the same length, no chunk's metadata has a scan_id of
    its own, and no point of the collection has one of the fresh
    identifiers. *)
Theorem add_then_delete_scan_data (env : Env) (chunks : list Chunker.Chunk)
        (embeddings : list Vector) (scan_id : string) (w : World) :
  client_upsert env = Qdrant.memory_upsert ->
  client_delete env = Qdrant.memory_delete ->
  List.length chunks = List.length embeddings ->
  (forall c, c ∈ chunks -> Chunker.metadata c !! "scan_id" = None) ->
  (forall p, p ∈ collection w ->
     point_id p ∉ map uuid_of_nat (seq (next_uuid w) (List.length chunks))) ->
  exists w1 w2,
    add_chunks env chunks embeddings scan_id w = (w1, inr tt) /\
    delete_scan_data env scan_id w1 = (w2, inr tt) /\
    collection w2
    = List.filter (fun p => negb (of_scan scan_id p)) (collection w).
Proof.
  intros Hup Hdel Hlen Hmeta Hfresh.
  unfold add_chunks. rewrite (proj2 (Nat.eqb_eq _ _) Hlen). simpl.
  unfold bind at 1. rewrite build_points_run.
  unfold bind, get_collection, lift, put_collection. rewrite Hup. simpl.
  eexists _, _. split; [reflexivity|].
  unfold delete_scan_data, bind, get_collection, lift, put_collection.
  rewrite Hdel. simpl. split; [reflexivity|].
  rewrite points_from_ids, length_zip, <- Hlen, Nat.min_id.
  rewrite (filter_fresh _ _ Hfresh), List.filter_app.
  rewrite !(List.filter_ext
              (fun p => negb (Qdrant.matches
                                [Qdrant.mkCond "scan_id" (VStr scan_id)] p))
              (fun p => negb (of_scan scan_id p)))
    by (intros p; unfold of_scan; simpl; rewrite andb_true_r; reflexivity).
  rewrite points_from_of_scan, app_nil_r; [reflexivity|].
  intros cv Hin. apply Hmeta.
  destruct cv as [c v]. apply elem_of_zip_l in Hin. exact Hin.
Qed.

(** X9 run on a collection that holds one point of another scan. *)
Lemma add_then_delete_scan_data_witness :
  let kept := mkPoint "keep" [2%Q] (<["scan_id" := VStr "scan-0"]> ∅) in
  let chunk := Chunker.mkChunk "x = 1" "a.py" "python" 1 1
                               (<["chunk_index" := VInt 0]> ∅) in
  let w := mkWorld [kept] [] 0 0 in
  exists w1 w2,
    add_chunks Fixture.demo_env [chunk] [[1%Q]] "scan-1" w = (w1, inr tt) /\
    delete_scan_data Fixture.demo_env "scan-1" w1 = (w2, inr tt) /\
    collection w2
    = List.filter (fun p => negb (of_scan "scan-1" p)) (collection w).
Proof.
  intros kept chunk w.
  apply (add_then_delete_scan_data Fixture.demo_env [chunk] [[1%Q]] "scan-1"
                                   w).
  - reflexivity.
  - reflexivity.
  - reflexivity.
  - intros c Hc. apply list_elem_of_singleton in Hc. subst c. reflexivity.
  - intros p Hp. apply list_elem_of_singleton in Hp. subst p. in_list.
Defined.

End VectorStoreFacts.

(** ** The indexing stage of a scan *)

Module IndexingFacts.
Import Runtime Scanner.

Lemma generate_embeddings_collection (env : Env) (texts : list string)
      (w : World) :
  collection (fst (Embeddings.generate_embeddings env texts w))
  = collection w.
Proof.
  destruct texts as [|t ts]; [reflexivity|].
  unfold Embeddings.generate_embeddings, Embeddings.encode, bind,
    log_encode_call, lift. simpl.
  destruct (model_encode env (t :: ts)); reflexivity.
Qed.

(** The metadata the scanner gives to the chunker, with the chunk index,
    uses none of the payload's own keys. *)
Lemma chunk_one_metadata_free (env : Env) (file_info : Ingestion.FileInfo)
      (c : Chunker.Chunk) :
  c ∈ chunk_one env file_info ->
  Chunker.file_path c = Ingestion.path file_info /\
  Chunker.language c = Ingestion.language file_info /\
  VectorStoreFacts.metadata_free c.
Proof.
  intros Hin. apply list_elem_of_lookup in Hin as [k Hk].
  unfold chunk_one in Hk. rewrite ChunkerFacts.chunk_file_eq in Hk.
  destruct (ChunkerFacts.chunk_lines_described Chunker.CHUNK_SIZE
              Chunker.CHUNK_OVERLAP (tiktoken_encoding env)
              (Ingestion.path file_info) (Ingestion.language file_info)
              (default ∅ (Some (<["file_size" := VInt (Ingestion.size file_info)]>
                 (<["lines" := VInt (Ingestion.lines file_info)]> ∅))))
              (Ingestion.content file_info)) as (_ & Hlab & _).
  destruct (Hlab k c Hk) as (Hp & Hl & Hm).
  split; [exact Hp|]. split; [exact Hl|].
  intros key Hkey. rewrite Hm. simpl.
  unfold VectorStoreFacts.fixed_keys in Hkey.
  repeat (apply elem_of_cons in Hkey as [->|Hkey]; [reflexivity|]).
  apply elem_of_nil in Hkey. contradiction.
Qed.

(** X10. When the indexing stage of a scan succeeds on the in-memory
    collection, it has upserted one point per chunk of the scanned files,
    and every one of these points carries the scan's identifier and the
    path and language of one of the files. *)
Theorem indexed_points_are_tagged (env : Env) (scan_id_arg : Uuid)
        (files : list Ingestion.FileInfo) (w w' : World) :
  client_upsert env = Qdrant.memory_upsert ->
  index_files env scan_id_arg files w = (w', inr tt) ->
  exists points,
    Qdrant.memory_upsert (collection w) points = inr (collection w') /\
    List.length points = List.length (flat_map (chunk_one env) files) /\
    forall p, p ∈ points ->
      point_payload p !! "scan_id" = Some (VStr scan_id_arg) /\
      exists file_info,
        file_info ∈ files /\
        point_payload p !! "file_path"
        = Some (VStr (Ingestion.path file_info)) /\
        point_payload p !! "language"
        = Some (VStr (Ingestion.language file_info)).
Proof.
  intros Hup Hrun. unfold index_files in Hrun.
  set (all_chunks := flat_map (chunk_one env) files) in *.
  set (texts := map Chunker.content all_chunks) in *.
  rewrite ScannerSpec.bind_run in Hrun.
  pose proof (generate_embeddings_collection env texts w) as Hcoll.
  destruct (Embeddings.generate_embeddings env texts w)
    as [w1 [e|embeddings]]; [discriminate|]. simpl in Hcoll.
  destruct (Nat.eq_dec (List.length all_chunks) (List.length embeddings))
    as [Hlen|Hlen].
  - destruct (VectorStoreSpec.add_chunks_equal_lengths env all_chunks
                embeddings scan_id_arg w1 Hup Hlen)
      as (w2 & points & Hadd & Hups & Hn & Hmap).
    rewrite Hadd in Hrun. injection Hrun as <-.
    exists points. rewrite <- Hcoll. split; [exact Hups|].
    split; [exact Hn|].
    intros p Hp.
    assert (Hpair : (point_vector p, point_payload p)
                    ∈ map (fun cv => (snd cv,
                                      VectorStore.payload_of (fst cv)
                                                             scan_id_arg))
                          (zip all_chunks embeddings)).
    { rewrite <- Hmap.
      apply (list_elem_of_fmap_2
               (fun q => (point_vector q, point_payload q))). exact Hp. }
    apply list_elem_of_fmap in Hpair as ([c v] & Heq & Hcv).
    simpl in Heq. injection Heq as _ Hpay.
    apply elem_of_zip_l in Hcv.
    apply list_elem_of_In, in_flat_map in Hcv as (file_info & Hf & Hc).
    apply list_elem_of_In in Hf, Hc.
    destruct (chunk_one_metadata_free env file_info c Hc)
      as (Hpath & Hlang & Hfree).
    destruct (VectorStoreFacts.payload_of_fixed c scan_id_arg Hfree)
      as (_ & H2 & H3 & _ & _ & H6).
    rewrite Hpay. split; [exact H6|].
    exists file_info. rewrite H2, H3, Hpath, Hlang. auto.
  - rewrite (VectorStoreSpec.add_chunks_length_mismatch env all_chunks
               embeddings scan_id_arg w1 Hlen) in Hrun.
    discriminate.
Qed.

(** X10 run on the three files of the runs. *)
Lemma indexed_points_are_tagged_witness :
  exists points,
    Qdrant.memory_upsert (collection Fixture.w0) points
    = inr (collection
             (fst (index_files Fixture.demo_env "scan-1" Fixture.three_files
                               Fixture.w0))) /\
    List.length points
    = List.length (flat_map (chunk_one Fixture.demo_env) Fixture.three_files)
    /\
    forall p, p ∈ points ->
      point_payload p !! "scan_id" = Some (VStr "scan-1") /\
      exists file_info,
        file_info ∈ Fixture.three_files /\
        point_payload p !! "file_path"
        = Some (VStr (Ingestion.path file_info)) /\
        point_payload p !! "language"
        = Some (VStr (Ingestion.language file_info)).
Proof.
  apply (indexed_points_are_tagged Fixture.demo_env "scan-1"
           Fixture.three_files Fixture.w0).
  - reflexivity.
  - vm_compute. reflexivity.
Defined.

End IndexingFacts.

(** ** The analysis engine: which answer is returned *)

Module LLMFacts.
Import Runtime LLM.

Section WithEnv.
Variable env : Env.

(** What the Ollama stage hands back: the primary model's answer, else the
    fallback model's when it is another model. *)
Definition ollama_answer (prompt : string) (w : World) : option Json :=
  match snd (ollama_attempt env (ollama_model env) prompt w) with
  | inr r => Some r
  | inl _ =>
      if String.eqb (ollama_fallback_model env) (ollama_model env) then None
      else match snd (ollama_attempt env (ollama_fallback_model env) prompt w)
           with
           | inr r => Some r
           | inl _ => None
           end
  end.

(** The answer of the Ollama stage that [analyze_code] accepts: there is a
    client and the answer is true in Python's sense. *)
Definition accepted_ollama_answer (prompt : string) (w : World)
  : option Json :=
  if ollama_client env then
    match ollama_answer prompt w with
    | Some r => if truthy r then Some r else None
    | None => None
    end
  else None.

(** The answer of the OpenAI stage, when it is configured and enabled and
    does not fail. *)
Definition openai_answer (prompt : string) (w : World) : option Json :=
  if openai_client env && use_openai_fallback env then
    match snd (analyze_with_openai env prompt w) with
    | inr r => Some r
    | inl _ => None
    end
  else None.

Lemma analyze_with_ollama_run (prompt : string) (w : World) :
  analyze_with_ollama env prompt w = (w, inr (ollama_answer prompt w)).
Proof.
  unfold analyze_with_ollama, ollama_answer, try_except, bind.
  rewrite (LLMSpec.run_eta (ollama_attempt env (ollama_model env) prompt) w).
  rewrite LLMSpec.ollama_attempt_world.
  destruct (snd (ollama_attempt env (ollama_model env) prompt w));
    [|reflexivity].
  destruct (String.eqb (ollama_fallback_model env) (ollama_model env));
    simpl; [reflexivity|].
  rewrite (LLMSpec.run_eta
             (ollama_attempt env (ollama_fallback_model env) prompt) w).
  rewrite LLMSpec.ollama_attempt_world.
  destruct (snd (ollama_attempt env (ollama_fallback_model env) prompt w));
    reflexivity.
Qed.

(** The whole of [analyze_code] as a choice between three answers. *)
Lemma analyze_code_run (code language file_path : string)
      (context : option (list VectorStore.SearchResult)) (w : World) :
  let prompt := build_analysis_prompt env code language file_path context in
  analyze_code env code language file_path context w
  = (w, inr (match accepted_ollama_answer prompt w with
             | Some r => r
             | None => match openai_answer prompt w with
                       | Some r => r
                       | None => empty_result
                       end
             end)).
Proof.
  intros prompt. unfold analyze_code. fold prompt.
  unfold accepted_ollama_answer, openai_answer.
  unfold bind at 1. unfold try_except at 1.
  destruct (ollama_client env).
  - unfold bind at 1. rewrite analyze_with_ollama_run.
    destruct (ollama_answer prompt w) as [r|].
    + destruct (truthy r); [reflexivity|].
      unfold ret at 1. unfold bind at 1.
      destruct (openai_client env && use_openai_fallback env);
        [|reflexivity].
      unfold try_except, bind.
      rewrite (LLMSpec.run_eta (analyze_with_openai env prompt) w).
      rewrite LLMSpec.analyze_with_openai_world.
      destruct (snd (analyze_with_openai env prompt w)); reflexivity.
    + unfold ret at 1. unfold bind at 1.
      destruct (openai_client env && use_openai_fallback env);
        [|reflexivity].
      unfold try_except, bind.
      rewrite (LLMSpec.run_eta (analyze_with_openai env prompt) w).
      rewrite LLMSpec.analyze_with_openai_world.
      destruct (snd (analyze_with_openai env prompt w)); reflexivity.
  - unfold ret at 1. unfold bind at 1.
    destruct (openai_client env && use_openai_fallback env); [|reflexivity].
    unfold try_except, bind.
    rewrite (LLMSpec.run_eta (analyze_with_openai env prompt) w).
    rewrite LLMSpec.analyze_with_openai_world.
    destruct (snd (analyze_with_openai env prompt w)); reflexivity.
Qed.

(** X11. The analysis never raises and leaves the world as it is, and
    what it returns is the empty result, or an answer of one of the two
    Ollama models that is true in Python's sense, or the answer of
    OpenAI: nothing else. *)
Theorem analyze_code_answer_origin (code language file_path : string)
        (context : option (list VectorStore.SearchResult)) (w : World) :
  let prompt := build_analysis_prompt env code language file_path context in
  exists r,
    analyze_code env code language file_path context w = (w, inr r) /\
    (r = empty_result \/
     (ollama_client env = true /\ truthy r = true /\
      (snd (ollama_attempt env (ollama_model env) prompt w) = inr r \/
       snd (ollama_attempt env (ollama_fallback_model env) prompt w) = inr r))
     \/
     (openai_client env && use_openai_fallback env = true /\
      snd (analyze_with_openai env prompt w) = inr r)).
Proof.
  intros prompt. rewrite analyze_code_run. fold prompt.
  eexists. split; [reflexivity|].
  unfold accepted_ollama_answer, ollama_answer, openai_answer.
  destruct (ollama_client env);
    [destruct (snd (ollama_attempt env (ollama_model env) prompt w))
       as [e1|r1] eqn:E1;
     [destruct (String.eqb (ollama_fallback_model env) (ollama_model env));
      [|destruct (snd (ollama_attempt env (ollama_fallback_model env)
                                      prompt w)) as [e2|r2] eqn:E2]|]|];
    try (destruct (truthy r1) eqn:T1; [right; left; auto|]);
    try (destruct (truthy r2) eqn:T2; [right; left; auto|]);
    (destruct (openai_client env && use_openai_fallback env);
     [destruct (snd (analyze_with_openai env prompt w)) eqn:E3|]; auto).
Qed.

(** X12. With an Ollama client, an answer of the primary model that is
    true in Python's sense is what the analysis returns; no other model or
    provider decides. *)
Theorem primary_answer_is_returned (code language file_path : string)
        (context : option (list VectorStore.SearchResult)) (w : World)
        (r : Json) :
  let prompt := build_analysis_prompt env code language file_path context in
  ollama_client env = true ->
  snd (ollama_attempt env (ollama_model env) prompt w) = inr r ->
  truthy r = true ->
  analyze_code env code language file_path context w = (w, inr r).
Proof.
  intros prompt Hc Hr Ht. rewrite analyze_code_run. fold prompt.
  unfold accepted_ollama_answer, ollama_answer. rewrite Hc, Hr, Ht.
  reflexivity.
Qed.

(** X13. When the primary model fails and the fallback model is another
    model whose answer is true in Python's sense, the analysis returns the
    fallback model's answer. *)
Theorem fallback_model_answer_is_returned (code language file_path : string)
        (context : option (list VectorStore.SearchResult)) (w : World)
        (e : Exception) (r : Json) :
  let prompt := build_analysis_prompt env code language file_path context in
  ollama_client env = true ->
  snd (ollama_attempt env (ollama_model env) prompt w) = inl e ->
  ollama_fallback_model env <> ollama_model env ->
  snd (ollama_attempt env (ollama_fallback_model env) prompt w) = inr r ->
  truthy r = true ->
  analyze_code env code language file_path context w = (w, inr r).
Proof.
  intros prompt Hc He Hne Hr Ht. rewrite analyze_code_run. fold prompt.
  unfold accepted_ollama_answer, ollama_answer. rewrite Hc, He.
  destruct (String.eqb_spec (ollama_fallback_model env) (ollama_model env));
    [contradiction|].
  rewrite Hr, Ht. reflexivity.
Qed.

(** X14. An answer of the primary model that is false in Python's sense
    (an empty object, list or string, null, zero) is dropped: the fallback
    model is not asked, and without the OpenAI fallback the analysis
    returns the empty result. *)
Theorem falsy_answer_is_dropped (code language file_path : string)
        (context : option (list VectorStore.SearchResult)) (w : World)
        (r : Json) :
  let prompt := build_analysis_prompt env code language file_path context in
  ollama_client env = true ->
  snd (ollama_attempt env (ollama_model env) prompt w) = inr r ->
  truthy r = false ->
  openai_client env && use_openai_fallback env = false ->
  analyze_code env code language file_path context w
  = (w, inr (JObj [("vulnerabilities", JArr []); ("code_review", JArr []);
                   ("auto_comments", JArr [])])).
Proof.
  intros prompt Hc Hr Ht Ho. rewrite analyze_code_run. fold prompt.
  unfold accepted_ollama_answer, ollama_answer, openai_answer.
  rewrite Hc, Hr, Ht, Ho. reflexivity.
Qed.

(** X15. When the Ollama stage gives no accepted answer and the OpenAI
    fallback is configured and enabled, the analysis returns OpenAI's
    parsed answer as it is, without the truth test. *)
Theorem openai_answer_is_returned (code language file_path : string)
        (context : option (list VectorStore.SearchResult)) (w : World)
        (r : Json) :
  let prompt := build_analysis_prompt env code language file_path context in
  accepted_ollama_answer prompt w = None ->
  openai_client env && use_openai_fallback env = true ->
  snd (analyze_with_openai env prompt w) = inr r ->
  analyze_code env code language file_path context w = (w, inr r).
Proof.
  intros prompt Hn Ho Hr. rewrite analyze_code_run. fold prompt.
  unfold openai_answer. rewrite Hn, Ho, Hr. reflexivity.
Qed.

(** X16. The prompt uses the first three context chunks only, and an
    empty context list gives the prompt of no context. *)
Theorem prompt_uses_three_context_chunks (code language file_path : string)
        (context : list VectorStore.SearchResult) :
  build_analysis_prompt env code language file_path (Some context)
  = build_analysis_prompt env code language file_path
                          (Some (firstn 3 context)) /\
  build_analysis_prompt env code language file_path (Some [])
  = build_analysis_prompt env code language file_path None.
Proof.
  split; [|reflexivity].
  unfold build_analysis_prompt.
  destruct context as [|c1 [|c2 [|c3 rest]]]; reflexivity.
Qed.

End WithEnv.

(** An environment for the runs of this section: the Ollama client, the
    JSON parser and the OpenAI reply are given. *)
Definition answering_env
           (generate : string -> string -> Exception + string)
           (loads : string -> Exception + Json)
           (with_openai : bool) (reply : Exception + option string) : Env :=
  mkEnv (fun texts => inr (map Fixture.row_of texts))
        Qdrant.memory_upsert (Qdrant.memory_search Fixture.dot)
        Qdrant.memory_delete
        true generate
        with_openai (fun _ _ => reply)
        "codellama:34b-instruct" "deepseek-coder:33b" "gpt-4o" with_openai
        loads (fun _ => None) (fun _ => None) (fun text => text)
        (fun language_arg context_text file_path_arg code => code)
        Fixture.strict_str Fixture.strict_int Fixture.strict_opt_str
        None
        (fun url branch => inl (Exc "GitCommandError" "clone failed"))
        (fun directory include_patterns exclude_patterns => inr []).

(** X12 run: the primary model answers with one vulnerability. *)
Lemma primary_answer_is_returned_witness :
  exists r,
    Fixture.canned_json "good" = inr r /\
    analyze_code Fixture.demo_env "good" "python" "a.py" (Some []) Fixture.w0
    = (Fixture.w0, inr r).
Proof.
  eexists. split; [reflexivity|].
  apply (primary_answer_is_returned Fixture.demo_env "good" "python" "a.py"
                                    (Some []) Fixture.w0);
    reflexivity.
Defined.

(** X13 run: the primary model refuses, the fallback model answers. *)
Lemma fallback_model_answer_is_returned_witness :
  let env :=
    answering_env
      (fun model prompt =>
         if String.eqb model "codellama:34b-instruct"
         then inl (Exc "ResponseError" "model not found") else inr prompt)
      Fixture.canned_json false (inr None) in
  exists r,
    Fixture.canned_json "good" = inr r /\
    analyze_code env "good" "python" "a.py" (Some []) Fixture.w0
    = (Fixture.w0, inr r).
Proof.
  intros env. eexists. split; [reflexivity|].
  apply (fallback_model_answer_is_returned env "good" "python" "a.py"
           (Some []) Fixture.w0 (Exc "ResponseError" "model not found"));
    try reflexivity.
  discriminate.
Defined.

(** X14 run: the primary model answers with an empty object. *)
Lemma falsy_answer_is_dropped_witness :
  let env := answering_env (fun model prompt => inr prompt)
                           (fun text => inr (JObj [])) false (inr None) in
  analyze_code env "x = 1" "python" "a.py" (Some []) Fixture.w0
  = (Fixture.w0, inr empty_result).
Proof.
  intros env.
  apply (falsy_answer_is_dropped env "x = 1" "python" "a.py" (Some [])
                                 Fixture.w0 (JObj []));
    reflexivity.
Defined.

(** X15 run: Ollama is down and OpenAI answers with an empty object, which
    is returned. *)
Lemma openai_answer_is_returned_witness :
  let env :=
    answering_env (fun model prompt => inl (Exc "ConnectionError" "refused"))
                  (fun text => inr (JObj [])) true (inr None) in
  analyze_code env "x = 1" "python" "a.py" (Some []) Fixture.w0
  = (Fixture.w0, inr (JObj [])).
Proof.
  intros env.
  apply (openai_answer_is_returned env "x = 1" "python" "a.py" (Some [])
                                   Fixture.w0 (JObj []));
    reflexivity.
Defined.

End LLMFacts.

(** ** The conversion of an analysis into findings *)

Module ConversionFacts.
Import Runtime Schemas Scanner.

Lemma bind_inr_inv {A B} (m : M A) (f : A -> M B) (w w' : World) (b : B) :
  bind m f w = (w', inr b) ->
  exists w1 a, m w = (w1, inr a) /\ f a w1 = (w', inr b).
Proof.
  unfold bind. destruct (m w) as [w1 [e|a]]; [discriminate|]. eauto.
Qed.

Lemma lift_inr_inv {A} (r : Exception + A) (w w' : World) (a : A) :
  lift r w = (w', inr a) -> r = inr a /\ w' = w.
Proof. unfold lift. intros H. injection H as -> ->. auto. Qed.

Lemma ret_inr_inv {A} (x a : A) (w w' : World) :
  ret x w = (w', inr a) -> a = x /\ w' = w.
Proof. unfold ret. intros H. injection H as -> ->. auto. Qed.

(** Peel the binds of a run that returned, one computation at a time. *)
Ltac peel H :=
  repeat match type of H with
  | bind _ _ _ = (_, inr _) =>
      let w1 := fresh "w" in let a := fresh "a" in let H1 := fresh "R" in
      apply bind_inr_inv in H as (w1 & a & H1 & H)
  end.

Ltac settle :=
  repeat match goal with
  | R : lift _ _ = (_, inr _) |- _ =>
      apply lift_inr_inv in R as [R ->]
  | R : ret _ _ = (_, inr _) |- _ =>
      apply ret_inr_inv in R as [-> ->]
  end.

(** [Severity(value)] gives the member whose value is [value]. *)
Lemma Severity_of_value_value (value : string) (sev : Severity) :
  Severity_of_value value = inr sev -> severity_value sev = value.
Proof.
  unfold Severity_of_value, severities. cbn [List.find severity_value].
  repeat match goal with
  | |- context [String.eqb ?a value] =>
      destruct (String.eqb_spec a value) as [<-|_];
      [intros H; injection H as <-; reflexivity|]
  end.
  discriminate.
Qed.

Lemma json_get_obj (obj : Json) (key : string) (dflt v : Json) :
  json_get obj key dflt = inr v ->
  exists fields,
    obj = JObj fields /\
    v = match assoc key fields with Some x => x | None => dflt end.
Proof.
  destruct obj; simpl; try discriminate.
  intros H. injection H as <-. eauto.
Qed.

Section WithEnv.
Variable env : Env.

Lemma make_location_inv (file_path_arg : string) (start_raw end_raw : Json)
      (fn : option string) (w w' : World) (loc : Location) :
  make_location env file_path_arg start_raw end_raw fn w = (w', inr loc) ->
  w' = w /\
  Schemas.file_path loc = file_path_arg /\
  pydantic_int env start_raw = inr (Schemas.start_line loc) /\
  pydantic_int env end_raw = inr (Schemas.end_line loc).
Proof.
  unfold make_location. intros H. peel H. settle. simpl. auto.
Qed.

Lemma make_issue_inv (id_arg : Uuid) (type_arg : IssueType)
      (severity_arg : Severity) (title_raw description_raw : Json)
      (location_arg : Location)
      (rule_raw cwe_raw owasp_raw suggestion_raw snippet_raw fixed_raw : Json)
      (w w' : World) (issue : Issue) :
  make_issue env id_arg type_arg severity_arg title_raw description_raw
             location_arg rule_raw cwe_raw owasp_raw suggestion_raw
             snippet_raw fixed_raw w = (w', inr issue) ->
  w' = w /\
  id issue = id_arg /\ type issue = type_arg /\
  severity issue = severity_arg /\ location issue = location_arg /\
  pydantic_str env title_raw = inr (title issue) /\
  pydantic_str env description_raw = inr (description issue).
Proof.
  unfold make_issue. intros H. peel H. settle. simpl. auto 10.
Qed.

(** Read the dictionary lookups of a run on the object [JObj fields]. *)
Ltac read_fields :=
  cbn [json_get] in *;
  repeat match goal with
  | H : inr ?x = inr ?x |- _ => clear H
  | H : inr _ = inr ?a |- _ => is_var a; injection H as <-
  end.

(** X17. A vulnerability item that converts is a dictionary, and the
    finding made of it has a fresh identifier, the type vulnerability and
    the path of the analysed file; its severity is "medium" when the item
    has no severity, and otherwise the member whose value is the item's
    severity string lowercased; its end line is its start line when the
    item has no end line. *)
Theorem vulnerability_issue_fields (file_path_arg : string) (vuln : Json)
        (w w' : World) (issue : Issue) :
  vulnerability_issue env file_path_arg vuln w = (w', inr issue) ->
  exists fields,
    vuln = JObj fields /\
    id issue = uuid_of_nat (next_uuid w) /\
    next_uuid w' = S (next_uuid w) /\
    type issue = VULNERABILITY /\
    Schemas.file_path (location issue) = file_path_arg /\
    (assoc "severity" fields = None -> severity issue = MEDIUM) /\
    (forall s, assoc "severity" fields = Some (JStr s) ->
               severity_value (severity issue) = lower s) /\
    (assoc "end_line" fields = None ->
     Schemas.end_line (location issue) = Schemas.start_line (location issue)).
Proof.
  unfold vulnerability_issue. intros H. peel H.
  unfold uuid4 in R. injection R as <- <-. settle.
  apply make_issue_inv in H as (-> & Hid & Hty & Hsev & Hloc & _).
  apply make_location_inv in R8 as (-> & Hpath & Hstart & Hend).
  destruct (json_get_obj _ _ _ _ R0) as (fields & -> & ->).
  read_fields. exists fields.
  split; [reflexivity|]. split; [exact Hid|]. split; [reflexivity|].
  split; [exact Hty|]. rewrite Hloc, Hsev.
  split; [exact Hpath|]. split; [|split].
  - intros Hnone. rewrite Hnone in R1. simpl in R1. injection R1 as <-.
    vm_compute in R2. injection R2 as <-. reflexivity.
  - intros s Hs. rewrite Hs in R1. simpl in R1. injection R1 as <-.
    apply Severity_of_value_value. exact R2.
  - intros Hnone. rewrite Hnone in Hend. rewrite Hstart in Hend.
    injection Hend as <-. reflexivity.
Qed.

(** X18. An auto-comment item that converts is a dictionary, and the
    finding made of it has the type auto_comment, the severity info
    whatever the item says, the path of the analysed file, the title
    "Suggested comment" as validated, and one line: its end line is its
    start line. *)
Theorem comment_issue_fields (file_path_arg : string) (comment : Json)
        (w w' : World) (issue : Issue) :
  comment_issue env file_path_arg comment w = (w', inr issue) ->
  exists fields,
    comment = JObj fields /\
    id issue = uuid_of_nat (next_uuid w) /\
    type issue = AUTO_COMMENT /\
    severity issue = INFO /\
    Schemas.file_path (location issue) = file_path_arg /\
    pydantic_str env (JStr "Suggested comment") = inr (title issue) /\
    Schemas.end_line (location issue) = Schemas.start_line (location issue).
Proof.
  unfold comment_issue. intros H. peel H.
  unfold uuid4 in R. injection R as <- <-. settle.
  apply make_issue_inv in H as (-> & Hid & Hty & Hsev & Hloc & Htitle & _).
  apply make_location_inv in R3 as (-> & Hpath & Hstart & Hend).
  destruct (json_get_obj _ _ _ _ R0) as (fields & -> & ->).
  read_fields. exists fields.
  split; [reflexivity|]. split; [exact Hid|]. split; [exact Hty|].
  split; [exact Hsev|]. rewrite Hloc. split; [exact Hpath|].
  split; [exact Htitle|].
  rewrite Hstart in Hend. injection Hend as <-. reflexivity.
Qed.

(** What kind of finding each of the three loops makes, and for which
    file. *)
Definition made_by (kind : IssueType) (file_path_arg : string)
           (issue : Issue) : Prop :=
  type issue = kind /\ Schemas.file_path (location issue) = file_path_arg.

Lemma vulnerability_issue_kind (file_path_arg : string) (item : Json)
      (w w' : World) (issue : Issue) :
  vulnerability_issue env file_path_arg item w = (w', inr issue) ->
  made_by VULNERABILITY file_path_arg issue /\
  next_uuid w' = S (next_uuid w).
Proof.
  unfold vulnerability_issue. intros H. peel H.
  unfold uuid4 in R. injection R as <- <-. settle.
  apply make_issue_inv in H as (-> & _ & Hty & _ & Hloc & _).
  apply make_location_inv in R8 as (-> & Hpath & _).
  split; [|reflexivity]. split; [exact Hty|]. rewrite Hloc. exact Hpath.
Qed.

Lemma review_issue_kind (file_path_arg : string) (item : Json)
      (w w' : World) (issue : Issue) :
  review_issue env file_path_arg item w = (w', inr issue) ->
  made_by CODE_REVIEW file_path_arg issue /\
  next_uuid w' = S (next_uuid w).
Proof.
  unfold review_issue. intros H. peel H.
  unfold uuid4 in R. injection R as <- <-. settle.
  apply make_issue_inv in H as (-> & _ & Hty & _ & Hloc & _).
  apply make_location_inv in R8 as (-> & Hpath & _).
  split; [|reflexivity]. split; [exact Hty|]. rewrite Hloc. exact Hpath.
Qed.

Lemma comment_issue_kind (file_path_arg : string) (item : Json)
      (w w' : World) (issue : Issue) :
  comment_issue env file_path_arg item w = (w', inr issue) ->
  made_by AUTO_COMMENT file_path_arg issue /\
  next_uuid w' = S (next_uuid w).
Proof.
  unfold comment_issue. intros H. peel H.
  unfold uuid4 in R. injection R as <- <-. settle.
  apply make_issue_inv in H as (-> & _ & Hty & _ & Hloc & _).
  apply make_location_inv in R3 as (-> & Hpath & _).
  split; [|reflexivity]. split; [exact Hty|]. rewrite Hloc. exact Hpath.
Qed.

(** A loop that returns has made one result per item, each by a run of
    the body that returned, and has drawn as many identifiers as the
    bodies did. *)
Lemma mapM_returns {A} (f : A -> M Issue) (kind : IssueType)
      (file_path_arg : string) :
  (forall x w w' issue, f x w = (w', inr issue) ->
     made_by kind file_path_arg issue /\ next_uuid w' = S (next_uuid w)) ->
  forall (l : list A) (w w' : World) (found : list Issue),
    mapM f l w = (w', inr found) ->
    List.length found = List.length l /\
    Forall (made_by kind file_path_arg) found /\
    next_uuid w' = (next_uuid w + List.length l)%nat.
Proof.
  intros Hf l. induction l as [|x l IH]; intros w w' found H.
  - simpl in H. apply ret_inr_inv in H as [-> ->]. simpl.
    split; [reflexivity|]. split; [constructor|lia].
  - simpl in H. peel H. apply ret_inr_inv in H as [-> ->].
    destruct (Hf _ _ _ _ R) as (Hk & Hn).
    destruct (IH _ _ _ R0) as (Hlen & Hall & Hn').
    simpl. split; [lia|]. split; [constructor; assumption|lia].
Qed.

(** X19. When the conversion returns, the analysis is a dictionary and
    the findings are, in this order, one vulnerability per item of
    "vulnerabilities", one code review finding per item of "code_review"
    and one auto-comment per item of "auto_comments" (a missing key
    counting as an empty list); all are located in the analysed file, and
    one identifier was drawn per finding. *)
Theorem convert_returns_one_finding_per_item
        (analysis : Json) (file_path_arg language_arg : string)
        (w w' : World) (found : list Issue) :
  convert_analysis_to_issues env analysis file_path_arg language_arg w
  = (w', inr found) ->
  exists fields vulns reviews comments,
    analysis = JObj fields /\
    json_iter (match assoc "vulnerabilities" fields with
               | Some v => v | None => JArr [] end) = inr vulns /\
    json_iter (match assoc "code_review" fields with
               | Some v => v | None => JArr [] end) = inr reviews /\
    json_iter (match assoc "auto_comments" fields with
               | Some v => v | None => JArr [] end) = inr comments /\
    map type found
    = repeat VULNERABILITY (List.length vulns)
      ++ repeat CODE_REVIEW (List.length reviews)
      ++ repeat AUTO_COMMENT (List.length comments) /\
    Forall (fun issue => Schemas.file_path (location issue) = file_path_arg)
           found /\
    next_uuid w' = (next_uuid w + List.length found)%nat.
Proof.
  unfold convert_analysis_to_issues. intros H. peel H. settle.
  destruct (json_get_obj _ _ _ _ R) as (fields & -> & ->).
  read_fields.
  destruct (mapM_returns _ _ _ (vulnerability_issue_kind file_path_arg)
                         _ _ _ _ R1) as (L1 & F1 & N1).
  destruct (mapM_returns _ _ _ (review_issue_kind file_path_arg)
                         _ _ _ _ R4) as (L2 & F2 & N2).
  destruct (mapM_returns _ _ _ (comment_issue_kind file_path_arg)
                         _ _ _ _ R7) as (L3 & F3 & N3).
  assert (Hkinds : forall kind l,
             Forall (made_by kind file_path_arg) l ->
             map type l = repeat kind (List.length l) /\
             Forall (fun issue =>
                       Schemas.file_path (location issue) = file_path_arg) l).
  { intros kind l Hl. induction Hl as [|i l [Hk Hp] _ [IH1 IH2]]; simpl.
    - split; constructor.
    - rewrite Hk, IH1. split; [reflexivity|constructor; assumption]. }
  destruct (Hkinds _ _ F1) as (K1 & P1).
  destruct (Hkinds _ _ F2) as (K2 & P2).
  destruct (Hkinds _ _ F3) as (K3 & P3).
  exists fields, a0, a3, a6.
  split; [reflexivity|]. split; [exact R0|]. split; [exact R3|].
  split; [exact R6|]. split; [|split].
  - rewrite !map_app, K1, K2, K3, L1, L2, L3. reflexivity.
  - repeat (apply Forall_app; split); assumption.
  - rewrite !length_app. lia.
Qed.

(** X20. The empty result converts to no finding, without drawing an
    identifier; so a file whose analysis is the empty result, as when
    every provider is down, counts as scanned and adds nothing. *)
Theorem empty_result_counts_as_scanned (acc : list Issue * Z)
        (file_info : Ingestion.FileInfo) (w w1 w2 : World)
        (context : list VectorStore.SearchResult) :
  retrieve_context env file_info w = (w1, inr context) ->
  LLM.analyze_code env (Ingestion.content file_info)
                   (Ingestion.language file_info) (Ingestion.path file_info)
                   (Some context) w1 = (w2, inr LLM.empty_result) ->
  convert_analysis_to_issues env LLM.empty_result (Ingestion.path file_info)
                             (Ingestion.language file_info) w2
  = (w2, inr []) /\
  analyze_file env acc file_info w = (w2, inr (fst acc, snd acc + 1)).
Proof.
  intros Hctx Han.
  assert (Hconv : convert_analysis_to_issues env LLM.empty_result
                    (Ingestion.path file_info) (Ingestion.language file_info)
                    w2 = (w2, inr [])) by reflexivity.
  split; [exact Hconv|].
  rewrite (ScannerSpec.analyze_file_returns env acc file_info w w2 []).
  - rewrite app_nil_r. reflexivity.
  - unfold analyze_one.
    rewrite (ScannerSpec.bind_returns _ _ _ _ _ Hctx).
    rewrite (ScannerSpec.bind_returns _ _ _ _ _ Han). exact Hconv.
Qed.

(** X21. An analysis that is not a dictionary (a list, a string, a
    number, null) makes the conversion raise an AttributeError at once,
    nothing drawn; the round of the loop for a file with such an analysis
    keeps the findings and the count as they were. *)
Theorem non_object_analysis_is_skipped (acc : list Issue * Z)
        (file_info : Ingestion.FileInfo) (w w1 w2 : World)
        (context : list VectorStore.SearchResult) (analysis : Json) :
  retrieve_context env file_info w = (w1, inr context) ->
  LLM.analyze_code env (Ingestion.content file_info)
                   (Ingestion.language file_info) (Ingestion.path file_info)
                   (Some context) w1 = (w2, inr analysis) ->
  (forall fields, analysis <> JObj fields) ->
  (exists msg,
     convert_analysis_to_issues env analysis (Ingestion.path file_info)
                                (Ingestion.language file_info) w2
     = (w2, inl (Exc "AttributeError" msg))) /\
  analyze_file env acc file_info w = (w2, inr acc).
Proof.
  intros Hctx Han Hnot.
  assert (Hconv : convert_analysis_to_issues env analysis
                    (Ingestion.path file_info) (Ingestion.language file_info)
                    w2
                  = (w2, inl (Exc "AttributeError"
                                  "object has no attribute get"))).
  { unfold convert_analysis_to_issues.
    apply ScannerSpec.bind_raises. unfold lift.
    destruct analysis; try reflexivity. exfalso. eapply Hnot. reflexivity. }
  split; [eexists; exact Hconv|].
  apply ScannerSpec.analyze_file_raises
    with (e := Exc "AttributeError" "object has no attribute get").
  unfold analyze_one.
  rewrite (ScannerSpec.bind_returns _ _ _ _ _ Hctx).
  rewrite (ScannerSpec.bind_returns _ _ _ _ _ Han). exact Hconv.
Qed.

End WithEnv.

(** X17 run: an item with a title only becomes a medium vulnerability of
    one line. *)
Lemma vulnerability_issue_fields_witness :
  exists issue w',
    vulnerability_issue Fixture.demo_env "a.py"
                        (JObj [("title", JStr "Hardcoded secret")])
                        Fixture.w0 = (w', inr issue) /\
    severity issue = MEDIUM /\
    Schemas.end_line (location issue) = Schemas.start_line (location issue).
Proof.
  destruct (vulnerability_issue Fixture.demo_env "a.py"
              (JObj [("title", JStr "Hardcoded secret")]) Fixture.w0)
    as [w' [e|issue]] eqn:Hrun.
  - vm_compute in Hrun. discriminate.
  - exists issue, w'. split; [reflexivity|].
    destruct (vulnerability_issue_fields Fixture.demo_env _ _ _ _ _ Hrun)
      as (fields & Hv & _ & _ & _ & _ & Hmedium & _ & Hend).
    injection Hv as <-. split; [apply Hmedium|apply Hend]; reflexivity.
Defined.

(** X18 run: a comment on line 7. *)
Lemma comment_issue_fields_witness :
  exists issue w',
    comment_issue Fixture.demo_env "a.py"
                  (JObj [("line", JInt 7); ("comment", JStr "explain")])
                  Fixture.w0 = (w', inr issue) /\
    severity issue = INFO /\
    Schemas.end_line (location issue) = Schemas.start_line (location issue).
Proof.
  destruct (comment_issue Fixture.demo_env "a.py"
              (JObj [("line", JInt 7); ("comment", JStr "explain")])
              Fixture.w0) as [w' [e|issue]] eqn:Hrun.
  - vm_compute in Hrun. discriminate.
  - exists issue, w'. split; [reflexivity|].
    destruct (comment_issue_fields Fixture.demo_env _ _ _ _ _ Hrun)
      as (fields & _ & _ & _ & Hinfo & _ & _ & Hend).
    split; assumption.
Defined.

(** An analysis with one item of each kind. *)
Definition one_of_each : Json :=
  JObj [("auto_comments", JArr [JObj [("line", JInt 3)]]);
        ("vulnerabilities", JArr [JObj [("severity", JStr "High")]]);
        ("code_review", JArr [JObj [("title", JStr "Rename")]])].

(** X19 run: the findings come in the order of the three loops, not in the
    order of the keys. *)
Lemma convert_returns_one_finding_per_item_witness :
  exists found w',
    convert_analysis_to_issues Fixture.demo_env one_of_each "a.py" "python"
                               Fixture.w0 = (w', inr found) /\
    map type found = [VULNERABILITY; CODE_REVIEW; AUTO_COMMENT] /\
    next_uuid w' = 3%nat.
Proof.
  destruct (convert_analysis_to_issues Fixture.demo_env one_of_each "a.py"
              "python" Fixture.w0) as [w' [e|found]] eqn:Hrun.
  - vm_compute in Hrun. discriminate.
  - exists found, w'. split; [reflexivity|].
    destruct (convert_returns_one_finding_per_item Fixture.demo_env _ _ _ _ _
                _ Hrun)
      as (fields & vulns & reviews & comments & Ha & Hv & Hr & Hc & Hty & _
          & Hn).
    injection Ha as <-.
    vm_compute in Hv, Hr, Hc.
    injection Hv as <-. injection Hr as <-. injection Hc as <-.
    split; [exact Hty|].
    rewrite Hn. apply (f_equal (@List.length _)) in Hty.
    rewrite length_map in Hty. rewrite Hty. reflexivity.
Defined.

(** X20 run with every provider down. *)
Lemma empty_result_counts_as_scanned_witness :
  let file_a := Ingestion.mkFile "a.py" "repo/a.py" "good" "python" 4 1 in
  let w1 := mkWorld [] [["good"]] 0 0 in
  convert_analysis_to_issues Fixture.offline_env LLM.empty_result "a.py"
                             "python" w1 = (w1, inr []) /\
  analyze_file Fixture.offline_env ([], 0) file_a Fixture.w0
  = (w1, inr ([], 0 + 1)).
Proof.
  intros file_a w1.
  apply (empty_result_counts_as_scanned Fixture.offline_env ([], 0) file_a
           Fixture.w0 w1 w1 []).
  - vm_compute. reflexivity.
  - vm_compute. reflexivity.
Defined.

(** X21 run: the model answers with a JSON list. *)
Lemma non_object_analysis_is_skipped_witness :
  let env := LLMFacts.answering_env (fun model prompt => inr prompt)
               (fun text => inr (JArr [JInt 1])) false (inr None) in
  let file_a := Ingestion.mkFile "a.py" "repo/a.py" "x = 1" "python" 5 1 in
  let w1 := mkWorld [] [["x = 1"]] 0 0 in
  (exists msg,
     convert_analysis_to_issues env (JArr [JInt 1]) "a.py" "python" w1
     = (w1, inl (Exc "AttributeError" msg))) /\
  analyze_file env ([], 0) file_a Fixture.w0 = (w1, inr ([], 0)).
Proof.
  intros env file_a w1.
  apply (non_object_analysis_is_skipped env ([], 0) file_a Fixture.w0 w1 w1
           [] (JArr [JInt 1])).
  - vm_compute. reflexivity.
  - vm_compute. reflexivity.
  - intros fields. discriminate.
Defined.

End ConversionFacts.

(** ** The summary of a scan *)

Module SummaryFacts.
Import Runtime Schemas Scanner.

(** How many findings have the key [key] under [keyof]. *)
Definition tally (keyof : Issue -> string) (key : string)
           (found : list Issue) : nat :=
  List.length (List.filter (fun i => String.eqb (keyof i) key) found).

Definition severity_key (i : Issue) : string := severity_value (severity i).
Definition type_key (i : Issue) : string := issue_type_value (type i).

Lemma bump_lookup (key k : string) (d : gmap string Z) :
  bump key d !! k
  = if String.eqb key k then Some (default 0 (d !! key) + 1) else d !! k.
Proof.
  unfold bump. rewrite lookup_insert.
  destruct (String.eqb_spec key k) as [->|Hne].
  - rewrite decide_True by reflexivity. reflexivity.
  - rewrite decide_False by exact Hne. reflexivity.
Qed.

(** A dictionary after the counting loop: a key no finding has is as it
    was, and any other key holds its old count (0 if it was absent) plus
    the number of findings that have it. *)
Lemma bumps_lookup (keyof : Issue -> string) (found : list Issue)
      (d : gmap string Z) (k : string) :
  fold_left (fun acc i => bump (keyof i) acc) found d !! k
  = if (tally keyof k found =? 0)%nat then d !! k
    else Some (default 0 (d !! k) + Z.of_nat (tally keyof k found)).
Proof.
  revert d; induction found as [|i rest IH]; intros d; [reflexivity|].
  cbn [fold_left]. rewrite IH, bump_lookup.
  assert (Hstep : tally keyof k (i :: rest)
                  = ((if String.eqb (keyof i) k then 1 else 0)
                     + tally keyof k rest)%nat).
  { unfold tally. cbn [List.filter].
    destruct (String.eqb (keyof i) k); reflexivity. }
  rewrite Hstep.
  destruct (String.eqb_spec (keyof i) k) as [E|Hne].
  - rewrite E. destruct (tally keyof k rest) as [|n].
    + reflexivity.
    + cbn [Nat.add Nat.eqb default]. f_equal. unfold Datatypes.id.
      generalize (default 0 (d !! k)). intros z. lia.
  - reflexivity.
Qed.

Lemma count_issue_fold (found : list Issue)
      (acc : gmap string Z * gmap string Z) :
  fold_left count_issue found acc
  = (fold_left (fun d i => bump (severity_key i) d) found (fst acc),
     fold_left (fun d i => bump (type_key i) d) found (snd acc)).
Proof.
  revert acc; induction found as [|i rest IH]; intros acc.
  - destruct acc; reflexivity.
  - simpl. rewrite IH. reflexivity.
Qed.

Lemma tally_no_severity (k : string) (found : list Issue) :
  k ∉ ScannerSpec.severity_values -> tally severity_key k found = 0%nat.
Proof.
  intros Hnot. unfold tally.
  induction found as [|i rest IH]; [reflexivity|]. simpl.
  destruct (String.eqb_spec (severity_key i) k) as [<-|_]; [|exact IH].
  exfalso. apply Hnot. unfold severity_key.
  destruct (severity i); apply (bool_decide_unpack _); vm_compute; exact I.
Qed.

Lemma tally_severities (found : list Issue) :
  (tally severity_key "critical" found + tally severity_key "high" found
   + tally severity_key "medium" found + tally severity_key "low" found
   + tally severity_key "info" found)%nat
  = List.length found.
Proof.
  unfold tally, severity_key.
  induction found as [|i rest IH]; [reflexivity|].
  simpl. destruct (severity i); simpl; lia.
Qed.

(** X22. The summary holds the number of findings under "total_issues";
    under "by_severity" a dictionary with exactly the five severities as
    keys, each with the number of findings of that severity; under
    "by_type" the number of findings of each type (a type without a count
    has no finding). The five severity counts add up to the number of
    findings. *)
Theorem summary_counts_findings (found : list Issue) :
  exists by_severity by_type,
    calculate_summary found
    = <["total_issues" := SInt (Z.of_nat (List.length found))]>
        (<["by_severity" := SCounts by_severity]>
           (<["by_type" := SCounts by_type]> ∅)) /\
    (forall s : Severity,
       by_severity !! severity_value s
       = Some (Z.of_nat (tally severity_key (severity_value s) found))) /\
    (forall k, k ∉ ScannerSpec.severity_values -> by_severity !! k = None) /\
    (forall t : IssueType,
       default 0 (by_type !! issue_type_value t)
       = Z.of_nat (tally type_key (issue_type_value t) found)) /\
    (tally severity_key "critical" found + tally severity_key "high" found
     + tally severity_key "medium" found + tally severity_key "low" found
     + tally severity_key "info" found)%nat
    = List.length found.
Proof.
  unfold calculate_summary. rewrite count_issue_fold. simpl fst. simpl snd.
  eexists _, _. split; [reflexivity|]. split; [|split; [|split]].
  - intros s. rewrite bumps_lookup.
    assert (Hinit : by_severity_init !! severity_value s = Some 0)
      by (destruct s; reflexivity).
    rewrite Hinit. simpl.
    destruct (tally severity_key (severity_value s) found); reflexivity.
  - intros k Hnot. rewrite bumps_lookup, (tally_no_severity k found Hnot).
    simpl. unfold by_severity_init.
    repeat (rewrite lookup_insert_ne;
            [|intros <-; apply Hnot; apply (bool_decide_unpack _);
              vm_compute; exact I]).
    apply lookup_empty.
  - intros t. rewrite bumps_lookup.
    assert (Hinit : default 0 (by_type_init !! issue_type_value t) = 0)
      by (destruct t; reflexivity).
    destruct (tally type_key (issue_type_value t) found) eqn:E; simpl.
    + exact Hinit.
    + rewrite Hinit. reflexivity.
  - apply tally_severities.
Qed.

End SummaryFacts.

(** ** What every scan result satisfies *)

Module ScanFacts.
Import Runtime Schemas Scanner.

Lemma outcomes_length (env : Env) (files : list Ingestion.FileInfo)
      (w : World) :
  List.length (fst (ScannerSpec.outcomes env files w)) = List.length files.
Proof.
  revert w; induction files as [|f rest IH]; intros w; [reflexivity|].
  simpl. destruct (analyze_one env f w) as [w1 r].
  specialize (IH w1). destruct (ScannerSpec.outcomes env rest w1) as [outs w2].
  simpl in *. rewrite IH. reflexivity.
Qed.

Lemma succeeded_bounds (outs : list (option (list Issue))) :
  0 <= ScannerSpec.succeeded outs <= Z.of_nat (List.length outs).
Proof.
  unfold ScannerSpec.succeeded. split; [lia|].
  apply inj_le. induction outs as [|o outs IH]; [reflexivity|].
  simpl. destruct (bool_decide (is_Some o)); simpl; lia.
Qed.

Lemma summary_has_no_error (found : list Issue) :
  calculate_summary found !! "error" = None.
Proof.
  unfold calculate_summary.
  repeat (rewrite lookup_insert_ne by discriminate). apply lookup_empty.
Qed.

(** X23. Whatever a scan returns, the result carries the identifier and
    the start time drawn at the start, never counts more scanned files
    than files, and is either failed, with no file, no finding and only
    the error text in the summary, or completed, with the summary computed
    from its own findings and no error entry. *)
Theorem scan_result_invariants (env : Env)
        (repository_url_arg repository_path_arg branch : option string)
        (file_paths include_patterns exclude_patterns : option (list string))
        (w w' : World) (r : ScanResult) :
  scan env repository_url_arg repository_path_arg branch file_paths
       include_patterns exclude_patterns w = (w', inr r) ->
  scan_id r = uuid_of_nat (next_uuid w) /\
  started_at r = clock w /\
  0 <= scanned_files r <= total_files r /\
  ((status r = FAILED /\ total_files r = 0 /\ issues r = [] /\
    exists e, summary r = <["error" := SStr (str_exc e)]> ∅) \/
   (status r = COMPLETED /\
    summary r = calculate_summary (issues r) /\
    summary r !! "error" = None)).
Proof.
  rewrite ScannerSpec.scan_run. unfold try_except.
  destruct (scan_body env (uuid_of_nat (next_uuid w)) (clock w)
              repository_url_arg repository_path_arg branch file_paths
              include_patterns exclude_patterns (ScannerSpec.started_world w))
    as [w1 [e|r0]] eqn:E; intros H.
  - unfold bind, utcnow, ret in H. injection H as <- <-. simpl.
    split; [reflexivity|]. split; [reflexivity|]. split; [lia|].
    left. repeat split. exists e. reflexivity.
  - injection H as <- <-. unfold scan_body in E.
    ConversionFacts.peel E.
    rewrite ScannerSpec.analyze_files_outcomes in R0.
    injection R0 as <- <-.
    unfold utcnow in R1. injection R1 as <- <-.
    unfold ret in E. injection E as E. subst r0. simpl.
    split; [reflexivity|]. split; [reflexivity|]. split.
    + pose proof (succeeded_bounds (fst (ScannerSpec.outcomes env a w0)))
        as Hb.
      rewrite outcomes_length in Hb. lia.
    + right. split; [reflexivity|]. split; [reflexivity|].
      apply summary_has_no_error.
Qed.

(** X23 at the three-file run. *)
Lemma scan_result_invariants_witness :
  let r := snd (scan Fixture.demo_env None (Some "repo") None None None None
                     Fixture.w0) in
  exists result,
    r = inr result /\
    scan_id result = uuid_of_nat (next_uuid Fixture.w0) /\
    0 <= scanned_files result <= total_files result.
Proof.
  destruct (scan Fixture.demo_env None (Some "repo") None None None None
                 Fixture.w0) as [w' [e|result]] eqn:Hrun.
  - vm_compute in Hrun. discriminate.
  - exists result. split; [reflexivity|].
    destruct (scan_result_invariants Fixture.demo_env _ _ _ _ _ _ _ _ _ Hrun)
      as (Hid & _ & Hcount & _).
    split; assumption.
Defined.

End ScanFacts.

(** ** app/api/routes.py: the scan endpoint *)

Module Routes.
Import Runtime Schemas.

(** [ScanRequest]; [repository_url] holds the text of the validated URL,
    what [str(request.repository_url)] gives. *)
Record ScanRequest := mkScanRequest {
  req_repository_url : option string;
  req_repository_path : option string;
  req_branch : option string;
  req_file_paths : option (list string);
  req_include_patterns : option (list string);
  req_exclude_patterns : option (list string)
}.

Record ScanResponse := mkScanResponse {
  scan_id : Uuid;
  status : ScanStatus;
  repository_url : option string;
  repository_path : option string;
  started_at : nat;
  completed_at : option nat;
  total_files : Z;
  scanned_files : Z;
  total_issues : Z;
  issues_by_severity : gmap string Z;
  error : option string
}.

(** [sum(1 for i in result.issues if i.severity.value == value)] *)
Definition count_severity (value : string) (found : list Issue) : Z :=
  Z.of_nat (List.length
              (List.filter
                 (fun i => String.eqb (severity_value (severity i)) value)
                 found)).

(** The [error] field: [result.summary.get("error")], validated as an
    [Optional[str]]. *)
Definition summary_error (summary_arg : gmap string SummaryValue)
  : M (option string) :=
  match summary_arg !! "error" with
  | None => ret None
  | Some (SStr text) => ret (Some text)
  | Some _ => raise (Exc "ValidationError" "Input should be a valid string")
  end.

Section WithEnv.
Variable env : Env.

(** The body of the [try] block of [create_scan]. *)
Definition respond (request : ScanRequest) : M ScanResponse :=
  let* result :=
    Scanner.scan env (req_repository_url request)
                 (req_repository_path request) (req_branch request)
                 (req_file_paths request) (req_include_patterns request)
                 (req_exclude_patterns request) in
  let by_severity :=
    <["critical" := count_severity "critical" (issues result)]>
      (<["high" := count_severity "high" (issues result)]>
         (<["medium" := count_severity "medium" (issues result)]>
            (<["low" := count_severity "low" (issues result)]>
               (<["info" := count_severity "info" (issues result)]> ∅)))) in
  let* error_v := summary_error (summary result) in
  ret (mkScanResponse (Schemas.scan_id result) (Schemas.status result)
                      (Schemas.repository_url result)
                      (Schemas.repository_path result)
                      (Schemas.started_at result)
                      (Schemas.completed_at result)
                      (Schemas.total_files result)
                      (Schemas.scanned_files result)
                      (Z.of_nat (List.length (issues result)))
                      by_severity error_v).

(** [create_scan]; the database session is not used. *)
Definition create_scan (request : ScanRequest) : M ScanResponse :=
  let* scan_id_v := uuid4 in
  try_except (respond request)
             (fun e => raise (Exc "HTTPException"
                                  (String.append "Scan failed: " (str_exc e)))).

End WithEnv.

End Routes.

Module RoutesFacts.
Import Runtime Schemas Routes.

(** The two shapes of a scan result. *)
Lemma scan_result_shape (env : Env)
      (repository_url_arg repository_path_arg branch : option string)
      (file_paths include_patterns exclude_patterns : option (list string))
      (w w' : World) (r : ScanResult) :
  Scanner.scan env repository_url_arg repository_path_arg branch file_paths
               include_patterns exclude_patterns w = (w', inr r) ->
  (Schemas.status r = FAILED /\ issues r = [] /\
   Schemas.total_files r = 0 /\
   exists e, summary r = <["error" := SStr (str_exc e)]> ∅) \/
  (Schemas.status r = COMPLETED /\
   summary r = Scanner.calculate_summary (issues r)).
Proof.
  rewrite ScannerSpec.scan_run. unfold try_except.
  destruct (Scanner.scan_body env (uuid_of_nat (next_uuid w)) (clock w)
              repository_url_arg repository_path_arg branch file_paths
              include_patterns exclude_patterns (ScannerSpec.started_world w))
    as [w1 [e|r0]] eqn:E; intros H.
  - unfold bind, utcnow, ret in H. injection H as <- <-. simpl.
    left. repeat split. exists e. reflexivity.
  - injection H as <- <-. unfold Scanner.scan_body in E.
    ConversionFacts.peel E. unfold ret in E. injection E as E. subst r0.
    right. split; reflexivity.
Qed.

Lemma respond_run (env : Env) (request : ScanRequest) (w : World) :
  exists w' response, respond env request w = (w', inr response).
Proof.
  unfold respond. rewrite ScannerSpec.bind_run.
  destruct (ScannerSpec.scan_always_returns env (req_repository_url request)
              (req_repository_path request) (req_branch request)
              (req_file_paths request) (req_include_patterns request)
              (req_exclude_patterns request) w) as (w1 & r & Hscan).
  rewrite Hscan. rewrite ScannerSpec.bind_run.
  destruct (scan_result_shape env _ _ _ _ _ _ _ _ _ Hscan)
    as [(_ & _ & _ & e & Hsum)|(_ & Hsum)].
  - unfold summary_error. rewrite Hsum, lookup_insert_eq.
    eexists _, _. reflexivity.
  - unfold summary_error.
    rewrite Hsum, ScanFacts.summary_has_no_error.
    eexists _, _. reflexivity.
Qed.

(** X24. The scan endpoint always answers with a response: the handler
    that turns an exception of the scan into an HTTP error is never
    entered, because the scan reports its failures in its result. *)
Theorem create_scan_always_responds (env : Env) (request : ScanRequest)
        (w : World) :
  exists w' response,
    create_scan env request w = (w', inr response) /\
    respond env request
            (mkWorld (collection w) (encode_calls w) (S (next_uuid w))
                     (clock w))
    = (w', inr response).
Proof.
  unfold create_scan. rewrite ScannerSpec.bind_run. unfold uuid4.
  destruct (respond_run env request
              (mkWorld (collection w) (encode_calls w) (S (next_uuid w))
                       (clock w))) as (w' & response & Hrun).
  exists w', response. unfold try_except. rewrite Hrun. auto.
Qed.

(** X25. In a response of the scan endpoint the five counts by severity
    add up to the total number of issues, the error is present exactly
    when the status is failed, and a failed response counts no file and
    no issue. *)
Theorem create_scan_response_is_consistent (env : Env) (request : ScanRequest)
        (w w' : World) (response : ScanResponse) :
  create_scan env request w = (w', inr response) ->
  (default 0 (issues_by_severity response !! "critical")
   + default 0 (issues_by_severity response !! "high")
   + default 0 (issues_by_severity response !! "medium")
   + default 0 (issues_by_severity response !! "low")
   + default 0 (issues_by_severity response !! "info")
   = total_issues response) /\
  (status response = FAILED <-> is_Some (error response)) /\
  (status response = FAILED ->
   total_issues response = 0 /\ total_files response = 0).
Proof.
  unfold create_scan. rewrite ScannerSpec.bind_run. unfold uuid4.
  unfold try_except.
  set (w1 := mkWorld (collection w) (encode_calls w) (S (next_uuid w))
                     (clock w)).
  destruct (respond env request w1) as [w2 [e|resp]] eqn:Hrun;
    [discriminate|]. intros H. injection H as <- <-.
  unfold respond in Hrun. ConversionFacts.peel Hrun.
  unfold ret in Hrun. injection Hrun as Hrun. subst resp. simpl.
  split; [|split].
  - repeat (rewrite lookup_insert_eq
            || (rewrite lookup_insert_ne by discriminate)).
    simpl. unfold count_severity.
    pose proof (SummaryFacts.tally_severities (issues a)) as Hsum.
    unfold SummaryFacts.tally, SummaryFacts.severity_key in Hsum. lia.
  - destruct (scan_result_shape env _ _ _ _ _ _ _ _ _ R)
      as [(Hst & _ & _ & e & Hsum)|(Hst & Hsum)];
      unfold summary_error in R0; rewrite Hsum in R0.
    + rewrite lookup_insert_eq in R0. unfold ret in R0.
      injection R0 as <- <-. split; [eauto|intros _; exact Hst].
    + rewrite ScanFacts.summary_has_no_error in R0. unfold ret in R0.
      injection R0 as <- <-. rewrite Hst.
      split; [discriminate|intros [x Hx]; discriminate].
  - intros Hfailed.
    destruct (scan_result_shape env _ _ _ _ _ _ _ _ _ R)
      as [(_ & Hissues & Htotal & _)|(Hst & _)]; [|congruence].
    rewrite Hissues, Htotal. split; reflexivity.
Qed.

(** X25 at the request for the three-file run. *)
Lemma create_scan_response_is_consistent_witness :
  let request := mkScanRequest None (Some "repo") None None None None in
  exists w' response,
    create_scan Fixture.demo_env request Fixture.w0 = (w', inr response) /\
    total_issues response = 2 /\
    issues_by_severity response !! "high" = Some 2 /\
    error response = None.
Proof.
  intros request.
  destruct (create_scan Fixture.demo_env request Fixture.w0)
    as [w' [e|response]] eqn:Hrun.
  - vm_compute in Hrun. discriminate.
  - exists w', response. split; [reflexivity|].
    pose proof (create_scan_response_is_consistent Fixture.demo_env request
                  Fixture.w0 w' response Hrun) as (Hsum & _ & _).
    vm_compute in Hrun. injection Hrun as _ <-.
    split; [reflexivity|]. split; reflexivity.
Defined.

End RoutesFacts.
